(** * HomeMatch: listing generator, description enhancer, matching pipeline

    A shallow embedding of the three scripts of the repository
    ([GenerateListings.py], [GenerateEnhancedListings.py], [HomeMatch.py])
    and the properties their specification states about them.

    Python values are embedded as an inductive type, dictionaries as
    association lists in insertion order, text as [string], exceptions as an
    error monad, the chat model as an oracle, the files on disk as a map
    from names to contents.

    What lies outside the scripts is either a parameter or a model of the
    library.  The replies of the chat model are a parameter.  The vector
    store is a parameter: building a collection from documents and
    searching it may each raise.  [json.loads] is a parameter that returns
    a value or raises, [JSONDecodeError] or another exception.  The [json]
    encoder and decoder are also modelled, on values without floating-point
    numbers and text below code point 256, to state what is written to and
    read from the files on such values.  A request to the chat model is
    assumed to return; files are read and written on a system whose line
    end is LF. *)

From Stdlib Require Import String Ascii List ZArith NArith Lia Bool Arith Sorted.
From Stdlib Require Import DecimalString DecimalZ DecimalN DecimalPos DecimalFacts.
Import ListNotations.

Local Open Scope string_scope.
Local Open Scope list_scope.
Local Open Scope Z_scope.

(* ================================================================== *)
(** * Part I: definitions *)
(* ================================================================== *)

(** ** Characters used by the scripts *)

Definition dquote : ascii := "034"%char.
Definition squote : ascii := "039"%char.
Definition backslash : ascii := "092"%char.
Definition backtick : ascii := "096"%char.
Definition LF : ascii := "010"%char.
Definition CR : ascii := "013"%char.
Definition TAB : ascii := "009"%char.
Definition BS : ascii := "008"%char.
Definition FF : ascii := "012"%char.

Definition str1 (c : ascii) : string := String c EmptyString.

(** ** Python's text operations *)

Module PyStr.

(** [sub in s] *)
Fixpoint contains (sub s : string) : bool :=
  match s with
  | EmptyString => prefix sub EmptyString
  | String _ s' => prefix sub s || contains sub s'
  end.

(** [s.replace(old, new)] scans from the left and replaces the
    occurrences of [old] that do not overlap; [skip] counts the characters
    of a replaced occurrence that are still to be dropped. *)
Fixpoint replace_from (old new : string) (skip : nat) (s : string) : string :=
  match s with
  | EmptyString => EmptyString
  | String c s' =>
      match skip with
      | S k => replace_from old new k s'
      | O =>
          if prefix old s
          then (new ++ replace_from old new (String.length old - 1) s')%string
          else String c (replace_from old new 0 s')
      end
  end.

Fixpoint intersperse (new s : string) : string :=
  match s with
  | EmptyString => EmptyString
  | String c s' => String c (new ++ intersperse new s')%string
  end.

Definition replace (s old new : string) : string :=
  match old with
  | EmptyString => (new ++ intersperse new s)%string
  | String _ _ => replace_from old new 0 s
  end.

(** [s.split(sep)] for a separator of one character, which is how both
    call sites use it; the result is never empty. *)
Fixpoint split (sep : ascii) (s : string) : list string :=
  match s with
  | EmptyString => [EmptyString]
  | String c s' =>
      if Ascii.eqb c sep then EmptyString :: split sep s'
      else match split sep s' with
           | [] => [str1 c]
           | piece :: pieces => String c piece :: pieces
           end
  end.

(** Reading a text file translates the line ends CR LF and CR into LF. *)
Fixpoint universal_newlines (after_cr : bool) (s : string) : string :=
  match s with
  | EmptyString => EmptyString
  | String c s' =>
      if Ascii.eqb c CR then String LF (universal_newlines true s')
      else if Ascii.eqb c LF && after_cr then universal_newlines false s'
      else String c (universal_newlines false s')
  end.

(** Splitting after every LF, the line ends kept. *)
Fixpoint splitlines_keepends (s : string) : list string :=
  match s with
  | EmptyString => []
  | String c s' =>
      if Ascii.eqb c LF then str1 LF :: splitlines_keepends s'
      else match splitlines_keepends s' with
           | [] => [str1 c]
           | line :: lines => String c line :: lines
           end
  end.

(** [f.readlines()] on a file opened for reading in text mode. *)
Definition readlines (content : string) : list string :=
  splitlines_keepends (universal_newlines false content).

(** [str(n)] for an integer. *)
Definition of_int (n : Z) : string := NilZero.string_of_int (Z.to_int n).

(** [c in s] for a single character. *)
Definition has_char (c : ascii) (s : string) : bool := contains (str1 c) s.

Fixpoint all_chars (p : ascii -> bool) (s : string) : bool :=
  match s with
  | EmptyString => true
  | String c s' => p c && all_chars p s'
  end.

End PyStr.

(** ** Python values

    The values that travel through the scripts are the ones [json.loads]
    builds: [None], booleans, integers, text, lists and dictionaries with
    text keys.  Floating-point numbers are left out of the embedding. *)

#[local] Unset Elimination Schemes.

Inductive value : Type :=
| VNone
| VBool (b : bool)
| VInt (n : Z)
| VStr (s : string)
| VList (items : list value)
| VDict (entries : list (string * value)).

#[local] Set Elimination Schemes.

(** A dictionary keeps its entries in insertion order, one per key. *)
Definition dict : Type := list (string * value).

Fixpoint dict_get (key : string) (d : dict) : option value :=
  match d with
  | [] => None
  | (k, v) :: d' => if String.eqb k key then Some v else dict_get key d'
  end.

(** [d[key] = v]: an existing key keeps its place, a new one goes last. *)
Fixpoint dict_set (key : string) (v : value) (d : dict) : dict :=
  match d with
  | [] => [(key, v)]
  | (k, w) :: d' =>
      if String.eqb k key then (k, v) :: d' else (k, w) :: dict_set key v d'
  end.

Definition dict_keys (d : dict) : list string := map fst d.

(** ** Exceptions *)

Inductive exn : Type :=
| KeyError (key : string)
| TypeError
| IndexError
| AttributeError
| JSONDecodeError
| ValueError
| RecursionError
| FileNotFoundError (name : string).

Inductive result (A : Type) : Type :=
| Ok (a : A)
| Raise (e : exn).

Arguments Ok {A} a.
Arguments Raise {A} e.

Definition bind {A B : Type} (r : result A) (k : A -> result B) : result B :=
  match r with
  | Ok a => k a
  | Raise e => Raise e
  end.

Notation "x <- r ;; k" := (bind r (fun x => k))
  (at level 61, r at next level, right associativity).

(** [obj[key]] for a text key. *)
Definition getitem (obj : value) (key : string) : result value :=
  match obj with
  | VDict d =>
      match dict_get key d with
      | Some v => Ok v
      | None => Raise (KeyError key)
      end
  | _ => Raise TypeError
  end.

(** [text + obj]: only text can be appended to text. *)
Definition str_add (text : string) (obj : value) : result string :=
  match obj with
  | VStr s => Ok (text ++ s)%string
  | _ => Raise TypeError
  end.

(** [obj.items()] *)
Definition items (obj : value) : result dict :=
  match obj with
  | VDict d => Ok d
  | _ => Raise AttributeError
  end.

(** [for x in obj]: the elements of a list, the keys of a dictionary, the
    characters of a text. *)
Fixpoint chars (s : string) : list value :=
  match s with
  | EmptyString => []
  | String c s' => VStr (str1 c) :: chars s'
  end.

Definition iterate (obj : value) : result (list value) :=
  match obj with
  | VList xs => Ok xs
  | VDict d => Ok (map VStr (dict_keys d))
  | VStr s => Ok (chars s)
  | _ => Raise TypeError
  end.

(** ** Python's [json] module

    [dumps] follows the encoder with its default separators; [loads] is the
    decoder on the documents whose numbers are integers and whose text stays
    below code point 256.  [loads] answers [None] where the decoder raises
    [JSONDecodeError], and also on the documents outside that fragment. *)

Module Json.

Definition hex_digit (n : N) : ascii :=
  match n with
  | 0%N => "0" | 1%N => "1" | 2%N => "2" | 3%N => "3" | 4%N => "4"
  | 5%N => "5" | 6%N => "6" | 7%N => "7" | 8%N => "8" | 9%N => "9"
  | 10%N => "a" | 11%N => "b" | 12%N => "c" | 13%N => "d" | 14%N => "e"
  | _ => "f"
  end%char.

Definition hex2 (c : ascii) : string :=
  String (hex_digit (N_of_ascii c / 16)) (str1 (hex_digit (N_of_ascii c mod 16))).

(** A backslash, [u], and four hexadecimal digits. *)
Definition escape_u (c : ascii) : string :=
  String backslash ("u00" ++ hex2 c)%string.

Definition escape_char (ensure_ascii : bool) (c : ascii) : string :=
  if Ascii.eqb c dquote then String backslash (str1 dquote)
  else if Ascii.eqb c backslash then String backslash (str1 backslash)
  else if Ascii.eqb c LF then String backslash "n"
  else if Ascii.eqb c CR then String backslash "r"
  else if Ascii.eqb c TAB then String backslash "t"
  else if Ascii.eqb c BS then String backslash "b"
  else if Ascii.eqb c FF then String backslash "f"
  else if (N_of_ascii c <? 32)%N then escape_u c
  else if ensure_ascii && (126 <? N_of_ascii c)%N then escape_u c
  else str1 c.

Fixpoint escape (ensure_ascii : bool) (s : string) : string :=
  match s with
  | EmptyString => EmptyString
  | String c s' => (escape_char ensure_ascii c ++ escape ensure_ascii s')%string
  end.

Definition encode_string (ensure_ascii : bool) (s : string) : string :=
  String dquote (escape ensure_ascii s ++ str1 dquote)%string.

(** [json.dumps(v, ensure_ascii=...)] *)
Fixpoint dumps (ensure_ascii : bool) (v : value) : string :=
  match v with
  | VNone => "null"
  | VBool true => "true"
  | VBool false => "false"
  | VInt n => PyStr.of_int n
  | VStr s => encode_string ensure_ascii s
  | VList xs =>
      ("[" ++ String.concat ", " (map (dumps ensure_ascii) xs) ++ "]")%string
  | VDict kvs =>
      ("{" ++ String.concat ", "
                (map (fun kv => encode_string ensure_ascii (fst kv) ++ ": "
                                ++ dumps ensure_ascii (snd kv)) kvs)
           ++ "}")%string
  end.

(** *** Decoder *)

Definition is_ws (c : ascii) : bool :=
  Ascii.eqb c " " || Ascii.eqb c TAB || Ascii.eqb c LF || Ascii.eqb c CR.

Fixpoint skip_ws (s : string) : string :=
  match s with
  | EmptyString => EmptyString
  | String c s' => if is_ws c then skip_ws s' else s
  end.

Definition is_digit (c : ascii) : bool :=
  (48 <=? N_of_ascii c)%N && (N_of_ascii c <=? 57)%N.

Definition hex_value (c : ascii) : option N :=
  let n := N_of_ascii c in
  if is_digit c then Some (n - 48)%N
  else if (97 <=? n)%N && (n <=? 102)%N then Some (n - 87)%N
  else if (65 <=? n)%N && (n <=? 70)%N then Some (n - 55)%N
  else None.

Definition hex4 (a b c d : ascii) : option N :=
  match hex_value a, hex_value b, hex_value c, hex_value d with
  | Some x, Some y, Some z, Some w => Some (((x * 16 + y) * 16 + z) * 16 + w)%N
  | _, _, _, _ => None
  end.

Definition prepend (c : ascii) (r : option (string * string))
  : option (string * string) :=
  match r with
  | Some (s, rest) => Some (String c s, rest)
  | None => None
  end.

Definition unescape (e : ascii) : option ascii :=
  if Ascii.eqb e dquote then Some dquote
  else if Ascii.eqb e backslash then Some backslash
  else if Ascii.eqb e "/" then Some "/"%char
  else if Ascii.eqb e "b" then Some BS
  else if Ascii.eqb e "f" then Some FF
  else if Ascii.eqb e "n" then Some LF
  else if Ascii.eqb e "r" then Some CR
  else if Ascii.eqb e "t" then Some TAB
  else None.

(** The text of a string literal, read from just after its opening quote
    up to the closing one. *)
Fixpoint scan_string (s : string) : option (string * string) :=
  match s with
  | EmptyString => None
  | String c s' =>
      if Ascii.eqb c dquote then Some (EmptyString, s')
      else if Ascii.eqb c backslash then
        match s' with
        | EmptyString => None
        | String e s'' =>
            match unescape e with
            | Some ch => prepend ch (scan_string s'')
            | None =>
                if Ascii.eqb e "u" then
                  match s'' with
                  | String h1 (String h2 (String h3 (String h4 t))) =>
                      match hex4 h1 h2 h3 h4 with
                      | Some n =>
                          if (n <? 256)%N
                          then prepend (ascii_of_N n) (scan_string t)
                          else None
                      | None => None
                      end
                  | _ => None
                  end
                else None
            end
        end
      else if (N_of_ascii c <? 32)%N then None
      else prepend c (scan_string s')
  end.

Fixpoint span_digits (s : string) : string * string :=
  match s with
  | EmptyString => (EmptyString, EmptyString)
  | String c s' =>
      if is_digit c
      then let (ds, rest) := span_digits s' in (String c ds, rest)
      else (EmptyString, s)
  end.

Definition starts_fraction (s : string) : bool :=
  match s with
  | EmptyString => false
  | String c _ => Ascii.eqb c "." || Ascii.eqb c "e" || Ascii.eqb c "E"
  end.

(** Digits without a sign: a lone zero or a run that does not start with
    zero, not followed by a fraction or an exponent. *)
Definition scan_digits (s : string) : option (N * string) :=
  let (ds, rest) := span_digits s in
  match ds with
  | EmptyString => None
  | String c ds' =>
      if Ascii.eqb c "0" && negb (String.eqb ds' EmptyString) then None
      else if starts_fraction rest then None
      else match NilZero.uint_of_string ds with
           | Some u => Some (N.of_uint u, rest)
           | None => None
           end
  end.

Definition scan_number (s : string) : option (value * string) :=
  match s with
  | String c s' =>
      if Ascii.eqb c "-"
      then match scan_digits s' with
           | Some (n, rest) => Some (VInt (- Z.of_N n), rest)
           | None => None
           end
      else match scan_digits s with
           | Some (n, rest) => Some (VInt (Z.of_N n), rest)
           | None => None
           end
  | EmptyString => None
  end.

Fixpoint strip_prefix (p s : string) : option string :=
  match p with
  | EmptyString => Some s
  | String a p' =>
      match s with
      | EmptyString => None
      | String b s' => if Ascii.eqb a b then strip_prefix p' s' else None
      end
  end.

Definition from_pairs (pairs : dict) : dict :=
  fold_left (fun d kv => dict_set (fst kv) (snd kv) d) pairs [].

(** [parse_value] reads one value at the head of the text; [parse_elements]
    reads the elements of a list up to its closing bracket, and
    [parse_members] the members of an object up to its closing brace. *)
Fixpoint parse_value (fuel : nat) (s : string) : option (value * string) :=
  match fuel with
  | O => None
  | S fuel' =>
      match s with
      | EmptyString => None
      | String c s' =>
          if Ascii.eqb c dquote then
            match scan_string s' with
            | Some (text, rest) => Some (VStr text, rest)
            | None => None
            end
          else if Ascii.eqb c "[" then
            match skip_ws s' with
            | String d rest =>
                if Ascii.eqb d "]" then Some (VList [], rest)
                else match parse_elements fuel' (String d rest) with
                     | Some (xs, rest') => Some (VList xs, rest')
                     | None => None
                     end
            | EmptyString => None
            end
          else if Ascii.eqb c "{" then
            match skip_ws s' with
            | String d rest =>
                if Ascii.eqb d "}" then Some (VDict [], rest)
                else match parse_members fuel' (String d rest) with
                     | Some (pairs, rest') => Some (VDict (from_pairs pairs), rest')
                     | None => None
                     end
            | EmptyString => None
            end
          else if Ascii.eqb c "n" then
            match strip_prefix "ull" s' with
            | Some rest => Some (VNone, rest)
            | None => None
            end
          else if Ascii.eqb c "t" then
            match strip_prefix "rue" s' with
            | Some rest => Some (VBool true, rest)
            | None => None
            end
          else if Ascii.eqb c "f" then
            match strip_prefix "alse" s' with
            | Some rest => Some (VBool false, rest)
            | None => None
            end
          else scan_number s
      end
  end
with parse_elements (fuel : nat) (s : string) : option (list value * string) :=
  match fuel with
  | O => None
  | S fuel' =>
      match parse_value fuel' s with
      | Some (x, rest) =>
          match skip_ws rest with
          | String c rest' =>
              if Ascii.eqb c "," then
                match parse_elements fuel' (skip_ws rest') with
                | Some (xs, rest'') => Some (x :: xs, rest'')
                | None => None
                end
              else if Ascii.eqb c "]" then Some ([x], rest')
              else None
          | EmptyString => None
          end
      | None => None
      end
  end
with parse_members (fuel : nat) (s : string) : option (dict * string) :=
  match fuel with
  | O => None
  | S fuel' =>
      match s with
      | String q s' =>
          if Ascii.eqb q dquote then
            match scan_string s' with
            | Some (key, rest) =>
                match skip_ws rest with
                | String c rest' =>
                    if Ascii.eqb c ":" then
                      match parse_value fuel' (skip_ws rest') with
                      | Some (x, rest1) =>
                          match skip_ws rest1 with
                          | String d rest2 =>
                              if Ascii.eqb d "," then
                                match parse_members fuel' (skip_ws rest2) with
                                | Some (pairs, rest3) => Some ((key, x) :: pairs, rest3)
                                | None => None
                                end
                              else if Ascii.eqb d "}" then Some ([(key, x)], rest2)
                              else None
                          | EmptyString => None
                          end
                      | None => None
                      end
                    else None
                | EmptyString => None
                end
            | None => None
            end
          else None
      | EmptyString => None
      end
  end.

(** [json.loads(s)]: one value, white space around it, nothing after. *)
Definition loads (s : string) : option value :=
  match parse_value (String.length s) (skip_ws s) with
  | Some (v, rest) =>
      match skip_ws rest with
      | EmptyString => Some v
      | String _ _ => None
      end
  | None => None
  end.

(** The decoder above as the scripts call [json.loads]: it raises
    [JSONDecodeError] where it has no answer. *)
Definition decode (s : string) : result value :=
  match loads s with
  | Some v => Ok v
  | None => Raise JSONDecodeError
  end.

End Json.

(** *** Well-formed values

    The keys of a dictionary are pairwise different, at every depth. *)

Fixpoint distinct (keys : list string) : bool :=
  match keys with
  | [] => true
  | k :: keys' => negb (existsb (String.eqb k) keys') && distinct keys'
  end.

Fixpoint well_keyed (v : value) : bool :=
  match v with
  | VList xs => forallb well_keyed xs
  | VDict kvs =>
      distinct (map fst kvs) && forallb (fun kv => well_keyed (snd kv)) kvs
  | _ => true
  end.

(** The fuel that decoding the encoded value takes. *)
Fixpoint weight (v : value) : nat :=
  match v with
  | VList xs => S (list_sum (map (fun x => S (weight x)) xs))
  | VDict kvs => S (list_sum (map (fun kv => S (weight (snd kv))) kvs))
  | _ => 1
  end.

(** What may follow a number: not a digit, a point or an exponent. *)
Definition ends_number (rest : string) : bool :=
  match rest with
  | EmptyString => true
  | String c _ => negb (Json.is_digit c) && negb (Json.starts_fraction rest)
  end.

(** The characters of a decimal numeral. *)
Definition numeral_char (c : ascii) : bool := Json.is_digit c || Ascii.eqb c "-".

(** ** [repr] and [str] of a value *)

Module PyObj.

Definition hex_escape (c : ascii) : string :=
  String backslash (String "x" (Json.hex2 c)).

(** Code points 161 to 255 are printable, the soft hyphen 173 apart. *)
Definition printable (c : ascii) : bool :=
  let n := N_of_ascii c in
  if (n <? 32)%N then false
  else if (n <? 127)%N then true
  else (161 <=? n)%N && negb (n =? 173)%N.

Definition repr_char (quote c : ascii) : string :=
  if Ascii.eqb c quote || Ascii.eqb c backslash then String backslash (str1 c)
  else if Ascii.eqb c TAB then String backslash "t"
  else if Ascii.eqb c LF then String backslash "n"
  else if Ascii.eqb c CR then String backslash "r"
  else if printable c then str1 c
  else hex_escape c.

Fixpoint repr_chars (quote : ascii) (s : string) : string :=
  match s with
  | EmptyString => EmptyString
  | String c s' => (repr_char quote c ++ repr_chars quote s')%string
  end.

(** Single quotes, unless the text has a single quote and no double one. *)
Definition repr_str (s : string) : string :=
  let quote :=
    if PyStr.has_char squote s && negb (PyStr.has_char dquote s)
    then dquote else squote in
  String quote (repr_chars quote s ++ str1 quote)%string.

Fixpoint repr (v : value) : string :=
  match v with
  | VNone => "None"
  | VBool true => "True"
  | VBool false => "False"
  | VInt n => PyStr.of_int n
  | VStr s => repr_str s
  | VList xs => ("[" ++ String.concat ", " (map repr xs) ++ "]")%string
  | VDict kvs =>
      ("{" ++ String.concat ", "
                (map (fun kv => repr_str (fst kv) ++ ": " ++ repr (snd kv)) kvs)
           ++ "}")%string
  end.

(** [str(v)] *)
Definition str (v : value) : string :=
  match v with
  | VStr s => s
  | _ => repr v
  end.

End PyObj.

(** ** Files *)

Definition filesystem : Type := string -> option string.

Definition read_file (fs : filesystem) (name : string) : result string :=
  match fs name with
  | Some content => Ok content
  | None => Raise (FileNotFoundError name)
  end.

(** Opening for writing truncates the file; the text written replaces it. *)
Definition write_file (fs : filesystem) (name content : string) : filesystem :=
  fun n => if String.eqb n name then Some content else fs n.

Definition listings_json : string := "listings.json".
Definition semantic_enhanced_listings_txt : string := "semantic_enhanced_listings.txt".

(** [with open(listings_json) as f: listings = json.load(f)], as both
    readers of the listings file do it; what the decoder raises is not
    caught. *)
Definition load_listings (json_loads : string -> result value) (fs : filesystem)
  : result value :=
  content <- read_file fs listings_json ;;
  json_loads content.

Fixpoint map_result {A B : Type} (f : A -> result B) (xs : list A) : result (list B) :=
  match xs with
  | [] => Ok []
  | x :: xs' => y <- f x ;; ys <- map_result f xs' ;; Ok (y :: ys)
  end.

(** ** The code-fence markers *)

Definition fence_json : string := "```json".
Definition fence : string := "```".

(** An automaton for three backticks in a row: [scan run s] reads [s] after
    [run] backticks, [run_after] is the run at the end of [s], and [lead3] is
    the number of backticks at the head of [s], modulo three. *)
Module Fence.

Fixpoint scan (run : nat) (s : string) : bool :=
  match s with
  | EmptyString => false
  | String c s' =>
      if Ascii.eqb c backtick then
        match run with
        | S (S _) => true
        | _ => scan (S run) s'
        end
      else scan 0 s'
  end.

Fixpoint run_after (run : nat) (s : string) : nat :=
  match s with
  | EmptyString => run
  | String c s' =>
      if Ascii.eqb c backtick then run_after (S run) s' else run_after 0 s'
  end.

Fixpoint lead_from (run : nat) (s : string) : nat :=
  match s with
  | EmptyString => run
  | String c s' =>
      if Ascii.eqb c backtick
      then lead_from (match run with S (S _) => 0 | _ => S run end) s'
      else run
  end.

Definition lead3 (s : string) : nat := lead_from 0 s.

End Fence.

(** [content.replace(fence_json, empty).replace(fence, empty)] *)
Definition strip_fences (content : string) : string :=
  PyStr.replace (PyStr.replace content fence_json EmptyString) fence EmptyString.

(** The wording of the specification, for comparison with the test that
    the scripts make: a reply is wrapped in the marker when it starts with
    the json fence and ends with the fence. *)
Fixpoint ends_with (suffix s : string) : bool :=
  String.eqb suffix s ||
  match s with
  | EmptyString => false
  | String _ s' => ends_with suffix s'
  end.

Definition wrapped_in_marker (content : string) : bool :=
  prefix fence_json content && ends_with fence content.

(** ** GenerateListings.py *)

Record gen_state : Type := {
  listings : list value;   (* the accepted listings, oldest first *)
  trys : Z;                (* the attempts made so far *)
  stdout : list string     (* the lines printed so far *)
}.

Inductive step : Type :=
| Continue (st : gen_state)            (* the body ended, the guard is next *)
| Abort (st : gen_state) (e : exn).    (* an exception left the loop *)

Inductive outcome : Type :=
| Finished (st : gen_state)
| Aborted (st : gen_state) (e : exn)
| OutOfFuel (st : gen_state).

Inductive run : Type :=
| Returned (st : gen_state) (fs : filesystem)
| Raised (st : gen_state) (e : exn) (fs : filesystem)
| Unfinished (st : gen_state).

(** The counters and the output when the run stopped. *)
Definition final_state (r : run) : gen_state :=
  match r with
  | Returned st _ => st
  | Raised st _ _ => st
  | Unfinished st => st
  end.

Section Generator.

(** The chat model is an oracle: [get_response n] is the content of the
    reply to the request of attempt [n].  The request text is the same on
    every attempt and the reply is not constrained by it. *)
Variable get_response : Z -> string.

(** [json.loads] on the reply.  It returns the parsed value or raises:
    [JSONDecodeError] on a text that is no JSON document, which the loop
    catches, or another exception ([RecursionError] on a text nested too
    deep, [ValueError] on an integer of too many digits), which it does not
    catch. *)
Variable json_loads : string -> result value.

Definition error_line (trys : Z) (content : string) : string :=
  ("Error parsing response " ++ PyStr.of_int trys ++ ": " ++ content)%string.

(** The dictionary appended for an accepted reply; a missing field or a
    reply that is not an object raises. *)
Definition new_listing (trys : Z) (parsed_response : value) : result value :=
  neighborhood <- getitem parsed_response "neighborhood" ;;
  price <- getitem parsed_response "price" ;;
  bedrooms <- getitem parsed_response "bedrooms" ;;
  bathrooms <- getitem parsed_response "bathrooms" ;;
  size <- getitem parsed_response "size" ;;
  description <- getitem parsed_response "description" ;;
  neighborhood_description <- getitem parsed_response "neighborhood_description" ;;
  Ok (VDict [("id", VInt trys);
             ("neighborhood", neighborhood);
             ("price", price);
             ("bedrooms", bedrooms);
             ("bathrooms", bathrooms);
             ("size", size);
             ("description", description);
             ("neighborhood_description", neighborhood_description)]).

(** The fields that [new_listing] reads, in the order in which it reads
    them, and the first of them that a dictionary lacks. *)
Definition field_names : list string :=
  ["neighborhood"; "price"; "bedrooms"; "bathrooms"; "size"; "description";
   "neighborhood_description"].

Definition first_missing (entries : dict) : option string :=
  find (fun key => match dict_get key entries with Some _ => false | None => true end)
       field_names.

(** One pass through the body of the [while] loop. *)
Definition body (st : gen_state) : step :=
  let trys' := trys st + 1 in
  let content := get_response trys' in
  if PyStr.contains fence_json content then
    let content' := strip_fences content in
    match json_loads content' with
    | Raise JSONDecodeError =>
        Continue {| listings := listings st; trys := trys';
                    stdout := stdout st ++ [error_line trys' content'] |}
    | Raise e =>
        Abort {| listings := listings st; trys := trys';
                 stdout := stdout st |} e
    | Ok parsed_response =>
        match new_listing trys' parsed_response with
        | Ok listing =>
            Continue {| listings := listings st ++ [listing]; trys := trys';
                        stdout := stdout st |}
        | Raise e =>
            Abort {| listings := listings st; trys := trys';
                     stdout := stdout st |} e
        end
    end
  else
    Continue {| listings := listings st; trys := trys';
                stdout := stdout st ++ [error_line trys' content] |}.

(** [len(listings) < amount and trys < amount + 10] *)
Definition guard (amount : Z) (st : gen_state) : bool :=
  (Z.of_nat (List.length (listings st)) <? amount) && (trys st <? amount + 10).

Fixpoint loop (fuel : nat) (amount : Z) (st : gen_state) : outcome :=
  if guard amount st then
    match fuel with
    | O => OutOfFuel st
    | S fuel' =>
        match body st with
        | Continue st' => loop fuel' amount st'
        | Abort st' e => Aborted st' e
        end
    end
  else Finished st.

Definition initial : gen_state :=
  {| listings := []; trys := 0; stdout := [] |}.

Definition count_line (st : gen_state) : string :=
  ("Number of listings:  " ++ PyStr.of_int (Z.of_nat (List.length (listings st))))%string.

(** The attempts left before the budget is spent. *)
Definition budget_left (amount : Z) (st : gen_state) : Z := amount + 10 - trys st.

Definition generate_listings (amount : Z) (fs : filesystem) : run :=
  match loop (Z.to_nat (amount + 10)) amount initial with
  | Finished st =>
      Returned {| listings := listings st; trys := trys st;
                  stdout := stdout st ++ [count_line st] |}
               (write_file fs listings_json (Json.dumps true (VList (listings st))))
  | Aborted st e => Raised st e fs
  | OutOfFuel st => Unfinished st
  end.

(** The loop went from one evaluation of its guard to a later one. *)
Inductive reaches (amount : Z) : gen_state -> gen_state -> Prop :=
| reaches_here (st : gen_state) : reaches amount st st
| reaches_next (st st' st'' : gen_state) :
    guard amount st = true ->
    body st = Continue st' ->
    reaches amount st' st'' ->
    reaches amount st st''.

(** The bounds that every pass of the loop keeps. *)
Definition within_budget (amount : Z) (st : gen_state) : Prop :=
  0 <= trys st /\
  Z.of_nat (List.length (listings st)) <= Z.max 0 amount /\
  trys st <= Z.max 0 (amount + 10) /\
  Z.of_nat (List.length (listings st)) <= trys st.

(** Attempt [n] ends with [listing] appended. *)
Definition accepts (n : Z) (listing : value) : Prop :=
  forall st, trys st + 1 = n ->
    body st = Continue {| listings := listings st ++ [listing]; trys := n;
                          stdout := stdout st |}.

End Generator.

(** ** GenerateEnhancedListings.py *)

Record Document : Type := {
  page_content : string;
  metadata : dict
}.

Section Enhancer.

(** [get_response i] is the content of the reply to the request made for
    the listing at position [i] of the input. *)
Variable get_response : nat -> string.

Variable json_loads : string -> result value.

Definition converted (content : string) : string :=
  if PyStr.contains fence_json content then strip_fences content else content.

Definition enhanced_document (i : nat) (listing : value) : result Document :=
  let content := converted (get_response i) in
  id <- getitem listing "id" ;;
  let text :=
    ("id: " ++ PyObj.str id ++ ", converted description: " ++ content
     ++ ", original description: ")%string in
  description <- getitem listing "description" ;;
  text <- str_add text description ;;
  neighborhood_description <- getitem listing "neighborhood_description" ;;
  text <- str_add (text ++ ", neighborhood_description: ")%string
                  neighborhood_description ;;
  id' <- getitem listing "id" ;;
  Ok {| page_content := text; metadata := [("id", id')] |}.

Fixpoint enhance_from (i : nat) (listings : list value) : result (list Document) :=
  match listings with
  | [] => Ok []
  | listing :: rest =>
      document <- enhanced_document i listing ;;
      documents <- enhance_from (S i) rest ;;
      Ok (document :: documents)
  end.

Definition generate_enhanced_listings (listings : list value)
  : result (list Document) :=
  enhance_from 0 listings.

(** What the script writes: every document text followed by a line end. *)
Fixpoint written (documents : list Document) : string :=
  match documents with
  | [] => EmptyString
  | d :: ds => (page_content d ++ str1 LF ++ written ds)%string
  end.

Definition enhancer_main (fs : filesystem) : result filesystem :=
  loaded <- load_listings json_loads fs ;;
  listings <- iterate loaded ;;
  documents <- generate_enhanced_listings listings ;;
  Ok (write_file fs semantic_enhanced_listings_txt (written documents)).

End Enhancer.

(** ** HomeMatch.py *)

Section HomeMatch.

Variable json_loads : string -> result value.

(** The vector store is outside the repository.  [from_documents documents
    name] stands for [Chroma.from_documents] with the collection name: it
    embeds the texts and builds the collection, or raises (the store refuses
    an empty list of documents, the embedding service may fail).
    [similarity_search store query k] is the answer of the collection to
    the query, or what the call raises. *)
Context {vectorstore : Type}.
Variable from_documents : list Document -> string -> result vectorstore.
Variable similarity_search : vectorstore -> string -> nat -> result (list Document).

Definition without_id (d : dict) : dict :=
  filter (fun kv => negb (String.eqb (fst kv) "id")) d.

Definition raw_document (listing : value) : result Document :=
  entries <- items listing ;;
  let text := Json.dumps false (VDict (without_id entries)) in
  id <- getitem listing "id" ;;
  neighborhood <- getitem listing "neighborhood" ;;
  price <- getitem listing "price" ;;
  Ok {| page_content := text;
        metadata := [("id", id); ("neighborhood", neighborhood); ("price", price)] |}.

(** [line.split(comma)[0].split(colon)[1]] *)
Definition line_id (line : string) : result string :=
  match PyStr.split ":" (hd EmptyString (PyStr.split "," line)) with
  | _ :: id :: _ => Ok id
  | _ => Raise IndexError
  end.

Definition semantic_document (line : string) : result Document :=
  id <- line_id line ;;
  Ok {| page_content := line; metadata := [("id", VStr id)] |}.

Definition questions : list string :=
  [ "How big do you want your house to be?";
    "What are 3 most important things for you in choosing this property?";
    "Which amenities would you like?";
    "Which transportation options are important to you?";
    "How urban do you want your neighborhood to be?" ].

Definition answers : list string :=
  [ "A comfortable three-bedroom house with a spacious kitchen and a cozy living room.";
    "A quiet neighborhood, good local schools, and convenient shopping options.";
    "A backyard for gardening, a two-car garage, and a modern, energy-efficient heating system.";
    "Easy access to a reliable bus line, proximity to a major highway, and bike-friendly roads.";
    "A balance between suburban tranquility and access to urban amenities like restaurants and theaters." ].

Definition preferences_to_query (questions answers : list string) : string :=
  String.concat (" " ++ str1 LF)
    (map (fun qa => (fst qa ++ " " ++ snd qa)%string) (combine questions answers)).

Definition K : nat := 2.

Record retrieval : Type := {
  raw_index : list Document;
  semantic_index : list Document;
  similarity_search_raw_vectorstore : list Document;
  similarity_search_semantic_enhanced_vectorstore : list Document
}.

(** [main] up to the two searches.  The record keeps the documents that
    were handed to the store for each collection and the answers of the two
    searches. *)
Definition main (fs : filesystem) : result retrieval :=
  loaded <- load_listings json_loads fs ;;
  listings <- iterate loaded ;;
  raw_documents <- map_result raw_document listings ;;
  raw_vectorstore <- from_documents raw_documents "raw_listings" ;;
  text <- read_file fs semantic_enhanced_listings_txt ;;
  semantic_enhanced_documents <-
    map_result semantic_document (PyStr.readlines text) ;;
  semantic_enhanced_vectorstore <-
    from_documents semantic_enhanced_documents "semantic_listings" ;;
  let preferences := preferences_to_query questions answers in
  raw_results <- similarity_search raw_vectorstore preferences K ;;
  semantic_results <- similarity_search semantic_enhanced_vectorstore preferences K ;;
  Ok {| raw_index := raw_documents;
        semantic_index := semantic_enhanced_documents;
        similarity_search_raw_vectorstore := raw_results;
        similarity_search_semantic_enhanced_vectorstore := semantic_results |}.

End HomeMatch.

(** *** The personalisation loop of HomeMatch.py

    For every result of the raw search, in order: one request to the chat
    model, one printed line with the neighborhood and the price from the
    metadata of the result, one printed item with the reply. *)

Section Augmentation.

(** [get_response i] is the content of the reply to the request made for
    the result at position [i]. *)
Variable get_response : nat -> string.

(** [print(label, neighborhood, price)]: the items separated by a space. *)
Definition listing_enhanced_line (document : Document) : result string :=
  neighborhood <- getitem (VDict (metadata document)) "neighborhood" ;;
  price <- getitem (VDict (metadata document)) "price" ;;
  Ok ("Listing Enhanced: " ++ " " ++ PyObj.str neighborhood
      ++ " " ++ PyObj.str price)%string.

Fixpoint augment_from (i : nat) (documents : list Document) (printed : list string)
  : result (list string) :=
  match documents with
  | [] => Ok printed
  | document :: rest =>
      let content := get_response i in
      line <- listing_enhanced_line document ;;
      augment_from (S i) rest
        (printed ++ [line; (content ++ " " ++ str1 LF)%string])
  end.

Definition augment (documents : list Document) : result (list string) :=
  augment_from 0 documents [].

End Augmentation.

(** ** Sample data *)

(** A model that never answers with a listing. *)
Definition apology_model (n : Z) : string := "Sorry, I cannot help with that.".

Definition sample_fields : value :=
  VDict [("neighborhood", VStr "Green Oaks");
         ("price", VStr "$800,000");
         ("bedrooms", VStr "3");
         ("bathrooms", VStr "2");
         ("size", VStr "2,000 sqft");
         ("description", VStr "A comfortable three-bedroom house.");
         ("neighborhood_description", VStr "Green Oaks is a close-knit community.")].

(** A reply in the expected shape: the object between two fences. *)
Definition sample_reply : string :=
  (fence_json ++ str1 LF ++ Json.dumps true sample_fields ++ str1 LF ++ fence)%string.

(** A model that always answers with a listing. *)
Definition steady_model (n : Z) : string :=
  (fence_json ++ (str1 LF ++ Json.dumps true sample_fields ++ str1 LF) ++ fence)%string.

(** A model whose second reply is an apology and whose fourth reply is a
    fenced text that is not an object. *)
Definition sample_model (n : Z) : string :=
  if n =? 2 then "Sorry, I cannot help with that."
  else if n =? 4 then (fence_json ++ " not an object " ++ fence)%string
  else sample_reply.

Definition no_files : filesystem := fun _ => None.

Definition sample_listing (n : Z) (description : string) : value :=
  VDict [("id", VInt n);
         ("neighborhood", VStr "Green Oaks");
         ("price", VStr "$800,000");
         ("bedrooms", VStr "3");
         ("bathrooms", VStr "2");
         ("size", VStr "2,000 sqft");
         ("description", VStr description);
         ("neighborhood_description", VStr "Green Oaks is a close-knit community.")].

(** A model for the enhancer: the first reply is fenced, the others are not. *)
Definition sample_enhancer (i : nat) : string :=
  match i with
  | O => (fence_json ++ "A cozy home with three bedrooms." ++ fence)%string
  | _ => "A bright home with two bathrooms."
  end.

(** A reply fenced without the word json. *)
Definition plainly_fenced (i : nat) : string :=
  (fence ++ "A cozy home with three bedrooms." ++ fence)%string.

(** A store that keeps the documents of a collection in their order,
    refuses to build a collection from no document, and answers with the
    first [k] documents. *)
Definition sample_from_documents (documents : list Document) (name : string)
  : result (list Document) :=
  match documents with
  | [] => Raise ValueError
  | _ :: _ => Ok documents
  end.

Definition sample_search (index : list Document) (query : string) (k : nat)
  : result (list Document) :=
  Ok (firstn k index).

(** The files after the generator, asked for [amount] listings, and the
    enhancer have run. *)
Definition files_after (amount : Z) : filesystem :=
  match generate_listings sample_model Json.decode amount no_files with
  | Returned _ fs =>
      match enhancer_main sample_enhancer Json.decode fs with
      | Ok fs' => fs'
      | Raise _ => fs
      end
  | _ => no_files
  end.

Definition sample_files : filesystem := files_after 3.

(** The files of a run with one listing. *)
Definition one_listing_files : filesystem := files_after 1.

(** Replies that are malformed in the ways that the loop does not catch: a
    fenced number, and a fenced object without fields. *)
Definition number_model (n : Z) : string := (fence_json ++ "42" ++ fence)%string.
Definition empty_object_model (n : Z) : string := (fence_json ++ "{}" ++ fence)%string.

(** Replies that have the marker without being wrapped in it: the object
    followed by the marker, and the object after the marker with no closing
    fence. *)
Definition trailing_marker_model (n : Z) : string :=
  (Json.dumps true sample_fields ++ fence_json)%string.
Definition open_fence_model (n : Z) : string :=
  (fence_json ++ Json.dumps true sample_fields)%string.

(** A description of two lines, as the decoder builds it from an escaped
    line end inside a JSON text. *)
Definition two_line_description : string :=
  ("A comfortable house." ++ str1 LF ++ "Close to the park.")%string.

(** The listings file holds one listing, and the second line of the
    enhanced file is blank. *)
Definition blank_line_files : filesystem :=
  write_file
    (write_file no_files listings_json
       (Json.dumps true (VList [sample_listing 1 "A small flat."])))
    semantic_enhanced_listings_txt
    ("id: 1, converted description: a" ++ str1 LF ++ str1 LF ++ "b: c" ++ str1 LF).

(* ================================================================== *)
(** * Part II: properties *)
(* ================================================================== *)

(** ** Lists of increasing numbers *)

Lemma StronglySorted_snoc (ns : list Z) (x : Z) :
  StronglySorted Z.lt ns -> Forall (fun n => n < x) ns ->
  StronglySorted Z.lt (ns ++ [x]).
Proof.
  induction 1 as [|n ns Hs IH Hn]; intros Hx; cbn.
  - repeat constructor.
  - inversion Hx as [|? ? Hnx Hx']; subst. constructor; [auto|].
    apply Forall_app. split; [assumption | repeat constructor; assumption].
Qed.

Lemma StronglySorted_lt_NoDup (ns : list Z) : StronglySorted Z.lt ns -> NoDup ns.
Proof.
  induction 1 as [|n ns Hs IH Hn]; constructor; [|assumption].
  intros Hin. rewrite Forall_forall in Hn. specialize (Hn n Hin). lia.
Qed.

(** ** Text *)

Lemma append_nil_r (s : string) : (s ++ EmptyString)%string = s.
Proof. induction s as [|c s IH]; cbn; [reflexivity | now rewrite IH]. Qed.

Lemma append_assoc (a b c : string) : ((a ++ b) ++ c)%string = (a ++ (b ++ c))%string.
Proof. induction a as [|x a IH]; cbn; [reflexivity | now rewrite IH]. Qed.

Lemma length_append (a b : string) :
  String.length (a ++ b) = (String.length a + String.length b)%nat.
Proof. induction a as [|x a IH]; cbn; [reflexivity | now rewrite IH]. Qed.

Lemma prefix_nil (s : string) : prefix EmptyString s = true.
Proof. destruct s; reflexivity. Qed.

Lemma prefix_cons (a c : ascii) (p s : string) :
  prefix (String a p) (String c s) = Ascii.eqb a c && prefix p s.
Proof.
  cbn. destruct (ascii_dec a c) as [->|Hne].
  - now rewrite Ascii.eqb_refl.
  - apply Ascii.eqb_neq in Hne. now rewrite Hne.
Qed.

Lemma has_char_nil (c : ascii) : PyStr.has_char c EmptyString = false.
Proof. reflexivity. Qed.

Lemma has_char_cons (c a : ascii) (s : string) :
  PyStr.has_char c (String a s) = Ascii.eqb c a || PyStr.has_char c s.
Proof.
  unfold PyStr.has_char, str1. cbn [PyStr.contains].
  now rewrite prefix_cons, prefix_nil, andb_true_r.
Qed.

Lemma has_char_app (c : ascii) (a b : string) :
  PyStr.has_char c (a ++ b) = PyStr.has_char c a || PyStr.has_char c b.
Proof.
  induction a as [|x a IH]; cbn [append].
  - reflexivity.
  - now rewrite !has_char_cons, IH, orb_assoc.
Qed.

Lemma all_chars_app (p : ascii -> bool) (a b : string) :
  PyStr.all_chars p (a ++ b) = PyStr.all_chars p a && PyStr.all_chars p b.
Proof.
  induction a as [|x a IH]; cbn; [reflexivity | now rewrite IH, andb_assoc].
Qed.

Lemma all_chars_has_char (p : ascii -> bool) (c : ascii) (s : string) :
  PyStr.all_chars p s = true -> p c = false -> PyStr.has_char c s = false.
Proof.
  intros Hall Hc. induction s as [|x s IH]; [reflexivity|].
  cbn in Hall. apply andb_prop in Hall. destruct Hall as [Hx Hs].
  rewrite has_char_cons, (IH Hs), orb_false_r.
  destruct (Ascii.eqb_spec c x) as [->|]; [congruence | reflexivity].
Qed.

(** *** Decimal numerals *)

Lemma all_chars_string_of_uint (d : Decimal.uint) :
  PyStr.all_chars Json.is_digit (NilEmpty.string_of_uint d) = true.
Proof. induction d; cbn; auto. Qed.

Lemma all_chars_weaken (p q : ascii -> bool) (s : string) :
  (forall c, p c = true -> q c = true) ->
  PyStr.all_chars p s = true -> PyStr.all_chars q s = true.
Proof.
  intros Hpq. induction s as [|c s IH]; cbn; [reflexivity|].
  intros H. apply andb_prop in H. destruct H as [Hc Hs].
  now rewrite (Hpq c Hc), (IH Hs).
Qed.

Lemma all_chars_of_int (n : Z) :
  PyStr.all_chars numeral_char (PyStr.of_int n) = true.
Proof.
  assert (Hu : forall d, PyStr.all_chars numeral_char (NilZero.string_of_uint d) = true).
  { intros d. unfold NilZero.string_of_uint.
    destruct d; try reflexivity;
      apply all_chars_weaken with (p := Json.is_digit);
      try apply all_chars_string_of_uint;
      intros c Hc; unfold numeral_char; now rewrite Hc. }
  unfold PyStr.of_int, NilZero.string_of_int.
  destruct (Z.to_int n) as [d|d]; [apply Hu|].
  cbn. apply Hu.
Qed.

(** *** Lines *)

Lemma universal_newlines_id (s : string) :
  PyStr.has_char CR s = false -> PyStr.universal_newlines false s = s.
Proof.
  induction s as [|c s IH]; [reflexivity|].
  rewrite has_char_cons. intros H. apply orb_false_elim in H.
  destruct H as [Hc Hs]. cbn.
  rewrite Ascii.eqb_sym, Hc, andb_false_r, (IH Hs). reflexivity.
Qed.

Lemma splitlines_line (line rest : string) :
  PyStr.has_char LF line = false ->
  PyStr.splitlines_keepends (line ++ str1 LF ++ rest)
  = (line ++ str1 LF)%string :: PyStr.splitlines_keepends rest.
Proof.
  induction line as [|c line IH]; [reflexivity|].
  rewrite has_char_cons. intros H. apply orb_false_elim in H.
  destruct H as [Hc Hs]. cbn [append PyStr.splitlines_keepends].
  rewrite Ascii.eqb_sym, Hc. rewrite (IH Hs). reflexivity.
Qed.

(** *** Splitting *)

Lemma split_none (sep : ascii) (s : string) :
  PyStr.has_char sep s = false -> PyStr.split sep s = [s].
Proof.
  induction s as [|c s IH]; [reflexivity|].
  rewrite has_char_cons. intros H. apply orb_false_elim in H.
  destruct H as [Hc Hs]. cbn. rewrite Ascii.eqb_sym, Hc, (IH Hs). reflexivity.
Qed.

Lemma split_first (sep : ascii) (a b : string) :
  PyStr.has_char sep a = false ->
  PyStr.split sep (a ++ String sep b) = a :: PyStr.split sep b.
Proof.
  induction a as [|c a IH]; intros H.
  - cbn. now rewrite Ascii.eqb_refl.
  - rewrite has_char_cons in H. apply orb_false_elim in H.
    destruct H as [Hc Hs]. cbn. rewrite Ascii.eqb_sym, Hc, (IH Hs). reflexivity.
Qed.

(** *** Fences *)

Lemma prefix_two_one (s : string) :
  prefix "``" s = true -> prefix "`" s = true.
Proof.
  destruct s as [|c s]; [discriminate|].
  rewrite !prefix_cons, prefix_nil. intros H. apply andb_prop in H.
  destruct H as [-> _]. reflexivity.
Qed.

(** The automaton decides [fence in s]. *)
Lemma scan_spec (s : string) :
  Fence.scan 0 s = PyStr.contains fence s /\
  Fence.scan 1 s = prefix "``" s || PyStr.contains fence s /\
  Fence.scan 2 s = prefix "`" s || PyStr.contains fence s.
Proof.
  induction s as [|c s (IH0 & IH1 & IH2)]; [repeat split|].
  unfold fence. cbn [PyStr.contains Fence.scan].
  rewrite !prefix_cons, prefix_nil.
  change (Ascii.eqb "`" c) with (Ascii.eqb backtick c).
  rewrite (Ascii.eqb_sym backtick c).
  destruct (Ascii.eqb c backtick); cbn [andb orb].
  - rewrite IH1, IH2. unfold fence. repeat split.
    destruct (prefix "`" s) eqn:H1; [reflexivity|].
    destruct (prefix "``" s) eqn:H2; [|reflexivity].
    apply prefix_two_one in H2. congruence.
  - rewrite IH0. repeat split.
Qed.

Lemma contains_fence_scan (s : string) : PyStr.contains fence s = Fence.scan 0 s.
Proof. symmetry. apply scan_spec. Qed.

Lemma scan_app (run : nat) (a b : string) :
  Fence.scan run (a ++ b) = Fence.scan run a || Fence.scan (Fence.run_after run a) b.
Proof.
  revert run. induction a as [|c a IH]; intros run; [reflexivity|].
  cbn. destruct (Ascii.eqb c backtick).
  - destruct run as [|[|run]]; auto.
  - auto.
Qed.

(** A separator that starts with another character ends any run. *)
Lemma scan_separator (run : nat) (c : ascii) (s : string) :
  Ascii.eqb c backtick = false -> Fence.scan run (String c s) = Fence.scan 0 s.
Proof. intros H. cbn. now rewrite H. Qed.

Lemma lead_from_le (run : nat) (s : string) :
  (run <= 2 -> Fence.lead_from run s <= 2)%nat.
Proof.
  revert run. induction s as [|c s IH]; intros run Hrun; cbn; [assumption|].
  destruct (Ascii.eqb c backtick); [|assumption].
  apply IH. destruct run as [|[|run]]; lia.
Qed.

(** Removing the fences leaves no fence. *)
Lemma replace_fence_scan (s : string) :
  (forall run, (run + Fence.lead3 s <= 2)%nat ->
     Fence.scan run (PyStr.replace_from fence EmptyString 0 s) = false) /\
  (forall run c t, s = String c t -> (run + Fence.lead3 t <= 2)%nat ->
     Fence.scan run (PyStr.replace_from fence EmptyString 1 s) = false) /\
  (forall run c d t, s = String c (String d t) -> (run + Fence.lead3 t <= 2)%nat ->
     Fence.scan run (PyStr.replace_from fence EmptyString 2 s) = false).
Proof.
  induction s as [|c s (IH0 & IH1 & IH2)].
  - split; [reflexivity | split; intros; discriminate].
  - split; [|split].
    + intros run Hrun. cbn [PyStr.replace_from].
      unfold fence at 1. rewrite prefix_cons.
      change (Ascii.eqb "`" c) with (Ascii.eqb backtick c).
      rewrite (Ascii.eqb_sym backtick c).
      unfold Fence.lead3 in Hrun. cbn [Fence.lead_from] in Hrun.
      destruct (Ascii.eqb c backtick) eqn:Hc; cbn [andb].
      * destruct (prefix "``" s) eqn:Hp.
        -- cbn [append String.length fence Nat.sub].
           destruct s as [|d [|d' t]]; [discriminate | |].
           { rewrite prefix_cons in Hp. cbn in Hp. rewrite andb_false_r in Hp.
             discriminate. }
           rewrite !prefix_cons, prefix_nil in Hp.
           apply andb_prop in Hp. destruct Hp as [Hd Hp].
           apply andb_prop in Hp. destruct Hp as [Hd' _].
           rewrite Ascii.eqb_sym in Hd. rewrite Ascii.eqb_sym in Hd'.
           change (Ascii.eqb d "`") with (Ascii.eqb d backtick) in Hd.
           change (Ascii.eqb d' "`") with (Ascii.eqb d' backtick) in Hd'.
           cbn [Fence.lead_from] in Hrun. rewrite Hd, Hd' in Hrun.
           apply (IH2 run d d' t eq_refl). exact Hrun.
        -- cbn [Fence.scan]. rewrite Hc.
           assert (Hlead : Fence.lead_from 1 s = S (Fence.lead3 s)).
           { destruct s as [|d s]; [reflexivity|].
             rewrite prefix_cons in Hp. unfold Fence.lead3. cbn [Fence.lead_from].
             change (Ascii.eqb "`" d) with (Ascii.eqb backtick d) in Hp.
             rewrite (Ascii.eqb_sym backtick d) in Hp.
             destruct (Ascii.eqb d backtick); [|reflexivity].
             cbn [andb] in Hp. destruct s as [|d' s]; [reflexivity|].
             rewrite prefix_cons, prefix_nil, andb_true_r in Hp.
             change (Ascii.eqb "`" d') with (Ascii.eqb backtick d') in Hp.
             rewrite (Ascii.eqb_sym backtick d') in Hp.
             cbn [Fence.lead_from]. rewrite Hp. reflexivity. }
           rewrite Hlead in Hrun.
           destruct run as [|[|run]]; try lia; apply IH0; lia.
      * cbn [Fence.scan]. rewrite Hc. apply IH0.
        pose proof (lead_from_le 0 s). unfold Fence.lead3. lia.
    + intros run c' t Heq Hrun. injection Heq as -> ->.
      cbn [PyStr.replace_from]. apply IH0. exact Hrun.
    + intros run c' d t Heq Hrun. injection Heq as -> ->.
      cbn [PyStr.replace_from]. apply (IH1 run d t eq_refl). exact Hrun.
Qed.

Lemma strip_fences_clean (content : string) :
  PyStr.contains fence (strip_fences content) = false.
Proof.
  rewrite contains_fence_scan. unfold strip_fences.
  unfold PyStr.replace at 1. unfold fence at 1.
  apply replace_fence_scan. pose proof (lead_from_le 0
    (PyStr.replace content fence_json EmptyString)). unfold Fence.lead3. lia.
Qed.

(** *** The text operations on given texts *)

Example replace_does_not_overlap :
  PyStr.replace "aaaa" "aa" "b" = "bb" /\
  PyStr.replace "````json" fence_json EmptyString = "`" /\
  PyStr.replace "ab" EmptyString "-" = "-a-b-" /\
  strip_fences "```json{}```" = "{}".
Proof. repeat split. Qed.

Example split_pieces :
  PyStr.split ":" "id: 7" = ["id"; " 7"] /\
  PyStr.split "," EmptyString = [EmptyString] /\
  PyStr.split "," "a," = ["a"; EmptyString] /\
  PyStr.split "," ",a" = [EmptyString; "a"].
Proof. repeat split. Qed.

Example readlines_line_ends :
  PyStr.readlines ("a" ++ str1 CR ++ str1 LF ++ "b" ++ str1 CR ++ "c" ++ str1 LF
                   ++ str1 LF ++ "d")
  = [("a" ++ str1 LF)%string; ("b" ++ str1 LF)%string; ("c" ++ str1 LF)%string;
     str1 LF; "d"].
Proof. reflexivity. Qed.

(** ** The generator loop *)

Lemma Forall2_in_l {A B : Type} (R : A -> B -> Prop) (xs : list A) (ys : list B) :
  Forall2 R xs ys -> forall x, In x xs -> exists y, In y ys /\ R x y.
Proof.
  induction 1 as [|x y xs ys Hxy _ IH]; intros z Hz; [contradiction|].
  destruct Hz as [<-|Hz].
  - exists y. split; [left; reflexivity | assumption].
  - destruct (IH z Hz) as (y' & Hin & Hr). exists y'. split; [right|]; assumption.
Qed.

Section GeneratorFacts.

Variable get_response : Z -> string.
Variable json_loads : string -> result value.

Local Notation "'gbody'" := (body get_response json_loads).
Local Notation "'gloop'" := (loop get_response json_loads).
Local Notation "'greaches'" := (reaches get_response json_loads).
Local Notation "'gaccepts'" := (accepts get_response json_loads).
Local Notation "'generate'" := (generate_listings get_response json_loads).

(** Every pass counts one attempt and appends at most one listing. *)
Lemma body_effect (st : gen_state) :
  match gbody st with
  | Continue st' =>
      trys st' = trys st + 1 /\
      (listings st' = listings st \/
       exists listing, listings st' = listings st ++ [listing] /\
                       gaccepts (trys st + 1) listing /\
                       getitem listing "id" = Ok (VInt (trys st + 1)))
  | Abort st' _ => trys st' = trys st + 1 /\ listings st' = listings st
  end.
Proof.
  unfold body.
  destruct (PyStr.contains fence_json (get_response (trys st + 1))) eqn:Hfence;
    [ destruct (json_loads (strip_fences (get_response (trys st + 1))))
        as [parsed|e] eqn:Hparse;
      [ destruct (new_listing (trys st + 1) parsed) as [listing|e] eqn:Hnew
      | destruct e ] | ];
    cbn [listings trys stdout]; auto.
  split; [reflexivity|]. right. exists listing. split; [reflexivity|]. split.
  - intros st0 Hn. unfold body. rewrite Hn, Hfence, Hparse, Hnew.
    reflexivity.
  - unfold new_listing in Hnew.
    repeat match type of Hnew with
           | bind ?r _ = Ok _ => destruct r; cbn [bind] in Hnew; [|discriminate]
           end.
    injection Hnew as <-. reflexivity.
Qed.

(** A pass aborts only on a reply with the marker: when the decoder raises
    something else than [JSONDecodeError], or when the reply parses and no
    listing can be built from it. *)
Lemma body_abort (st st' : gen_state) (e : exn) :
  gbody st = Abort st' e ->
  st' = {| listings := listings st; trys := trys st + 1; stdout := stdout st |} /\
  PyStr.contains fence_json (get_response (trys st')) = true /\
  ((json_loads (strip_fences (get_response (trys st'))) = Raise e /\
    e <> JSONDecodeError) \/
   exists parsed,
     json_loads (strip_fences (get_response (trys st'))) = Ok parsed /\
     new_listing (trys st') parsed = Raise e).
Proof.
  unfold body.
  destruct (PyStr.contains fence_json (get_response (trys st + 1))) eqn:Hfence;
    [ destruct (json_loads (strip_fences (get_response (trys st + 1))))
        as [parsed|e'] eqn:Hparse;
      [ destruct (new_listing (trys st + 1) parsed) as [listing|e''] eqn:Hnew
      | destruct e' ] | ];
    try discriminate;
    intros H; injection H as <- <-; cbn [trys];
    (split; [reflexivity|]); (split; [exact Hfence|]);
    try (right; eauto; fail);
    left; (split; [exact Hparse | discriminate]).
Qed.

(** The reply of attempt [n] is skipped: it has no marker, or it has one
    and the decoder raises [JSONDecodeError] on what is left of it. *)
Lemma body_skips (st : gen_state) :
  PyStr.contains fence_json (get_response (trys st + 1)) = false \/
  json_loads (strip_fences (get_response (trys st + 1))) = Raise JSONDecodeError ->
  gbody st
  = Continue {| listings := listings st; trys := trys st + 1;
                stdout := stdout st ++
                  [error_line (trys st + 1)
                     (if PyStr.contains fence_json (get_response (trys st + 1))
                      then strip_fences (get_response (trys st + 1))
                      else get_response (trys st + 1))] |}.
Proof.
  intros Hbad. unfold body.
  destruct (PyStr.contains fence_json (get_response (trys st + 1))) eqn:Hfence.
  - destruct Hbad as [Hbad|Hbad]; [discriminate|]. rewrite Hbad. reflexivity.
  - reflexivity.
Qed.

Lemma loop_stops (amount : Z) (fuel : nat) (st : gen_state) :
  guard amount st = false -> gloop fuel amount st = Finished st.
Proof. intros Hg. destruct fuel; cbn; rewrite Hg; reflexivity. Qed.

Lemma loop_continues (amount : Z) (fuel : nat) (st st' : gen_state) :
  guard amount st = true -> gbody st = Continue st' ->
  gloop (S fuel) amount st = gloop fuel amount st'.
Proof. intros Hg Hb. cbn. rewrite Hg, Hb. reflexivity. Qed.

(** A property kept by every pass of the body holds when the loop ends,
    however it ends. *)
Lemma loop_invariant (amount : Z) (P : gen_state -> Prop) :
  (forall st, P st -> guard amount st = true ->
     match gbody st with Continue st' => P st' | Abort st' _ => P st' end) ->
  forall fuel st, P st ->
    match gloop fuel amount st with
    | Finished st' => P st' /\ guard amount st' = false
    | Aborted st' _ => P st'
    | OutOfFuel st' => P st'
    end.
Proof.
  intros Hstep fuel. induction fuel as [|fuel IH]; intros st HP; cbn.
  - destruct (guard amount st) eqn:Hg; auto.
  - destruct (guard amount st) eqn:Hg; auto.
    specialize (Hstep st HP Hg).
    destruct (gbody st) as [st'|st' e]; auto.
    apply IH, Hstep.
Qed.

(** The attempt budget is enough fuel. *)
Lemma loop_fuel (amount : Z) (fuel : nat) (st : gen_state) :
  (Z.to_nat (amount + 10 - trys st) <= fuel)%nat ->
  forall st', gloop fuel amount st <> OutOfFuel st'.
Proof.
  revert st. induction fuel as [|fuel IH]; intros st Hfuel st'; cbn;
    destruct (guard amount st) eqn:Hg; try discriminate;
    unfold guard in Hg; apply andb_prop in Hg; destruct Hg as [_ Hg];
    apply Z.ltb_lt in Hg; [lia|].
  pose proof (body_effect st) as He.
  destruct (gbody st) as [st1|st1 e]; [|discriminate].
  apply IH. destruct He as [He _]. lia.
Qed.

(** The loop stops at the first guard that fails, or inside a pass. *)
Lemma loop_reaches (amount : Z) (fuel : nat) (st : gen_state) :
  match gloop fuel amount st with
  | Finished st' => greaches amount st st' /\ guard amount st' = false
  | Aborted st' e =>
      exists st0, greaches amount st st0 /\ guard amount st0 = true /\
                  gbody st0 = Abort st' e
  | OutOfFuel _ => True
  end.
Proof.
  revert st. induction fuel as [|fuel IH]; intros st; cbn;
    destruct (guard amount st) eqn:Hg; auto;
    try (split; [apply reaches_here | assumption]).
  destruct (gbody st) as [st1|st1 e] eqn:Hb.
  - specialize (IH st1).
    destruct (gloop fuel amount st1) as [st2|st2 e|st2]; auto.
    + destruct IH as [Hr Hg']. split; [|assumption].
      eapply reaches_next; eassumption.
    + destruct IH as (st0 & Hr & Hg' & Hb'). exists st0.
      split; [|auto]. eapply reaches_next; eassumption.
  - exists st. split; [apply reaches_here | auto].
Qed.

Lemma within_budget_step (amount : Z) (st : gen_state) :
  within_budget amount st -> guard amount st = true ->
  match gbody st with
  | Continue st' => within_budget amount st'
  | Abort st' _ => within_budget amount st'
  end.
Proof.
  intros (H0 & Hlen & Htrys & Hle) Hg.
  unfold guard in Hg. apply andb_prop in Hg. destruct Hg as [Hg1 Hg2].
  apply Z.ltb_lt in Hg1, Hg2.
  pose proof (body_effect st) as He. unfold within_budget.
  destruct (gbody st) as [st'|st' e].
  - destruct He as [-> [-> | (l & -> & _)]]; [lia|].
    rewrite length_app. cbn [List.length]. lia.
  - destruct He as [-> ->]. lia.
Qed.

Lemma within_budget_initial (amount : Z) : within_budget amount initial.
Proof. unfold within_budget, initial; cbn. lia. Qed.

Lemma generate_finishes (amount : Z) (fs : filesystem) (st : gen_state) :
  generate amount fs <> Unfinished st.
Proof.
  unfold generate_listings.
  destruct (gloop (Z.to_nat (amount + 10)) amount initial) as [s|s e|s] eqn:Hl;
    try discriminate.
  exfalso. eapply loop_fuel; [|exact Hl]. cbn. lia.
Qed.

(** A run that raises was aborted by a pass of the loop. *)
Lemma raised_run_aborted (amount : Z) (fs fs' : filesystem) (st : gen_state) (e : exn) :
  generate amount fs = Raised st e fs' ->
  exists st0, greaches amount initial st0 /\ guard amount st0 = true /\
              gbody st0 = Abort st e.
Proof.
  unfold generate_listings.
  pose proof (loop_reaches amount (Z.to_nat (amount + 10)) initial) as Hr.
  destruct (gloop (Z.to_nat (amount + 10)) amount initial) as [s|s e'|s];
    try discriminate.
  intros H. injection H as <- <- _. exact Hr.
Qed.

(** C1, as amended.  For every target count [amount] the run ends, by
    returning or by an exception that the loop does not catch; at the end
    at most [max 0 amount] listings are accepted and at most
    [max 0 (amount + 10)] attempts are made, which is at most [amount] and
    at most [amount + 10] when [amount] is not negative.  A run that
    returns stopped at the first evaluation of the guard at which the target
    count was reached or the attempt budget spent. *)
Theorem generate_listings_within_budget (amount : Z) (fs : filesystem) :
  match generate amount fs with
  | Returned st _ =>
      Z.of_nat (List.length (listings st)) <= Z.max 0 amount /\
      0 <= trys st <= Z.max 0 (amount + 10) /\
      (amount <= Z.of_nat (List.length (listings st)) \/ amount + 10 <= trys st) /\
      exists st0, greaches amount initial st0 /\ guard amount st0 = false /\
                  listings st = listings st0 /\ trys st = trys st0
  | Raised st e _ =>
      Z.of_nat (List.length (listings st)) <= Z.max 0 amount /\
      0 <= trys st <= Z.max 0 (amount + 10) /\
      exists st0, greaches amount initial st0 /\ guard amount st0 = true /\
                  gbody st0 = Abort st e
  | Unfinished _ => False
  end.
Proof.
  pose proof (generate_finishes amount fs) as Hfin.
  unfold generate_listings in *.
  pose proof (loop_invariant amount (within_budget amount)
                (within_budget_step amount) (Z.to_nat (amount + 10)) initial
                (within_budget_initial amount)) as Hinv.
  pose proof (loop_reaches amount (Z.to_nat (amount + 10)) initial) as Hr.
  destruct (gloop (Z.to_nat (amount + 10)) amount initial) as [st|st e|st].
  - destruct Hinv as [(H0 & Hlen & Htrys & _) Hg]. cbn [listings trys].
    repeat split; try assumption.
    + unfold guard in Hg. apply andb_false_iff in Hg.
      destruct Hg as [Hg|Hg]; apply Z.ltb_ge in Hg; auto.
    + exists st. destruct Hr as [Hr _]. auto.
  - destruct Hinv as (H0 & Hlen & Htrys & _). auto.
  - exact (Hfin st eq_refl).
Qed.

(** The passes between two evaluations of the guard: every attempt number
    in between is the number of a pass that ended normally. *)
Lemma reaches_attempt (amount : Z) (st0 st : gen_state) :
  greaches amount st0 st ->
  forall n, trys st0 < n <= trys st ->
    exists st1 st2,
      greaches amount st0 st1 /\ guard amount st1 = true /\ trys st1 + 1 = n /\
      gbody st1 = Continue st2 /\ greaches amount st2 st.
Proof.
  induction 1 as [st|st st' st'' Hg Hb Hr IH]; intros n Hn; [lia|].
  pose proof (body_effect st) as He. rewrite Hb in He. destruct He as [Ht _].
  destruct (Z.eq_dec n (trys st + 1)) as [->|Hne].
  - exists st, st'. repeat split; auto. apply reaches_here.
  - destruct (IH n) as (st1 & st2 & Hr1 & Hg1 & Hn1 & Hb1 & Hr2); [lia|].
    exists st1, st2. repeat split; auto. eapply reaches_next; eassumption.
Qed.

Lemma reaches_trans (amount : Z) (st0 st1 st2 : gen_state) :
  greaches amount st0 st1 -> greaches amount st1 st2 -> greaches amount st0 st2.
Proof.
  induction 1 as [st|st st' st'' Hg Hb _ IH]; [auto|].
  intros Hr. eapply reaches_next; eauto.
Qed.

(** Between two evaluations of the guard nothing printed is taken back. *)
Lemma reaches_keeps_stdout (amount : Z) (st0 st : gen_state) :
  greaches amount st0 st -> forall line, In line (stdout st0) -> In line (stdout st).
Proof.
  induction 1 as [st|st st' st'' Hg Hb _ IH]; [auto|].
  intros line Hin. apply IH. unfold body in Hb.
  destruct (PyStr.contains fence_json (get_response (trys st + 1)));
    [ destruct (json_loads (strip_fences (get_response (trys st + 1)))) as [parsed|e];
      [ destruct (new_listing (trys st + 1) parsed) | destruct e ] | ];
    try discriminate; injection Hb as <-; cbn [stdout]; auto;
    apply in_or_app; left; exact Hin.
Qed.

(** A pass that aborts ends the run, from wherever the loop was entered
    with enough fuel. *)
Lemma reaches_abort (amount : Z) (st0 st st' : gen_state) (e : exn) :
  greaches amount st0 st -> guard amount st = true -> gbody st = Abort st' e ->
  forall fuel, (Z.to_nat (amount + 10 - trys st0) <= fuel)%nat ->
    gloop fuel amount st0 = Aborted st' e.
Proof.
  induction 1 as [st|st0 st1 st Hg Hb _ IH]; intros Hguard Habort fuel Hfuel.
  - pose proof Hguard as Hg. unfold guard in Hg. apply andb_prop in Hg.
    destruct Hg as [_ Hg]. apply Z.ltb_lt in Hg.
    destruct fuel as [|fuel]; [lia|]. cbn. rewrite Hguard, Habort. reflexivity.
  - pose proof Hg as Hg'. unfold guard in Hg'. apply andb_prop in Hg'.
    destruct Hg' as [_ Hg']. apply Z.ltb_lt in Hg'.
    destruct fuel as [|fuel]; [lia|].
    rewrite (loop_continues amount fuel st0 st1 Hg Hb).
    pose proof (body_effect st0) as He. rewrite Hb in He. destruct He as [Ht _].
    apply IH; auto. lia.
Qed.

(** The identifiers of the accepted listings: increasing attempt numbers. *)
Lemma numbered_step (amount : Z) (st : gen_state) :
  let numbered st :=
    0 <= trys st /\
    exists ns,
      Forall2 (fun listing n => getitem listing "id" = Ok (VInt n) /\ gaccepts n listing)
              (listings st) ns /\
      StronglySorted Z.lt ns /\
      Forall (fun n => 1 <= n <= trys st) ns in
  numbered st -> guard amount st = true ->
  match gbody st with
  | Continue st' => numbered st'
  | Abort st' _ => numbered st'
  end.
Proof.
  intros numbered (H0 & ns & Hids & Hsorted & Hrange) _.
  pose proof (body_effect st) as He.
  assert (Hweak : Forall (fun n => 1 <= n <= trys st + 1) ns).
  { eapply Forall_impl; [|exact Hrange]. cbn. intros; lia. }
  destruct (gbody st) as [st'|st' e].
  - destruct He as [Ht [Hl | (l & Hl & Hacc & Hid)]]; unfold numbered;
      rewrite Ht, Hl; (split; [lia|]).
    + exists ns. auto.
    + exists (ns ++ [trys st + 1]). split; [|split].
      * apply Forall2_app; [assumption | repeat constructor; assumption].
      * apply StronglySorted_snoc; [assumption|].
        eapply Forall_impl; [|exact Hrange]. cbn. intros; lia.
      * apply Forall_app. split; [assumption | repeat constructor; lia].
  - destruct He as [Ht Hl]. unfold numbered. rewrite Ht, Hl.
    split; [lia|]. exists ns. auto.
Qed.

(** The identifiers at the end of a run. *)
Lemma run_numbered (amount : Z) (fs : filesystem) :
  let st := final_state (generate amount fs) in
  exists ns,
    Forall2 (fun listing n => getitem listing "id" = Ok (VInt n) /\ gaccepts n listing)
            (listings st) ns /\
    StronglySorted Z.lt ns /\
    Forall (fun n => 1 <= n <= trys st) ns.
Proof.
  pose proof (loop_invariant amount _ (numbered_step amount)
                (Z.to_nat (amount + 10)) initial) as Hinv.
  cbv zeta in Hinv.
  assert (Hinit : 0 <= trys initial /\
            exists ns,
              Forall2 (fun listing n =>
                         getitem listing "id" = Ok (VInt n) /\ gaccepts n listing)
                      (listings initial) ns /\
              StronglySorted Z.lt ns /\
              Forall (fun n => 1 <= n <= trys initial) ns).
  { cbn. split; [lia|]. exists []. repeat constructor. }
  specialize (Hinv Hinit). clear Hinit.
  unfold generate_listings.
  destruct (gloop (Z.to_nat (amount + 10)) amount initial) as [st|st e|st];
    cbn [final_state listings trys];
    [destruct Hinv as [Hinv _] | | ];
    destruct Hinv as (_ & ns & Hids & Hsorted & Hrange);
    exists ns; repeat split; auto.
Qed.

(** A skipped reply in a run: the pass of its attempt ended normally and the
    loop went on to its guard, the error line is among the lines printed, no
    listing has the number of the attempt, and the run was not left there. *)
Lemma skipped_attempt_in_run (amount : Z) (fs : filesystem) (n : Z) :
  PyStr.contains fence_json (get_response n) = false \/
  json_loads (strip_fences (get_response n)) = Raise JSONDecodeError ->
  1 <= n <= trys (final_state (generate amount fs)) ->
  (exists st,
     greaches amount initial st /\ guard amount st = true /\ trys st + 1 = n /\
     greaches amount initial
       {| listings := listings st; trys := n;
          stdout := stdout st ++
            [error_line n (if PyStr.contains fence_json (get_response n)
                           then strip_fences (get_response n)
                           else get_response n)] |}) /\
  In (error_line n (if PyStr.contains fence_json (get_response n)
                    then strip_fences (get_response n) else get_response n))
     (stdout (final_state (generate amount fs))) /\
  (forall listing, In listing (listings (final_state (generate amount fs))) ->
     getitem listing "id" <> Ok (VInt n)) /\
  (forall st1 e fs', generate amount fs = Raised st1 e fs' -> n < trys st1).
Proof.
  intros Hbad Hn.
  assert (Hpass : exists st st_end,
             greaches amount initial st /\ guard amount st = true /\ trys st + 1 = n /\
             greaches amount
               {| listings := listings st; trys := n;
                  stdout := stdout st ++
                    [error_line n (if PyStr.contains fence_json (get_response n)
                                   then strip_fences (get_response n)
                                   else get_response n)] |} st_end /\
             (forall line, In line (stdout st_end) ->
                In line (stdout (final_state (generate amount fs)))) /\
             (forall st1 e fs', generate amount fs = Raised st1 e fs' -> n < trys st1)).
  { pose proof (generate_finishes amount fs) as Hfin.
    unfold generate_listings in *.
    pose proof (loop_reaches amount (Z.to_nat (amount + 10)) initial) as Hr.
    destruct (gloop (Z.to_nat (amount + 10)) amount initial) as [st'|st' e|st'];
      cbn [final_state trys stdout] in *.
    - destruct Hr as [Hr _].
      destruct (reaches_attempt amount initial st' Hr n) as (st1 & st2 & H1 & H2 & H3 & H4 & H5);
        [cbn; lia|].
      subst n. rewrite (body_skips st1 Hbad) in H4. injection H4 as <-.
      exists st1, st'. repeat split; auto.
      + intros line Hl. apply in_or_app. left. exact Hl.
      + intros st1' e fs' Hrun. discriminate.
    - destruct Hr as (st0 & Hr & Hg & Hb).
      destruct (body_abort st0 st' e Hb) as (-> & _ & _). cbn [trys stdout] in *.
      destruct (Z.eq_dec n (trys st0 + 1)) as [->|Hne].
      + rewrite (body_skips st0 Hbad) in Hb. discriminate.
      + destruct (reaches_attempt amount initial st0 Hr n)
          as (st1 & st2 & H1 & H2 & H3 & H4 & H5); [cbn; lia|].
        subst n. rewrite (body_skips st1 Hbad) in H4. injection H4 as <-.
        exists st1, st0. repeat split; auto.
        intros st1' e' fs' Hrun. injection Hrun as <- _ _. cbn [trys]. lia.
    - exfalso. exact (Hfin st' eq_refl). }
  destruct Hpass as (st & st_end & Hr & Hg & Ht & Hr' & Hout & Hraised).
  split; [|split; [|split]].
  - exists st. repeat split; auto.
    eapply reaches_trans; [exact Hr|].
    eapply reaches_next; [exact Hg | | apply reaches_here].
    rewrite <- Ht in *. exact (body_skips st Hbad).
  - apply Hout. eapply reaches_keeps_stdout; [exact Hr'|].
    cbn [stdout]. apply in_or_app. right. left. reflexivity.
  - intros listing Hin Hid.
    destruct (run_numbered amount fs) as (ns & Hids & _ & _).
    destruct (Forall2_in_l _ _ _ Hids listing Hin) as (m & _ & Hm & Hacc).
    rewrite Hid in Hm. injection Hm as <-.
    specialize (Hacc st Ht). rewrite <- Ht in Hacc.
    rewrite (body_skips st) in Hacc by (rewrite Ht; exact Hbad).
    injection Hacc as Hl. apply (f_equal (@List.length value)) in Hl.
    rewrite length_app in Hl. cbn in Hl. lia.
  - exact Hraised.
Qed.

(** C2, as amended.  A reply without the json marker, and a reply with the
    marker on whose content the decoder raises [JSONDecodeError], is
    recovered locally.  The pass of its attempt prints the error line with
    the number of the attempt and the content, leaves the listings as they
    are, counts the attempt, so that one attempt less is left in the budget,
    and ends normally: the loop goes on with the next evaluation of its
    guard.  In every run that made the attempt the error line is among the
    lines printed, no listing has the number of the attempt, and the run was
    not left at that attempt.  Any other exception of the decoder is not
    caught: it ends the run at that attempt. *)
Theorem malformed_output_skipped (n : Z) :
  (PyStr.contains fence_json (get_response n) = false \/
   json_loads (strip_fences (get_response n)) = Raise JSONDecodeError ->
   let logged := if PyStr.contains fence_json (get_response n)
                 then strip_fences (get_response n) else get_response n in
   (forall st, trys st + 1 = n ->
      let st' := {| listings := listings st; trys := n;
                    stdout := stdout st ++ [error_line n logged] |} in
      gbody st = Continue st' /\
      (forall amount, budget_left amount st' = budget_left amount st - 1) /\
      (forall amount fuel, guard amount st = true ->
         gloop (S fuel) amount st = gloop fuel amount st')) /\
   (forall amount fs,
      1 <= n <= trys (final_state (generate amount fs)) ->
      (exists st,
         greaches amount initial st /\ guard amount st = true /\ trys st + 1 = n /\
         greaches amount initial
           {| listings := listings st; trys := n;
              stdout := stdout st ++ [error_line n logged] |}) /\
      In (error_line n logged) (stdout (final_state (generate amount fs))) /\
      (forall listing, In listing (listings (final_state (generate amount fs))) ->
         getitem listing "id" <> Ok (VInt n)) /\
      (forall st1 e fs', generate amount fs = Raised st1 e fs' -> n < trys st1))) /\
  (forall e st amount fs,
     trys st + 1 = n ->
     PyStr.contains fence_json (get_response n) = true ->
     json_loads (strip_fences (get_response n)) = Raise e ->
     e <> JSONDecodeError ->
     gbody st = Abort {| listings := listings st; trys := n; stdout := stdout st |} e /\
     (greaches amount initial st -> guard amount st = true ->
      generate amount fs
      = Raised {| listings := listings st; trys := n; stdout := stdout st |} e fs)).
Proof.
  split.
  - intros Hbad logged. split.
    + intros st Ht st'. subst n.
      assert (Hb : gbody st = Continue st') by exact (body_skips st Hbad).
      split; [exact Hb|]. split.
      * intros amount. unfold budget_left, st'. cbn [trys]. lia.
      * intros amount fuel Hg. apply loop_continues; assumption.
    + intros amount fs Hn. exact (skipped_attempt_in_run amount fs n Hbad Hn).
  - intros e st amount fs Ht Hfence Hparse Hne. subst n.
    assert (Hb : gbody st = Abort {| listings := listings st; trys := trys st + 1;
                                     stdout := stdout st |} e).
    { unfold body. rewrite Hfence, Hparse. destruct e; congruence. }
    split; [exact Hb|]. intros Hr Hg. unfold generate_listings.
    rewrite (reaches_abort amount initial st _ e Hr Hg Hb); [reflexivity|].
    cbn. lia.
Qed.

(** C5, as amended.  A reply in which the json marker does not occur is
    skipped: the pass of its attempt leaves the accepted listings as they
    are, counts the attempt and prints the error line with the reply; in
    every run that made the attempt the line is among the lines printed and
    no listing has the number of the attempt.  Only the occurrence of the
    marker is tested: a reply in which it occurs anywhere goes on to the
    decoder, and is accepted when what the replacements leave of it parses
    to an object with the seven fields. *)
Theorem unfenced_reply_skipped (n : Z) :
  (PyStr.contains fence_json (get_response n) = false ->
   (forall st, trys st + 1 = n ->
      exists st',
        gbody st = Continue st' /\
        listings st' = listings st /\
        List.length (listings st') = List.length (listings st) /\
        trys st' = trys st + 1 /\
        stdout st' = stdout st ++ [error_line n (get_response n)]) /\
   (forall amount fs,
      1 <= n <= trys (final_state (generate amount fs)) ->
      In (error_line n (get_response n)) (stdout (final_state (generate amount fs))) /\
      (forall listing, In listing (listings (final_state (generate amount fs))) ->
         getitem listing "id" <> Ok (VInt n)) /\
      (forall st1 e fs', generate amount fs = Raised st1 e fs' -> n < trys st1))) /\
  (forall st parsed listing,
     trys st + 1 = n ->
     PyStr.contains fence_json (get_response n) = true ->
     json_loads (strip_fences (get_response n)) = Ok parsed ->
     new_listing n parsed = Ok listing ->
     gbody st = Continue {| listings := listings st ++ [listing]; trys := n;
                            stdout := stdout st |}).
Proof.
  split.
  - intros Hfence. split.
    + intros st Ht. subst n. eexists. split; [apply body_skips; left; exact Hfence|].
      cbn [listings trys stdout]. rewrite Hfence. auto.
    + intros amount fs Hn.
      destruct (skipped_attempt_in_run amount fs n (or_introl Hfence) Hn)
        as (_ & Hline & Hids & Hraised).
      rewrite Hfence in Hline. auto.
  - intros st parsed listing Ht Hfence Hparse Hnew. subst n.
    unfold body. rewrite Hfence, Hparse, Hnew. reflexivity.
Qed.

(** C4.  At the end of every run the accepted listings carry, in the
    order in which they were accepted, strictly increasing and therefore
    pairwise different identifiers, and the identifier of a listing is the
    number of the attempt that appended it. *)
Theorem listing_ids_are_attempt_numbers (amount : Z) (fs : filesystem) :
  let st := final_state (generate amount fs) in
  exists ns,
    Forall2 (fun listing n => getitem listing "id" = Ok (VInt n) /\ gaccepts n listing)
            (listings st) ns /\
    StronglySorted Z.lt ns /\
    NoDup ns /\
    Forall (fun n => 1 <= n <= trys st) ns.
Proof.
  pose proof (loop_invariant amount _ (numbered_step amount)
                (Z.to_nat (amount + 10)) initial) as Hinv.
  cbv zeta in Hinv.
  assert (Hinit : 0 <= trys initial /\
            exists ns,
              Forall2 (fun listing n =>
                         getitem listing "id" = Ok (VInt n) /\ gaccepts n listing)
                      (listings initial) ns /\
              StronglySorted Z.lt ns /\
              Forall (fun n => 1 <= n <= trys initial) ns).
  { cbn. split; [lia|]. exists []. repeat constructor. }
  specialize (Hinv Hinit). clear Hinit.
  unfold generate_listings.
  destruct (gloop (Z.to_nat (amount + 10)) amount initial) as [st|st e|st];
    cbn [final_state listings trys];
    [destruct Hinv as [Hinv _] | | ];
    destruct Hinv as (_ & ns & Hids & Hsorted & Hrange);
    exists ns; repeat split; auto using StronglySorted_lt_NoDup.
Qed.

(** C10.  A run that reaches its end writes the listings file, whatever
    the number of accepted listings; for a target count that is zero or
    negative the body of the loop is never entered, no attempt is made and
    the file holds the empty array. *)
Theorem listings_file_always_written (amount : Z) (fs : filesystem) :
  match generate amount fs with
  | Returned st fs' =>
      fs' listings_json = Some (Json.dumps true (VList (listings st))) /\
      forall name, name <> listings_json -> fs' name = fs name
  | Raised _ _ fs' => fs' = fs
  | Unfinished _ => False
  end /\
  (amount <= 0 ->
   generate amount fs =
     Returned {| listings := []; trys := 0; stdout := ["Number of listings:  0"] |}
              (write_file fs listings_json "[]")).
Proof.
  split.
  - pose proof (generate_finishes amount fs) as Hfin.
    unfold generate_listings in *.
    destruct (gloop (Z.to_nat (amount + 10)) amount initial) as [st|st e|st].
    + cbn [listings]. unfold write_file. split.
      * rewrite String.eqb_refl. reflexivity.
      * intros name Hname. apply String.eqb_neq in Hname. rewrite Hname.
        reflexivity.
    + reflexivity.
    + exact (Hfin st eq_refl).
  - intros Hamount. unfold generate_listings.
    rewrite loop_stops; [reflexivity|].
    unfold guard, initial. cbn [listings trys List.length].
    apply andb_false_iff. left. apply Z.ltb_ge. cbn. lia.
Qed.

End GeneratorFacts.

(** C1 fails for a negative target count: the run accepts no listing, and
    zero is more than the target. *)
Lemma generate_listings_negative_target :
  match generate_listings sample_model Json.decode (-1) no_files with
  | Returned st _ =>
      ~ (Z.of_nat (List.length (listings st)) <= -1 /\ trys st <= -1 + 10)
  | _ => False
  end.
Proof. vm_compute. intros [H _]. apply H. reflexivity. Qed.

(** The skipped fourth attempt of the sample run: its reply has the marker
    and what is left of it is no JSON text. *)
Lemma malformed_output_skipped_witness :
  let final := final_state (generate_listings sample_model Json.decode 3 no_files) in
  (PyStr.contains fence_json (sample_model 4) = false \/
   Json.decode (strip_fences (sample_model 4)) = Raise JSONDecodeError) /\
  1 <= 4 <= trys final /\
  In "Error parsing response 4:  not an object " (stdout final) /\
  (forall listing, In listing (listings final) -> getitem listing "id" <> Ok (VInt 4)) /\
  (forall st,
     trys st + 1 = 4 ->
     body sample_model Json.decode st
     = Continue {| listings := listings st; trys := 4;
                   stdout := stdout st ++ ["Error parsing response 4:  not an object "] |}).
Proof.
  intros final.
  assert (H : PyStr.contains fence_json (sample_model 4) = false \/
              Json.decode (strip_fences (sample_model 4)) = Raise JSONDecodeError).
  { right. vm_compute. reflexivity. }
  assert (Hn : 1 <= 4 <= trys final) by (vm_compute; split; discriminate).
  destruct (proj1 (malformed_output_skipped sample_model Json.decode 4) H)
    as [Hpass Hrun].
  destruct (Hrun 3 no_files Hn) as (_ & Hline & Hids & _).
  repeat split; try assumption; try (vm_compute; discriminate).
  intros st Ht. exact (proj1 (Hpass st Ht)).
Defined.

(** C2 fails in two ways.  Wrapped content that is no listing is not
    recovered: a fenced object without the fields and a fenced number are
    parsed, nothing is printed for them, building the listing raises and the
    run is left without writing the listings file.  And a reply that misses
    the wrapper is not always skipped: the object followed by the marker is
    accepted. *)
Lemma malformed_output_not_recovered :
  wrapped_in_marker (empty_object_model 1) = true /\
  Json.decode (strip_fences (empty_object_model 1)) = Ok (VDict []) /\
  generate_listings empty_object_model Json.decode 3 no_files
  = Raised {| listings := []; trys := 1; stdout := [] |} (KeyError "neighborhood")
           no_files /\
  wrapped_in_marker (number_model 1) = true /\
  Json.decode (strip_fences (number_model 1)) = Ok (VInt 42) /\
  generate_listings number_model Json.decode 3 no_files
  = Raised {| listings := []; trys := 1; stdout := [] |} TypeError no_files /\
  wrapped_in_marker (trailing_marker_model 1) = false /\
  match body trailing_marker_model Json.decode initial with
  | Continue st => List.length (listings st) = 1%nat /\ stdout st = []
  | Abort _ _ => False
  end.
Proof. vm_compute. repeat split. Qed.

Lemma unfenced_reply_skipped_witness :
  let final := final_state (generate_listings sample_model Json.decode 3 no_files) in
  PyStr.contains fence_json (sample_model 2) = false /\
  1 <= 2 <= trys final /\
  In "Error parsing response 2: Sorry, I cannot help with that." (stdout final) /\
  (forall listing, In listing (listings final) -> getitem listing "id" <> Ok (VInt 2)).
Proof.
  intros final.
  assert (H : PyStr.contains fence_json (sample_model 2) = false)
    by (vm_compute; reflexivity).
  assert (Hn : 1 <= 2 <= trys final) by (vm_compute; split; discriminate).
  destruct (proj1 (unfenced_reply_skipped sample_model Json.decode 2) H) as [_ Hrun].
  destruct (Hrun 3 no_files Hn) as (Hline & Hids & _).
  repeat split; try assumption; vm_compute; discriminate.
Defined.

(** C5 fails on replies that have the marker without being wrapped in it:
    the object followed by the marker, and the object after the marker with
    no closing fence, are accepted, and the count of listings grows. *)
Lemma unwrapped_reply_accepted :
  wrapped_in_marker (trailing_marker_model 1) = false /\
  body trailing_marker_model Json.decode initial
  = Continue {| listings := [sample_listing 1 "A comfortable three-bedroom house."];
                trys := 1; stdout := [] |} /\
  wrapped_in_marker (open_fence_model 1) = false /\
  body open_fence_model Json.decode initial
  = Continue {| listings := [sample_listing 1 "A comfortable three-bedroom house."];
                trys := 1; stdout := [] |} /\
  match generate_listings trailing_marker_model Json.decode 2 no_files with
  | Returned st _ => List.length (listings st) = 2%nat /\ trys st = 2
  | _ => False
  end.
Proof. vm_compute. repeat split. Qed.

Lemma listings_file_always_written_witness :
  -3 <= 0 /\
  generate_listings sample_model Json.decode (-3) no_files =
    Returned {| listings := []; trys := 0; stdout := ["Number of listings:  0"] |}
             (write_file no_files listings_json "[]").
Proof.
  assert (H : -3 <= 0) by lia.
  split; [exact H|].
  exact (proj2 (listings_file_always_written sample_model Json.decode (-3) no_files) H).
Defined.

(** The sample run with target 3: attempts 1, 3 and 5 are accepted, attempts
    2 and 4 are skipped. *)
Example sample_run_ids :
  match generate_listings sample_model Json.decode 3 no_files with
  | Returned st _ =>
      map (fun listing => getitem listing "id") (listings st)
      = [Ok (VInt 1); Ok (VInt 3); Ok (VInt 5)] /\ trys st = 5
  | _ => False
  end.
Proof. vm_compute. split; reflexivity. Qed.

(** ** The enhancer *)

Lemma contains_fence_json_fence (s : string) :
  PyStr.contains fence_json s = true -> PyStr.contains fence s = true.
Proof.
  assert (Hp : forall t, prefix fence_json t = true -> prefix fence t = true).
  { intros t. unfold fence_json, fence.
    destruct t as [|a [|b [|c t]]]; cbn [prefix]; try discriminate;
      repeat match goal with
             | |- context [ascii_dec ?x ?y] => destruct (ascii_dec x y)
             end; try discriminate.
    intros _. destruct t; reflexivity. }
  induction s as [|c s IH]; cbn [PyStr.contains].
  - intros H. apply Hp in H. exact H.
  - intros H. apply orb_prop in H. destruct H as [H|H].
    + now rewrite (Hp _ H).
    + rewrite (IH H). apply orb_true_r.
Qed.

Lemma scan_no_backtick (p : ascii -> bool) (s : string) (run : nat) :
  p backtick = false -> PyStr.all_chars p s = true ->
  (run <= 2)%nat -> Fence.scan run s = false.
Proof.
  intros Hp. revert run. induction s as [|c s IH]; intros run Hall Hrun;
    [reflexivity|].
  cbn in Hall. apply andb_prop in Hall. destruct Hall as [Hc Hs]. cbn.
  destruct (Ascii.eqb_spec c backtick) as [->|_]; [congruence|].
  apply IH; [assumption | lia].
Qed.

Lemma str_int_no_fence (n : Z) : PyStr.contains fence (PyObj.str (VInt n)) = false.
Proof.
  rewrite contains_fence_scan. cbn [PyObj.str PyObj.repr].
  apply scan_no_backtick with (p := numeral_char);
    [reflexivity | apply all_chars_of_int | lia].
Qed.

Lemma has_char_written (c : ascii) (documents : list Document) :
  Ascii.eqb c LF = false ->
  Forall (fun d => PyStr.has_char c (page_content d) = false) documents ->
  PyStr.has_char c (written documents) = false.
Proof.
  intros Hc. induction 1 as [|d ds Hd _ IH]; [reflexivity|].
  cbn [written]. rewrite !has_char_app, Hd, IH. unfold str1.
  rewrite has_char_cons, Hc. reflexivity.
Qed.

(** Read back by lines, the file gives the document texts, when none of
    them has a line break inside. *)
Lemma readlines_written (documents : list Document) :
  Forall (fun d => PyStr.has_char LF (page_content d) = false /\
                   PyStr.has_char CR (page_content d) = false) documents ->
  PyStr.readlines (written documents)
  = map (fun d => (page_content d ++ str1 LF)%string) documents.
Proof.
  intros Hall. unfold PyStr.readlines.
  rewrite universal_newlines_id.
  - induction Hall as [|d ds [Hd _] _ IH]; [reflexivity|].
    cbn [written map]. rewrite splitlines_line by assumption. now rewrite IH.
  - apply has_char_written; [reflexivity|].
    eapply Forall_impl; [|exact Hall]. cbn. intros d [_ H]. exact H.
Qed.

Lemma compose_line (a b c d e f g h : string) :
  ((((a ++ b ++ c ++ d ++ e) ++ f) ++ g) ++ h)%string
  = (a ++ b ++ c ++ d ++ e ++ f ++ g ++ h)%string.
Proof. rewrite !append_assoc. reflexivity. Qed.

Section EnhancerFacts.

Variable get_response : nat -> string.

Lemma enhanced_document_inv (i : nat) (listing : value) (d : Document) :
  enhanced_document get_response i listing = Ok d ->
  exists id description neighborhood_description,
    getitem listing "id" = Ok id /\
    getitem listing "description" = Ok (VStr description) /\
    getitem listing "neighborhood_description" = Ok (VStr neighborhood_description) /\
    page_content d =
      ("id: " ++ PyObj.str id ++ ", converted description: "
       ++ converted (get_response i) ++ ", original description: "
       ++ description ++ ", neighborhood_description: "
       ++ neighborhood_description)%string /\
    metadata d = [("id", id)].
Proof.
  unfold enhanced_document.
  destruct (getitem listing "id") as [id|]; cbn [bind]; [|discriminate].
  destruct (getitem listing "description") as [[| | |description| |]|];
    cbn [bind str_add]; try discriminate.
  destruct (getitem listing "neighborhood_description") as [[| | |nd| |]|];
    cbn [bind str_add]; try discriminate.
  intros H. injection H as <-. exists id, description, nd.
  cbn [page_content metadata]. repeat split.
  exact (compose_line "id: " (PyObj.str id) ", converted description: "
           (converted (get_response i)) ", original description: "
           description ", neighborhood_description: " nd).
Qed.

Lemma enhance_from_spec (listings : list value) :
  forall (start : nat) (documents : list Document),
    enhance_from get_response start listings = Ok documents ->
    List.length documents = List.length listings /\
    forall i listing, nth_error listings i = Some listing ->
      exists d, nth_error documents i = Some d /\
                enhanced_document get_response (start + i) listing = Ok d.
Proof.
  induction listings as [|l ls IH]; intros start documents; cbn.
  - intros H. injection H as <-. split; [reflexivity|].
    intros [|i] listing; discriminate.
  - destruct (enhanced_document get_response start l) as [d|] eqn:Hd;
      cbn [bind]; [|discriminate].
    destruct (enhance_from get_response (S start) ls) as [ds|] eqn:Hds;
      cbn [bind]; [|discriminate].
    intros H. injection H as <-. destruct (IH _ _ Hds) as [Hlen Hnth].
    split; [cbn; now rewrite Hlen|].
    intros [|i] listing Hi; cbn in Hi.
    + injection Hi as <-. exists d. rewrite Nat.add_0_r. auto.
    + destruct (Hnth i listing Hi) as (d' & Hd' & He). exists d'.
      rewrite Nat.add_succ_r. auto.
Qed.

(** C6, as amended.  When the enhancer does not raise, it has built exactly
    one document for every input listing, in the order of the input, and it
    writes the texts of the documents in that order, each followed by a line
    end; read back by lines, the file has exactly one line for every
    listing, in the same order, when no document text has a line break
    inside. *)
Theorem enhancer_one_document_per_listing
    (listings : list value) (documents : list Document) :
  generate_enhanced_listings get_response listings = Ok documents ->
  List.length documents = List.length listings /\
  (forall i listing, nth_error listings i = Some listing ->
     exists d id, nth_error documents i = Some d /\
               enhanced_document get_response i listing = Ok d /\
               getitem listing "id" = Ok id /\ metadata d = [("id", id)]) /\
  (forall json_loads fs content loaded,
     fs listings_json = Some content -> json_loads content = Ok loaded ->
     iterate loaded = Ok listings ->
     enhancer_main get_response json_loads fs
     = Ok (write_file fs semantic_enhanced_listings_txt (written documents))) /\
  (Forall (fun d => PyStr.has_char LF (page_content d) = false /\
                    PyStr.has_char CR (page_content d) = false) documents ->
   PyStr.readlines (written documents)
   = map (fun d => (page_content d ++ str1 LF)%string) documents /\
   List.length (PyStr.readlines (written documents)) = List.length listings).
Proof.
  intros Hgen. pose proof Hgen as Hspec. unfold generate_enhanced_listings in Hspec.
  apply enhance_from_spec in Hspec. destruct Hspec as [Hlen Hnth].
  split; [exact Hlen|]. split; [|split].
  - intros i listing Hi. destruct (Hnth i listing Hi) as (d & Hd & He).
    cbn in He. destruct (enhanced_document_inv _ _ _ He)
      as (id & description & nd & Hid & _ & _ & _ & Hmeta).
    exists d, id. auto.
  - intros json_loads fs content loaded Hfs Hload Hiter.
    unfold enhancer_main, load_listings, read_file. rewrite Hfs. cbn [bind].
    rewrite Hload. cbn [bind]. rewrite Hiter. cbn [bind]. rewrite Hgen.
    reflexivity.
  - intros Hall. rewrite readlines_written by assumption.
    split; [reflexivity|]. now rewrite length_map.
Qed.

(** C7, as amended.  The line of a listing is the concatenation of its
    identifier, the converted text, its description and its neighborhood
    description.  The converted text is the reply with every json fence
    and then every fence removed when the reply has a json fence, and then
    it has no fence left; a reply without a json fence is taken as it is.
    When the converted text, the identifier and the two descriptions have no
    fence, the line has none. *)
Theorem enhancer_strips_json_fences (i : nat) (listing : value) (d : Document) :
  enhanced_document get_response i listing = Ok d ->
  exists id description neighborhood_description,
    getitem listing "id" = Ok id /\
    getitem listing "description" = Ok (VStr description) /\
    getitem listing "neighborhood_description" = Ok (VStr neighborhood_description) /\
    page_content d =
      ("id: " ++ PyObj.str id ++ ", converted description: "
       ++ converted (get_response i) ++ ", original description: "
       ++ description ++ ", neighborhood_description: "
       ++ neighborhood_description)%string /\
    (PyStr.contains fence_json (get_response i) = true ->
     converted (get_response i) = strip_fences (get_response i) /\
     PyStr.contains fence (converted (get_response i)) = false /\
     PyStr.contains fence_json (converted (get_response i)) = false) /\
    (PyStr.contains fence_json (get_response i) = false ->
     converted (get_response i) = get_response i) /\
    (forall n, id = VInt n -> PyStr.contains fence (PyObj.str id) = false) /\
    (PyStr.contains fence (converted (get_response i)) = false ->
     PyStr.contains fence (PyObj.str id) = false ->
     PyStr.contains fence description = false ->
     PyStr.contains fence neighborhood_description = false ->
     PyStr.contains fence (page_content d) = false /\
     PyStr.contains fence_json (page_content d) = false).
Proof.
  intros Hd. destruct (enhanced_document_inv _ _ _ Hd)
    as (id & description & nd & Hid & Hdesc & Hnd & Hpage & _).
  exists id, description, nd. repeat (split; [assumption|]).
  assert (Hjson : forall s, PyStr.contains fence s = false ->
                            PyStr.contains fence_json s = false).
  { intros s Hs. destruct (PyStr.contains fence_json s) eqn:Hj; [|reflexivity].
    apply contains_fence_json_fence in Hj. congruence. }
  split; [|split; [|split]].
  - intros Hfence. unfold converted. rewrite Hfence.
    pose proof (strip_fences_clean (get_response i)). auto.
  - intros Hfence. unfold converted. now rewrite Hfence.
  - intros n ->. apply str_int_no_fence.
  - intros Hconv Hsid Hdescription Hneighborhood.
    assert (Hline : PyStr.contains fence (page_content d) = false).
    { rewrite Hpage. rewrite contains_fence_scan in *.
      cbn [append]. rewrite !scan_separator by reflexivity.
      rewrite scan_app, Hsid. cbn [orb append].
      rewrite !scan_separator by reflexivity.
      rewrite scan_app, Hconv. cbn [orb append].
      rewrite !scan_separator by reflexivity.
      rewrite scan_app, Hdescription. cbn [orb append].
      rewrite !scan_separator by reflexivity.
      exact Hneighborhood. }
    auto.
Qed.

End EnhancerFacts.

(** C6 fails on a listing whose description has two lines: the file then
    has two lines for the one listing. *)
Lemma enhancer_line_break :
  match generate_enhanced_listings sample_enhancer
          [sample_listing 1 two_line_description] with
  | Ok documents =>
      List.length (PyStr.readlines (written documents))
      <> List.length [sample_listing 1 two_line_description]
  | Raise _ => False
  end.
Proof. vm_compute. discriminate. Qed.

Lemma enhancer_one_document_per_listing_witness :
  let listings := [sample_listing 1 "A comfortable house.";
                   sample_listing 3 "A small flat."] in
  exists documents,
    generate_enhanced_listings sample_enhancer listings = Ok documents /\
    List.length documents = List.length listings /\
    PyStr.readlines (written documents)
    = map (fun d => (page_content d ++ str1 LF)%string) documents /\
    List.length (PyStr.readlines (written documents)) = List.length listings.
Proof.
  intros listings.
  destruct (generate_enhanced_listings sample_enhancer listings)
    as [documents|e] eqn:Hgen; [|vm_compute in Hgen; discriminate].
  exists documents. split; [reflexivity|].
  destruct (enhancer_one_document_per_listing sample_enhancer listings documents Hgen)
    as (Hlen & _ & _ & Hlines).
  split; [exact Hlen|]. apply Hlines.
  vm_compute in Hgen. injection Hgen as <-.
  repeat constructor.
Defined.

(** C7 fails on a reply fenced without the word json: the fences stay. *)
Lemma enhancer_plain_fence_kept :
  match enhanced_document plainly_fenced 0 (sample_listing 1 "A comfortable house.") with
  | Ok d => PyStr.contains fence (page_content d) = true
  | Raise _ => False
  end.
Proof. vm_compute. reflexivity. Qed.

Lemma enhancer_strips_json_fences_witness :
  exists d,
    enhanced_document sample_enhancer 0 (sample_listing 1 "A comfortable house.") = Ok d /\
    PyStr.contains fence (page_content d) = false /\
    page_content d =
      ("id: 1, converted description: A cozy home with three bedrooms."
       ++ ", original description: A comfortable house."
       ++ ", neighborhood_description: Green Oaks is a close-knit community.")%string.
Proof.
  destruct (enhanced_document sample_enhancer 0
              (sample_listing 1 "A comfortable house.")) as [d|e] eqn:Hd;
    [|vm_compute in Hd; discriminate].
  exists d. split; [reflexivity|].
  destruct (enhancer_strips_json_fences sample_enhancer 0 _ d Hd)
    as (id & description & nd & Hid & Hdesc & Hnd & Hpage & _ & _ & _ & Hclean).
  vm_compute in Hid. injection Hid as <-.
  vm_compute in Hdesc. injection Hdesc as <-.
  vm_compute in Hnd. injection Hnd as <-.
  split.
  - apply Hclean; vm_compute; reflexivity.
  - rewrite Hpage. vm_compute. reflexivity.
Defined.

(** ** The matching pipeline *)

Lemma map_result_spec {A B : Type} (f : A -> result B) (xs : list A) :
  forall ys, map_result f xs = Ok ys -> Forall2 (fun x y => f x = Ok y) xs ys.
Proof.
  induction xs as [|x xs IH]; cbn; intros ys H.
  - injection H as <-. constructor.
  - destruct (f x) as [y|] eqn:Hy; cbn [bind] in H; [|discriminate].
    destruct (map_result f xs) as [ys'|]; cbn [bind] in H; [|discriminate].
    injection H as <-. constructor; auto.
Qed.

Lemma Forall2_in_r {A B : Type} (R : A -> B -> Prop) (xs : list A) (ys : list B) :
  Forall2 R xs ys -> forall y, In y ys -> exists x, In x xs /\ R x y.
Proof.
  induction 1 as [|x y xs ys Hxy _ IH]; intros z Hz; [contradiction|].
  destruct Hz as [<-|Hz].
  - exists x. split; [left; reflexivity | assumption].
  - destruct (IH z Hz) as (x' & Hin & HR). exists x'. split; [right|]; assumption.
Qed.

Lemma dict_get_without_id (d : dict) :
  dict_get "id" (without_id d) = None /\
  forall key, key <> "id" -> dict_get key (without_id d) = dict_get key d.
Proof.
  induction d as [|[k v] d [IH1 IH2]]; [split; reflexivity|].
  unfold without_id in *. cbn [filter fst].
  destruct (String.eqb_spec k "id") as [->|Hk]; cbn [negb].
  - split; [exact IH1|]. intros key Hkey. cbn [dict_get].
    destruct (String.eqb_spec "id" key) as [<-|_]; [congruence | auto].
  - split.
    + cbn [dict_get]. destruct (String.eqb_spec k "id"); [contradiction | exact IH1].
    + intros key Hkey. cbn [dict_get]. destruct (String.eqb k key); auto.
Qed.

(** The identifier that the pipeline reads out of a line that starts with
    [id: ] and a numeral. *)
Lemma line_id_numeral (numeral rest : string) :
  PyStr.all_chars numeral_char numeral = true ->
  line_id ("id: " ++ numeral ++ ", " ++ rest) = Ok (" " ++ numeral)%string.
Proof.
  intros Hnum. unfold line_id.
  assert (Hcomma : PyStr.has_char "," numeral = false)
    by (eapply all_chars_has_char; [exact Hnum | reflexivity]).
  assert (Hcolon : PyStr.has_char ":" numeral = false)
    by (eapply all_chars_has_char; [exact Hnum | reflexivity]).
  replace ("id: " ++ numeral ++ ", " ++ rest)%string
    with (("id: " ++ numeral) ++ String "," (" " ++ rest))%string
    by (rewrite append_assoc; reflexivity).
  rewrite split_first.
  2:{ rewrite has_char_app, Hcomma. reflexivity. }
  cbn [hd].
  change ("id: " ++ numeral)%string with ("id" ++ String ":" (" " ++ numeral))%string.
  rewrite split_first by reflexivity.
  rewrite split_none.
  2:{ rewrite has_char_app, Hcolon. reflexivity. }
  reflexivity.
Qed.

(** What a run of [main] that returns has done, stage by stage. *)
Lemma main_inv {vectorstore : Type} (json_loads : string -> result value)
    (from_documents : list Document -> string -> result vectorstore)
    (similarity_search : vectorstore -> string -> nat -> result (list Document))
    (fs : filesystem) (r : retrieval) :
  main json_loads from_documents similarity_search fs = Ok r ->
  exists content loaded listings raw_store text semantic_store,
    fs listings_json = Some content /\
    json_loads content = Ok loaded /\
    iterate loaded = Ok listings /\
    map_result raw_document listings = Ok (raw_index r) /\
    from_documents (raw_index r) "raw_listings" = Ok raw_store /\
    fs semantic_enhanced_listings_txt = Some text /\
    map_result semantic_document (PyStr.readlines text) = Ok (semantic_index r) /\
    from_documents (semantic_index r) "semantic_listings" = Ok semantic_store /\
    similarity_search raw_store (preferences_to_query questions answers) K
    = Ok (similarity_search_raw_vectorstore r) /\
    similarity_search semantic_store (preferences_to_query questions answers) K
    = Ok (similarity_search_semantic_enhanced_vectorstore r).
Proof.
  unfold main, load_listings, read_file.
  destruct (fs listings_json) as [content|] eqn:Hcontent; cbn [bind]; [|discriminate].
  destruct (json_loads content) as [loaded|] eqn:Hloaded; cbn [bind]; [|discriminate].
  destruct (iterate loaded) as [listings|] eqn:Hiter; cbn [bind]; [|discriminate].
  destruct (map_result raw_document listings) as [raws|] eqn:Hraw;
    cbn [bind]; [|discriminate].
  destruct (from_documents raws "raw_listings") as [raw_store|] eqn:Hrs;
    cbn [bind]; [|discriminate].
  destruct (fs semantic_enhanced_listings_txt) as [text|] eqn:Htext;
    cbn [bind]; [|discriminate].
  destruct (map_result semantic_document (PyStr.readlines text)) as [sems|] eqn:Hsem;
    cbn [bind]; [|discriminate].
  destruct (from_documents sems "semantic_listings") as [semantic_store|] eqn:Hss;
    cbn [bind]; [|discriminate].
  destruct (similarity_search raw_store (preferences_to_query questions answers) K)
    as [raw_results|] eqn:Hrr; cbn [bind]; [|discriminate].
  destruct (similarity_search semantic_store (preferences_to_query questions answers) K)
    as [semantic_results|] eqn:Hsr; cbn [bind]; [|discriminate].
  intros H. injection H as <-.
  exists content, loaded, listings, raw_store, text, semantic_store.
  cbn [raw_index semantic_index similarity_search_raw_vectorstore
       similarity_search_semantic_enhanced_vectorstore].
  repeat split; assumption.
Qed.


Lemma raw_document_inv (listing : value) (d : Document) :
  raw_document listing = Ok d ->
  exists entries id neighborhood price,
    listing = VDict entries /\
    dict_get "id" entries = Some id /\
    dict_get "neighborhood" entries = Some neighborhood /\
    dict_get "price" entries = Some price /\
    page_content d = Json.dumps false (VDict (without_id entries)) /\
    metadata d = [("id", id); ("neighborhood", neighborhood); ("price", price)].
Proof.
  unfold raw_document. destruct listing as [| | | | |entries]; try discriminate.
  cbn [items bind getitem].
  destruct (dict_get "id" entries) as [id|] eqn:Hid; cbn [bind]; [|discriminate].
  destruct (dict_get "neighborhood" entries) as [nb|] eqn:Hnb; cbn [bind];
    [|discriminate].
  destruct (dict_get "price" entries) as [pr|] eqn:Hpr; cbn [bind]; [|discriminate].
  intros H. injection H as <-. exists entries, id, nb, pr. repeat split; assumption.
Qed.

(** The comprehension keeps the entries other than the identifier, in
    their order. *)
Lemma without_id_keys (entries : dict) :
  map fst (without_id entries)
  = filter (fun key => negb (String.eqb key "id")) (map fst entries).
Proof.
  induction entries as [|[k v] entries IH]; [reflexivity|].
  unfold without_id in *. cbn [filter map fst].
  destruct (String.eqb k "id"); cbn [negb map fst]; now rewrite IH.
Qed.

(** C8.  The documents that the pipeline hands to the store for the raw
    collection are, one for every listing read from the listings file and
    in the order of the file, the document of that listing: its text is the
    serialization of the entries of the listing other than the identifier,
    in their order (for a listing of the generator: its seven fields), and
    the identifier is in its metadata, with the neighborhood and the price.
    When the store refuses them the pipeline raises what the store raised;
    when the pipeline returns, they are its raw index. *)
Theorem raw_document_text_without_id {vectorstore : Type}
    (json_loads : string -> result value)
    (from_documents : list Document -> string -> result vectorstore)
    (similarity_search : vectorstore -> string -> nat -> result (list Document))
    (fs : filesystem) :
  (forall loaded listings raws,
     load_listings json_loads fs = Ok loaded ->
     iterate loaded = Ok listings ->
     map_result raw_document listings = Ok raws ->
     Forall2 (fun listing d =>
                exists entries id neighborhood price,
                  listing = VDict entries /\
                  dict_get "id" entries = Some id /\
                  page_content d = Json.dumps false (VDict (without_id entries)) /\
                  map fst (without_id entries)
                  = filter (fun key => negb (String.eqb key "id")) (map fst entries) /\
                  dict_get "id" (without_id entries) = None /\
                  (forall key, key <> "id" ->
                     dict_get key (without_id entries) = dict_get key entries) /\
                  metadata d = [("id", id); ("neighborhood", neighborhood);
                                ("price", price)] /\
                  (forall n a b c e f g h,
                     entries = [("id", VInt n); ("neighborhood", a); ("price", b);
                                ("bedrooms", c); ("bathrooms", e); ("size", f);
                                ("description", g); ("neighborhood_description", h)] ->
                     page_content d
                     = Json.dumps false
                         (VDict [("neighborhood", a); ("price", b); ("bedrooms", c);
                                 ("bathrooms", e); ("size", f); ("description", g);
                                 ("neighborhood_description", h)]) /\
                     id = VInt n))
             listings raws /\
     (forall e, from_documents raws "raw_listings" = Raise e ->
        main json_loads from_documents similarity_search fs = Raise e) /\
     (forall r, main json_loads from_documents similarity_search fs = Ok r ->
        raw_index r = raws /\
        exists raw_store, from_documents raws "raw_listings" = Ok raw_store)) /\
  (forall r, main json_loads from_documents similarity_search fs = Ok r ->
     exists content loaded listings,
       fs listings_json = Some content /\
       json_loads content = Ok loaded /\
       iterate loaded = Ok listings /\
       map_result raw_document listings = Ok (raw_index r) /\
       List.length (raw_index r) = List.length listings).
Proof.
  split.
  - intros loaded listings raws Hload Hiter Hraw. split; [|split].
    + apply map_result_spec in Hraw.
      eapply Forall2_impl; [|exact Hraw]. cbv beta. intros listing d Hdoc.
      destruct (raw_document_inv _ _ Hdoc)
        as (entries & id & nb & pr & -> & Hid & Hnb & Hpr & Hpage & Hmeta).
      exists entries, id, nb, pr. repeat (split; [assumption || reflexivity|]).
      split; [apply without_id_keys|].
      split; [apply dict_get_without_id|].
      split; [apply dict_get_without_id|].
      split; [exact Hmeta|].
      intros n a b c e f g h ->. rewrite Hpage. cbn in Hid. injection Hid as <-.
      split; reflexivity.
    + intros e Hfail. unfold main. rewrite Hload. cbn [bind]. rewrite Hiter.
      cbn [bind]. rewrite Hraw. cbn [bind]. rewrite Hfail. reflexivity.
    + intros r Hmain.
      destruct (main_inv _ _ _ _ _ Hmain)
        as (content & loaded' & listings' & raw_store & text & semantic_store
            & Hcontent & Hloaded & Hiter' & Hraw' & Hstore & _).
      unfold load_listings, read_file in Hload. rewrite Hcontent in Hload.
      cbn [bind] in Hload. rewrite Hloaded in Hload. injection Hload as <-.
      rewrite Hiter in Hiter'. injection Hiter' as <-.
      rewrite Hraw in Hraw'. injection Hraw' as ->. eauto.
  - intros r Hmain.
    destruct (main_inv _ _ _ _ _ Hmain)
      as (content & loaded & listings & raw_store & text & semantic_store
          & Hcontent & Hloaded & Hiter & Hraw & _).
    exists content, loaded, listings. repeat (split; [assumption|]).
    apply map_result_spec, Forall2_length in Hraw. auto.
Qed.

Section HomeMatchFacts.

Variable json_loads : string -> result value.
Context {vectorstore : Type}.
Variable from_documents : list Document -> string -> result vectorstore.
Variable similarity_search : vectorstore -> string -> nat -> result (list Document).

(** What is assumed of the vector store: the answers of a collection are
    documents that it was built from, as many as asked for when it holds
    that many. *)
Hypothesis search_in_index :
  forall documents name store query k results,
    from_documents documents name = Ok store ->
    similarity_search store query k = Ok results ->
    incl results documents.
Hypothesis search_count :
  forall documents name store query k results,
    from_documents documents name = Ok store ->
    similarity_search store query k = Ok results ->
    List.length results = Nat.min k (List.length documents).

(** C3, as amended.  When the pipeline has made its two searches, the raw
    collection was built from one document for every listing of the
    listings file and the semantic collection from one document for every
    line of the enhanced file.  Each of the two searches answers with
    [min K n] documents of its collection of [n] documents, so with exactly
    [K = 2] when the collection holds two or more.  Every raw result is the
    document of a listing of the file and carries that listing's identifier
    in its metadata; every semantic result has a line of the enhanced file
    as its text. *)
Theorem retrieval_results (fs : filesystem) (r : retrieval) :
  main json_loads from_documents similarity_search fs = Ok r ->
  exists content loaded listings text,
    fs listings_json = Some content /\
    json_loads content = Ok loaded /\
    iterate loaded = Ok listings /\
    fs semantic_enhanced_listings_txt = Some text /\
    Forall2 (fun listing d => raw_document listing = Ok d) listings (raw_index r) /\
    Forall2 (fun line d => page_content d = line)
            (PyStr.readlines text) (semantic_index r) /\
    List.length (similarity_search_raw_vectorstore r)
    = Nat.min K (List.length listings) /\
    List.length (similarity_search_semantic_enhanced_vectorstore r)
    = Nat.min K (List.length (PyStr.readlines text)) /\
    ((2 <= List.length listings)%nat ->
     List.length (similarity_search_raw_vectorstore r) = 2%nat) /\
    ((2 <= List.length (PyStr.readlines text))%nat ->
     List.length (similarity_search_semantic_enhanced_vectorstore r) = 2%nat) /\
    (forall d, In d (similarity_search_raw_vectorstore r) ->
       exists listing id,
         In listing listings /\
         raw_document listing = Ok d /\
         getitem listing "id" = Ok id /\
         dict_get "id" (metadata d) = Some id) /\
    (forall d, In d (similarity_search_semantic_enhanced_vectorstore r) ->
       exists line, In line (PyStr.readlines text) /\ page_content d = line).
Proof.
  intros Hmain.
  destruct (main_inv _ _ _ _ _ Hmain)
    as (content & loaded & listings & raw_store & text & semantic_store
        & Hcontent & Hloaded & Hiter & Hraw & Hrs & Htext & Hsem & Hss & Hrr & Hsr).
  apply map_result_spec in Hraw, Hsem.
  pose proof (Forall2_length Hraw) as Hlraw.
  pose proof (Forall2_length Hsem) as Hlsem.
  assert (Hlines : Forall2 (fun line d => page_content d = line)
                           (PyStr.readlines text) (semantic_index r)).
  { eapply Forall2_impl; [|exact Hsem]. cbv beta. intros line d Hd.
    unfold semantic_document in Hd.
    destruct (line_id line) as [id|]; cbn [bind] in Hd; [|discriminate].
    injection Hd as <-. reflexivity. }
  exists content, loaded, listings, text.
  repeat (split; [assumption|]).
  rewrite (search_count _ _ _ _ _ _ Hrs Hrr), (search_count _ _ _ _ _ _ Hss Hsr),
    <- Hlraw, <- Hlsem. unfold K.
  repeat (split; [try reflexivity; intros; lia|]).
  split.
  - intros d Hd. apply (search_in_index _ _ _ _ _ _ Hrs Hrr) in Hd.
    destruct (Forall2_in_r _ _ _ Hraw d Hd) as (listing & Hin & Hdoc).
    destruct (raw_document_inv _ _ Hdoc)
      as (entries & id & nb & pr & -> & Hid & _ & _ & _ & Hmeta).
    exists (VDict entries), id. rewrite Hmeta. cbn [getitem]. rewrite Hid.
    repeat split; auto.
  - intros d Hd. apply (search_in_index _ _ _ _ _ _ Hss Hsr) in Hd.
    destruct (Forall2_in_r _ _ _ Hlines d Hd) as (line & Hin & Hline).
    exists line. auto.
Qed.

End HomeMatchFacts.

(** The line that the enhancer writes for a listing with an integer
    identifier is read back with a space in front of the numeral. *)
Lemma line_id_enhanced (get_response : nat -> string) (i : nat)
    (listing : value) (n : Z) (d : Document) :
  getitem listing "id" = Ok (VInt n) ->
  enhanced_document get_response i listing = Ok d ->
  line_id (page_content d ++ str1 LF) = Ok (" " ++ PyStr.of_int n)%string.
Proof.
  intros Hid Hd.
  destruct (enhanced_document_inv _ _ _ _ Hd)
    as (id & description & nd & Hid' & _ & _ & Hpage & _).
  rewrite Hid in Hid'. injection Hid' as <-.
  rewrite Hpage. cbn [PyObj.str PyObj.repr].
  rewrite !append_assoc.
  change (", converted description: " ++ ?x)%string
    with (", " ++ ("converted description: " ++ x))%string.
  apply line_id_numeral, all_chars_of_int.
Qed.

Example sample_semantic_ids :
  match main Json.decode sample_from_documents sample_search sample_files with
  | Ok r =>
      map (fun d => dict_get "id" (metadata d)) (raw_index r)
      = [Some (VInt 1); Some (VInt 3); Some (VInt 5)] /\
      map (fun d => dict_get "id" (metadata d)) (semantic_index r)
      = [Some (VStr " 1"); Some (VStr " 3"); Some (VStr " 5")]
  | Raise _ => False
  end.
Proof. vm_compute. split; reflexivity. Qed.

(** C3 fails in two ways.  With one listing in the file, no store that
    answers with different documents of its collection gives two results.
    And the identifier that the pipeline reads out of the line of listing 7
    is a text with a space in front, not the identifier that the enhancer
    put into the line and into the metadata of its document. *)
Lemma retrieval_claim_fails :
  (~ exists (store : Type)
            (from_documents : list Document -> string -> result store)
            (search : store -> string -> nat -> result (list Document))
            (r : retrieval),
       (forall documents name s query k results,
          from_documents documents name = Ok s ->
          search s query k = Ok results ->
          incl results documents /\ NoDup results) /\
       main Json.decode from_documents search one_listing_files = Ok r /\
       List.length (similarity_search_raw_vectorstore r) = K) /\
  match enhanced_document sample_enhancer 1 (sample_listing 7 "A small flat.") with
  | Ok d =>
      match semantic_document (page_content d ++ str1 LF) with
      | Ok d' =>
          dict_get "id" (metadata d) = Some (VInt 7) /\
          dict_get "id" (metadata d') = Some (VStr " 7") /\
          " 7" <> PyObj.str (VInt 7)
      | Raise _ => False
      end
  | Raise _ => False
  end.
Proof.
  split.
  - intros (store & from_documents & search & r & Hsound & Hmain & Hlen).
    destruct (main_inv _ _ _ _ _ Hmain)
      as (content & loaded & listings & raw_store & text & semantic_store
          & Hcontent & Hloaded & Hiter & Hraw & Hrs & _ & _ & _ & Hrr & _).
    vm_compute in Hcontent. injection Hcontent as <-.
    vm_compute in Hloaded. injection Hloaded as <-.
    cbn in Hiter. injection Hiter as <-.
    apply map_result_spec, Forall2_length in Hraw. cbn in Hraw.
    destruct (Hsound _ _ _ _ _ _ Hrs Hrr) as [Hincl Hnodup].
    pose proof (NoDup_incl_length Hnodup Hincl) as Hle.
    rewrite Hlen, <- Hraw in Hle. unfold K in Hle. lia.
  - vm_compute. repeat split. discriminate.
Qed.

Lemma sample_search_in_index (documents : list Document) (name : string)
    (store : list Document) (query : string) (k : nat) (results : list Document) :
  sample_from_documents documents name = Ok store ->
  sample_search store query k = Ok results ->
  incl results documents.
Proof.
  unfold sample_from_documents, sample_search.
  destruct documents as [|d ds]; [discriminate|].
  intros H1 H2. injection H1 as <-. injection H2 as <-.
  intros x Hx. rewrite <- (firstn_skipn k (d :: ds)). apply in_or_app. left. exact Hx.
Qed.

Lemma sample_search_count (documents : list Document) (name : string)
    (store : list Document) (query : string) (k : nat) (results : list Document) :
  sample_from_documents documents name = Ok store ->
  sample_search store query k = Ok results ->
  List.length results = Nat.min k (List.length documents).
Proof.
  unfold sample_from_documents, sample_search.
  destruct documents as [|d ds]; [discriminate|].
  intros H1 H2. injection H1 as <-. injection H2 as <-. apply length_firstn.
Qed.

Lemma retrieval_results_witness :
  exists r,
    main Json.decode sample_from_documents sample_search sample_files = Ok r /\
    List.length (similarity_search_raw_vectorstore r) = 2%nat /\
    List.length (similarity_search_semantic_enhanced_vectorstore r) = 2%nat /\
    forall d, In d (similarity_search_raw_vectorstore r) ->
      exists listing id,
        raw_document listing = Ok d /\
        getitem listing "id" = Ok id /\
        dict_get "id" (metadata d) = Some id.
Proof.
  destruct (main Json.decode sample_from_documents sample_search sample_files)
    as [r|e] eqn:Hmain; [|vm_compute in Hmain; discriminate].
  exists r. split; [reflexivity|].
  destruct (retrieval_results Json.decode sample_from_documents sample_search
              sample_search_in_index sample_search_count sample_files r Hmain)
    as (content & loaded & listings & text & Hcontent & Hloaded & Hiter & Htext
        & _ & _ & _ & _ & Hraw & Hsem & Hids & _).
  vm_compute in Hcontent. injection Hcontent as <-.
  vm_compute in Hloaded. injection Hloaded as <-.
  vm_compute in Hiter. injection Hiter as <-.
  vm_compute in Htext. injection Htext as <-.
  split; [apply Hraw; cbn; lia|].
  split; [apply Hsem; vm_compute; lia|].
  intros d Hd. destruct (Hids d Hd) as (listing & id & _ & H1 & H2 & H3).
  exists listing, id. auto.
Defined.

Lemma raw_document_text_without_id_witness :
  exists r listings,
    main Json.decode sample_from_documents sample_search sample_files = Ok r /\
    load_listings Json.decode sample_files = Ok (VList listings) /\
    List.length listings = 3%nat /\
    map (fun d => dict_get "id" (metadata d)) (raw_index r)
    = [Some (VInt 1); Some (VInt 3); Some (VInt 5)] /\
    Forall (fun d => PyStr.contains "id" (page_content d) = false) (raw_index r) /\
    Forall2 (fun listing d =>
               exists entries,
                 listing = VDict entries /\
                 page_content d = Json.dumps false (VDict (without_id entries)))
            listings (raw_index r).
Proof.
  destruct (main Json.decode sample_from_documents sample_search sample_files)
    as [r|e] eqn:Hmain; [|vm_compute in Hmain; discriminate].
  destruct (load_listings Json.decode sample_files) as [loaded|e] eqn:Hload;
    [|vm_compute in Hload; discriminate].
  destruct (iterate loaded) as [listings|e] eqn:Hiter;
    [|vm_compute in Hload; injection Hload as <-; discriminate].
  destruct (map_result raw_document listings) as [raws|e] eqn:Hraw;
    [|vm_compute in Hload; injection Hload as <-; vm_compute in Hiter;
      injection Hiter as <-; vm_compute in Hraw; discriminate].
  destruct (proj1 (raw_document_text_without_id Json.decode sample_from_documents
                     sample_search sample_files)
              loaded listings raws Hload Hiter Hraw) as (Hall & _ & Hindex).
  destruct (Hindex r Hmain) as [Hidx _]. rewrite <- Hidx in Hall.
  vm_compute in Hload. injection Hload as <-.
  vm_compute in Hiter. injection Hiter as <-.
  exists r. eexists. split; [reflexivity|]. split; [reflexivity|].
  split; [reflexivity|]. split; [|split].
  - vm_compute in Hmain. injection Hmain as <-. reflexivity.
  - vm_compute in Hmain. injection Hmain as <-. repeat constructor.
  - eapply Forall2_impl; [|exact Hall]. cbv beta.
    intros listing d (entries & id & nb & pr & H1 & _ & H3 & _). eauto.
Defined.

(** ** The JSON encoder and decoder *)

Lemma value_ind (P : value -> Prop) :
  P VNone ->
  (forall b, P (VBool b)) ->
  (forall n, P (VInt n)) ->
  (forall s, P (VStr s)) ->
  (forall xs, Forall P xs -> P (VList xs)) ->
  (forall kvs, Forall (fun kv => P (snd kv)) kvs -> P (VDict kvs)) ->
  forall v, P v.
Proof.
  intros HNone HBool HInt HStr HList HDict.
  refine (fix IH (v : value) : P v :=
            match v with
            | VNone => HNone
            | VBool b => HBool b
            | VInt n => HInt n
            | VStr s => HStr s
            | VList xs =>
                HList xs ((fix all (l : list value) : Forall P l :=
                             match l with
                             | [] => Forall_nil P
                             | x :: l' => Forall_cons x (IH x) (all l')
                             end) xs)
            | VDict kvs =>
                HDict kvs ((fix all (l : dict) : Forall (fun kv => P (snd kv)) l :=
                              match l with
                              | [] => Forall_nil _
                              | kv :: l' => Forall_cons kv (IH (snd kv)) (all l')
                              end) kvs)
            end).
Qed.

(** *** Text literals *)

Lemma scan_string_escape_char (ensure_ascii : bool) (c : ascii) (t : string) :
  Json.scan_string (Json.escape_char ensure_ascii c ++ t)
  = Json.prepend c (Json.scan_string t).
Proof.
  destruct ensure_ascii; destruct c as [[] [] [] [] [] [] [] []]; reflexivity.
Qed.

Lemma scan_string_escape (ensure_ascii : bool) (s rest : string) :
  Json.scan_string (Json.escape ensure_ascii s ++ String dquote rest) = Some (s, rest).
Proof.
  induction s as [|c s IH]; [reflexivity|].
  cbn [Json.escape]. rewrite append_assoc, scan_string_escape_char, IH. reflexivity.
Qed.

Lemma scan_encode_string (ensure_ascii : bool) (s rest : string) :
  exists t, (Json.encode_string ensure_ascii s ++ rest)%string = String dquote t /\
            Json.scan_string t = Some (s, rest).
Proof.
  exists (Json.escape ensure_ascii s ++ String dquote rest)%string. split.
  - unfold Json.encode_string, str1. cbn [append]. now rewrite append_assoc.
  - apply scan_string_escape.
Qed.

(** *** Numbers *)

Lemma is_digit_not_minus (c : ascii) :
  Json.is_digit c = true -> Ascii.eqb c "-" = false.
Proof. destruct (Ascii.eqb_spec c "-") as [->|]; [discriminate | reflexivity]. Qed.

Lemma span_digits_app (ds rest : string) :
  PyStr.all_chars Json.is_digit ds = true -> ends_number rest = true ->
  Json.span_digits (ds ++ rest) = (ds, rest).
Proof.
  intros Hds Hrest. induction ds as [|c ds IH]; cbn.
  - destruct rest as [|c rest]; [reflexivity|]. cbn in Hrest.
    apply andb_prop in Hrest. destruct Hrest as [Hc _].
    apply negb_true_iff in Hc. cbn. now rewrite Hc.
  - cbn in Hds. apply andb_prop in Hds. destruct Hds as [Hc Hds].
    rewrite Hc, (IH Hds). reflexivity.
Qed.

Lemma ends_number_fraction (rest : string) :
  ends_number rest = true -> Json.starts_fraction rest = false.
Proof.
  destruct rest as [|c rest]; [reflexivity|]. unfold ends_number.
  intros H. apply andb_prop in H. destruct H as [_ H].
  now apply negb_true_iff in H.
Qed.

Lemma to_uint_normal (n : N) : Decimal.unorm (N.to_uint n) = N.to_uint n.
Proof.
  rewrite <- (DecimalN.Unsigned.of_to n) at 2.
  now rewrite DecimalN.Unsigned.to_of.
Qed.

(** A numeral starts with zero only when it is zero. *)
Lemma to_uint_no_leading_zero (n : N) (d : Decimal.uint) :
  N.to_uint n = Decimal.D0 d -> d = Decimal.Nil.
Proof.
  intros H. pose proof (to_uint_normal n) as Hn. rewrite H in Hn.
  rewrite DecimalFacts.unorm_D0 in Hn.
  destruct (Decimal.nzhead d) eqn:Hz;
    [ unfold Decimal.unorm in Hn; rewrite Hz in Hn; now injection Hn as ->
    | exfalso; rewrite DecimalFacts.unorm_nzhead in Hn by congruence;
      first [ rewrite Hz in Hn; discriminate
            | eapply DecimalFacts.nzhead_nonzero; exact Hn ] .. ].
Qed.

Lemma to_uint_nonnil (n : N) : N.to_uint n <> Decimal.Nil.
Proof. rewrite <- to_uint_normal. apply DecimalFacts.unorm_nonnil. Qed.

Lemma scan_digits_numeral (n : N) (rest : string) :
  ends_number rest = true ->
  Json.scan_digits (NilEmpty.string_of_uint (N.to_uint n) ++ rest) = Some (n, rest).
Proof.
  intros Hrest. unfold Json.scan_digits.
  rewrite span_digits_app by (auto using all_chars_string_of_uint).
  rewrite (ends_number_fraction rest Hrest).
  pose proof (NilEmpty.usu (N.to_uint n)) as Husu.
  pose proof (DecimalN.Unsigned.of_to n) as Hof.
  pose proof (to_uint_nonnil n) as Hnil.
  pose proof (to_uint_no_leading_zero n) as Hzero.
  destruct (N.to_uint n) as [|d|d|d|d|d|d|d|d|d|d]; [congruence| | | | | | | | | |];
    cbn [NilEmpty.string_of_uint] in *;
    try (change (Ascii.eqb ?a "0") with false; cbn [andb];
         unfold NilZero.uint_of_string; rewrite Husu, Hof; reflexivity).
  rewrite (Hzero d eq_refl) in *. cbn. cbn in Hof. now rewrite Hof.
Qed.

Lemma of_int_of_N (n : N) :
  PyStr.of_int (Z.of_N n) = NilEmpty.string_of_uint (N.to_uint n).
Proof.
  destruct n as [|p]; [reflexivity|]. unfold PyStr.of_int. cbn.
  pose proof (to_uint_nonnil (Npos p)) as Hnil. cbn in Hnil.
  unfold NilZero.string_of_uint. destruct (Pos.to_uint p); congruence.
Qed.

Lemma numeral_head (n : N) :
  exists c t, NilEmpty.string_of_uint (N.to_uint n) = String c t /\
              Json.is_digit c = true.
Proof.
  pose proof (to_uint_nonnil n) as Hnil.
  destruct (N.to_uint n); [congruence| | | | | | | | | |]; cbn; eauto.
Qed.

Lemma of_int_neg (p : positive) :
  PyStr.of_int (Zneg p) = String "-" (NilEmpty.string_of_uint (N.to_uint (Npos p))).
Proof.
  unfold PyStr.of_int. cbn. f_equal.
  pose proof (to_uint_nonnil (Npos p)) as Hnil. cbn in Hnil.
  unfold NilZero.string_of_uint. destruct (Pos.to_uint p); congruence.
Qed.

Lemma scan_number_of_int (n : Z) (rest : string) :
  ends_number rest = true ->
  Json.scan_number (PyStr.of_int n ++ rest) = Some (VInt n, rest).
Proof.
  intros Hrest. destruct n as [|p|p].
  - change 0 with (Z.of_N 0). rewrite of_int_of_N.
    pose proof (scan_digits_numeral 0 rest Hrest) as H. cbn in H |- *.
    unfold Json.scan_number. cbn. rewrite H. reflexivity.
  - change (Zpos p) with (Z.of_N (Npos p)). rewrite of_int_of_N.
    pose proof (scan_digits_numeral (Npos p) rest Hrest) as H.
    destruct (numeral_head (Npos p)) as (c & t & Heq & Hc).
    rewrite Heq in *. cbn [append] in *. unfold Json.scan_number.
    rewrite (is_digit_not_minus c Hc), H. reflexivity.
  - rewrite of_int_neg. cbn [append]. unfold Json.scan_number.
    change (Ascii.eqb "-" "-") with true. cbn iota.
    rewrite (scan_digits_numeral (Npos p) rest Hrest). reflexivity.
Qed.

Lemma of_int_head (n : Z) :
  exists c t, PyStr.of_int n = String c t /\ numeral_char c = true.
Proof.
  destruct n as [|p|p].
  - exists "0"%char, EmptyString. split; reflexivity.
  - change (Zpos p) with (Z.of_N (Npos p)). rewrite of_int_of_N.
    destruct (numeral_head (Npos p)) as (c & t & Heq & Hc).
    exists c, t. split; [assumption|]. unfold numeral_char. now rewrite Hc.
  - rewrite of_int_neg. eexists _, _. split; reflexivity.
Qed.

(** *** Dictionaries built from pairs *)

Lemma distinct_middle (a b : list string) (k : string) :
  distinct (a ++ k :: b) = true -> existsb (String.eqb k) a = false.
Proof.
  induction a as [|x a IH]; [reflexivity|]. cbn.
  intros H. apply andb_prop in H. destruct H as [Hx Ha].
  apply negb_true_iff in Hx. rewrite existsb_app in Hx.
  apply orb_false_elim in Hx. destruct Hx as [_ Hx]. cbn in Hx.
  apply orb_false_elim in Hx. destruct Hx as [Hx _].
  rewrite String.eqb_sym, Hx. cbn. auto.
Qed.

Lemma dict_set_fresh (k : string) (v : value) (d : dict) :
  existsb (String.eqb k) (map fst d) = false -> dict_set k v d = d ++ [(k, v)].
Proof.
  induction d as [|[k' w] d IH]; [reflexivity|]. cbn.
  intros H. apply orb_false_elim in H. destruct H as [Hk Hd].
  rewrite String.eqb_sym, Hk, (IH Hd). reflexivity.
Qed.

Lemma from_pairs_distinct (kvs : dict) :
  distinct (map fst kvs) = true -> Json.from_pairs kvs = kvs.
Proof.
  unfold Json.from_pairs.
  enough (H : forall acc, distinct (map fst (acc ++ kvs)) = true ->
              fold_left (fun d kv => dict_set (fst kv) (snd kv) d) kvs acc = acc ++ kvs)
    by (intros Hd; apply (H [] Hd)).
  induction kvs as [|[k v] kvs IH]; intros acc Hd; cbn [fold_left fst snd].
  - now rewrite List.app_nil_r.
  - rewrite dict_set_fresh.
    + rewrite IH; rewrite <- List.app_assoc; [reflexivity | exact Hd].
    + rewrite map_app in Hd. cbn [map fst] in Hd.
      now apply distinct_middle in Hd.
Qed.

(** *** The head of an encoded value *)

Lemma numeral_char_dispatch (c : ascii) :
  numeral_char c = true ->
  Json.is_ws c = false /\ Ascii.eqb c dquote = false /\
  Ascii.eqb c "[" = false /\ Ascii.eqb c "{" = false /\
  Ascii.eqb c "n" = false /\ Ascii.eqb c "t" = false /\ Ascii.eqb c "f" = false /\
  Ascii.eqb c "]" = false /\ Ascii.eqb c "}" = false.
Proof.
  destruct c as [[] [] [] [] [] [] [] []]; intros H; try discriminate H;
    repeat split.
Qed.

Lemma dumps_head (ensure_ascii : bool) (v : value) :
  exists c t, Json.dumps ensure_ascii v = String c t /\
              Json.is_ws c = false /\ Ascii.eqb c "]" = false.
Proof.
  destruct v as [|[]|n|s|xs|kvs]; try (eexists _, _; repeat split; fail).
  destruct (of_int_head n) as (c & t & Heq & Hc).
  exists c, t. cbn [Json.dumps]. apply numeral_char_dispatch in Hc. tauto.
Qed.

Lemma skip_ws_head (c : ascii) (s : string) :
  Json.is_ws c = false -> Json.skip_ws (String c s) = String c s.
Proof. intros H. cbn. now rewrite H. Qed.

Lemma skip_ws_dumps (ensure_ascii : bool) (v : value) (rest : string) :
  Json.skip_ws (Json.dumps ensure_ascii v ++ rest) = (Json.dumps ensure_ascii v ++ rest)%string.
Proof.
  destruct (dumps_head ensure_ascii v) as (c & t & -> & Hc & _).
  cbn [append]. now apply skip_ws_head.
Qed.

Lemma concat_dumps_head (ensure_ascii : bool) (y : value) (ys : list value) (rest : string) :
  exists c t,
    (String.concat ", " (map (Json.dumps ensure_ascii) (y :: ys)) ++ rest)%string = String c t /\
    Json.is_ws c = false /\ Ascii.eqb c "]" = false.
Proof.
  destruct (dumps_head ensure_ascii y) as (c & t & Heq & Hc & Hb).
  cbn [map String.concat]. rewrite Heq.
  destruct (map (Json.dumps ensure_ascii) ys); cbn [append]; eauto.
Qed.

(** *** Unfolding the decoder by one step of fuel *)

Lemma parse_elements_S (fuel : nat) (s : string) :
  Json.parse_elements (S fuel) s =
  match Json.parse_value fuel s with
  | Some (x, rest) =>
      match Json.skip_ws rest with
      | String c rest' =>
          if Ascii.eqb c "," then
            match Json.parse_elements fuel (Json.skip_ws rest') with
            | Some (xs, rest'') => Some (x :: xs, rest'')
            | None => None
            end
          else if Ascii.eqb c "]" then Some ([x], rest')
          else None
      | EmptyString => None
      end
  | None => None
  end.
Proof. reflexivity. Qed.

Lemma parse_members_quote (fuel : nat) (s : string) :
  Json.parse_members (S fuel) (String dquote s) =
  match Json.scan_string s with
  | Some (key, rest) =>
      match Json.skip_ws rest with
      | String c rest' =>
          if Ascii.eqb c ":" then
            match Json.parse_value fuel (Json.skip_ws rest') with
            | Some (x, rest1) =>
                match Json.skip_ws rest1 with
                | String d rest2 =>
                    if Ascii.eqb d "," then
                      match Json.parse_members fuel (Json.skip_ws rest2) with
                      | Some (pairs, rest3) => Some ((key, x) :: pairs, rest3)
                      | None => None
                      end
                    else if Ascii.eqb d "}" then Some ([(key, x)], rest2)
                    else None
                | EmptyString => None
                end
            | None => None
            end
          else None
      | EmptyString => None
      end
  | None => None
  end.
Proof. reflexivity. Qed.

Lemma parse_value_list (fuel : nat) (s : string) :
  Json.parse_value (S fuel) (String "[" s) =
  match Json.skip_ws s with
  | String d rest =>
      if Ascii.eqb d "]" then Some (VList [], rest)
      else match Json.parse_elements fuel (String d rest) with
           | Some (xs, rest') => Some (VList xs, rest')
           | None => None
           end
  | EmptyString => None
  end.
Proof. reflexivity. Qed.

Lemma parse_value_dict (fuel : nat) (s : string) :
  Json.parse_value (S fuel) (String "{" s) =
  match Json.skip_ws s with
  | String d rest =>
      if Ascii.eqb d "}" then Some (VDict [], rest)
      else match Json.parse_members fuel (String d rest) with
           | Some (pairs, rest') => Some (VDict (Json.from_pairs pairs), rest')
           | None => None
           end
  | EmptyString => None
  end.
Proof. reflexivity. Qed.

Lemma parse_value_number (fuel : nat) (c : ascii) (s : string) :
  numeral_char c = true ->
  Json.parse_value (S fuel) (String c s) = Json.scan_number (String c s).
Proof.
  intros Hc. apply numeral_char_dispatch in Hc.
  destruct Hc as (_ & H1 & H2 & H3 & H4 & H5 & H6 & _).
  cbn [Json.parse_value]. now rewrite H1, H2, H3, H4, H5, H6.
Qed.

Lemma member_shape (ensure_ascii : bool) (k : string) (v : value) (rest : string) :
  ((Json.encode_string ensure_ascii k ++ ": " ++ Json.dumps ensure_ascii v) ++ rest)%string
  = String dquote
      (Json.escape ensure_ascii k
       ++ String dquote (String ":" (String " " (Json.dumps ensure_ascii v ++ rest)))).
Proof.
  unfold Json.encode_string. cbn [append]. rewrite !append_assoc. cbn [append].
  rewrite ?append_assoc. reflexivity.
Qed.

(** *** Decoding what was encoded *)

Lemma list_sum_cons (n : nat) (l : list nat) : list_sum (n :: l) = (n + list_sum l)%nat.
Proof. reflexivity. Qed.

Lemma skip_ws_space (s : string) : Json.skip_ws (String " " s) = Json.skip_ws s.
Proof. reflexivity. Qed.

Lemma parse_value_quote (fuel : nat) (s : string) :
  Json.parse_value (S fuel) (String dquote s) =
  match Json.scan_string s with
  | Some (text, rest) => Some (VStr text, rest)
  | None => None
  end.
Proof. reflexivity. Qed.

(** Tests between two given characters are decided by computation. *)
Ltac char_tests :=
  repeat match goal with
         | |- context [Ascii.eqb ?a ?b] =>
             let r := eval cbv in (Ascii.eqb a b) in
             match r with
             | true => change (Ascii.eqb a b) with true
             | false => change (Ascii.eqb a b) with false
             end
         end.

Ltac decode_step := cbv beta iota; char_tests; cbv beta iota.

Lemma parse_elements_dumps (ensure_ascii : bool) (xs : list value) :
  Forall (fun x => forall fuel rest,
            (weight x <= fuel)%nat -> ends_number rest = true ->
            Json.parse_value fuel (Json.dumps ensure_ascii x ++ rest) = Some (x, rest)) xs ->
  xs <> [] ->
  forall fuel rest,
    (list_sum (map (fun x => S (weight x)) xs) <= fuel)%nat ->
    Json.parse_elements fuel
      (String.concat ", " (map (Json.dumps ensure_ascii) xs) ++ String "]" rest)
    = Some (xs, rest).
Proof.
  induction xs as [|x xs IH]; [congruence|].
  intros Hall _ fuel rest Hfuel.
  inversion Hall as [|? ? Hx Hxs]; subst.
  cbn [map] in Hfuel. rewrite list_sum_cons in Hfuel.
  destruct fuel as [|fuel]; [lia|].
  rewrite parse_elements_S.
  destruct xs as [|y ys].
  - cbn [map String.concat].
    rewrite Hx by (try reflexivity; lia).
    rewrite skip_ws_head by reflexivity. decode_step. reflexivity.
  - change (String.concat ", " (map (Json.dumps ensure_ascii) (x :: y :: ys)))
      with (Json.dumps ensure_ascii x ++ ", "
            ++ String.concat ", " (map (Json.dumps ensure_ascii) (y :: ys)))%string.
    rewrite !append_assoc. cbn [append].
    rewrite Hx by (try reflexivity; lia).
    rewrite skip_ws_head by reflexivity. decode_step.
    rewrite skip_ws_space.
    destruct (concat_dumps_head ensure_ascii y ys (String "]" rest))
      as (c & t & Heq & Hc & _).
    rewrite Heq, (skip_ws_head c t Hc), <- Heq.
    rewrite IH; [reflexivity | assumption | discriminate | lia].
Qed.

Lemma members_head (ensure_ascii : bool) (kv : string * value) (kvs : dict)
    (rest : string) :
  exists t,
    (String.concat ", "
       (map (fun kv => (Json.encode_string ensure_ascii (fst kv) ++ ": "
                        ++ Json.dumps ensure_ascii (snd kv))%string) (kv :: kvs))
     ++ rest)%string = String dquote t.
Proof.
  cbn [map String.concat].
  destruct (map _ kvs); unfold Json.encode_string; cbn [append];
    eexists; reflexivity.
Qed.

Lemma members_cons (ensure_ascii : bool) (kv kv' : string * value) (kvs : dict) :
  String.concat ", "
    (map (fun kv => (Json.encode_string ensure_ascii (fst kv) ++ ": "
                     ++ Json.dumps ensure_ascii (snd kv))%string) (kv :: kv' :: kvs))
  = ((Json.encode_string ensure_ascii (fst kv) ++ ": "
      ++ Json.dumps ensure_ascii (snd kv))
     ++ ", "
     ++ String.concat ", "
          (map (fun kv => (Json.encode_string ensure_ascii (fst kv) ++ ": "
                           ++ Json.dumps ensure_ascii (snd kv))%string) (kv' :: kvs)))%string.
Proof. reflexivity. Qed.

Lemma parse_members_dumps (ensure_ascii : bool) (kvs : dict) :
  Forall (fun kv => forall fuel rest,
            (weight (snd kv) <= fuel)%nat -> ends_number rest = true ->
            Json.parse_value fuel (Json.dumps ensure_ascii (snd kv) ++ rest)
            = Some (snd kv, rest)) kvs ->
  kvs <> [] ->
  forall fuel rest,
    (list_sum (map (fun kv => S (weight (snd kv))) kvs) <= fuel)%nat ->
    Json.parse_members fuel
      (String.concat ", "
         (map (fun kv => (Json.encode_string ensure_ascii (fst kv) ++ ": "
                          ++ Json.dumps ensure_ascii (snd kv))%string) kvs)
       ++ String "}" rest)
    = Some (kvs, rest).
Proof.
  induction kvs as [|[k x] kvs IH]; [congruence|].
  intros Hall _ fuel rest Hfuel.
  inversion Hall as [|? ? Hx Hxs]; subst. cbn [snd] in Hx.
  cbn [map snd] in Hfuel. rewrite list_sum_cons in Hfuel.
  destruct fuel as [|fuel]; [lia|].
  destruct kvs as [|[k' y] kvs].
  - cbn [map String.concat fst snd].
    rewrite member_shape, parse_members_quote, scan_string_escape.
    rewrite skip_ws_head by reflexivity. decode_step.
    rewrite skip_ws_space, skip_ws_dumps.
    rewrite Hx by (try reflexivity; lia).
    rewrite skip_ws_head by reflexivity. decode_step. reflexivity.
  - rewrite members_cons. rewrite append_assoc. cbn [fst snd].
    rewrite member_shape, parse_members_quote, scan_string_escape.
    rewrite skip_ws_head by reflexivity. decode_step.
    rewrite skip_ws_space, skip_ws_dumps. rewrite append_assoc.
    change (", " ++ ?z)%string with (String "," (String " " z)).
    rewrite Hx by (try reflexivity; lia).
    rewrite skip_ws_head by reflexivity. decode_step.
    rewrite skip_ws_space.
    destruct (members_head ensure_ascii (k', y) kvs (String "}" rest)) as [t Heq].
    rewrite Heq, (skip_ws_head dquote t eq_refl), <- Heq.
    rewrite IH; [reflexivity | assumption | discriminate | lia].
Qed.

Lemma forallb_Forall_impl {A : Type} (p : A -> bool) (P : A -> Prop) (l : list A) :
  Forall (fun x => p x = true -> P x) l -> forallb p l = true -> Forall P l.
Proof.
  induction 1 as [|x l Hx _ IH]; cbn; intros H; constructor;
    apply andb_prop in H; destruct H; auto.
Qed.

Lemma bracketed (opening closing : ascii) (inner rest : string) :
  ((str1 opening ++ inner ++ str1 closing) ++ rest)%string
  = String opening (inner ++ String closing rest).
Proof. unfold str1. cbn [append]. rewrite append_assoc. reflexivity. Qed.

Lemma parse_value_dumps (ensure_ascii : bool) (v : value) :
  well_keyed v = true ->
  forall fuel rest,
    (weight v <= fuel)%nat -> ends_number rest = true ->
    Json.parse_value fuel (Json.dumps ensure_ascii v ++ rest) = Some (v, rest).
Proof.
  induction v as [| b | n | s | xs IH | kvs IH] using value_ind;
    intros Hwk fuel rest Hfuel Hrest;
    (destruct fuel as [|fuel]; [cbn in Hfuel; lia|]).
  - reflexivity.
  - destruct b; reflexivity.
  - destruct (of_int_head n) as (c & t & Heq & Hc).
    pose proof (scan_number_of_int n rest Hrest) as Hscan.
    cbn [Json.dumps]. rewrite Heq in *. cbn [append] in *.
    now rewrite parse_value_number.
  - destruct (scan_encode_string ensure_ascii s rest) as (t & Heq & Hscan).
    cbn [Json.dumps]. now rewrite Heq, parse_value_quote, Hscan.
  - cbn [well_keyed] in Hwk. cbn [weight] in Hfuel.
    pose proof (forallb_Forall_impl _ _ _ IH Hwk) as Hall.
    cbn [Json.dumps]. rewrite (bracketed "[" "]").
    rewrite parse_value_list.
    destruct xs as [|y ys]; [reflexivity|].
    destruct (concat_dumps_head ensure_ascii y ys (String "]" rest))
      as (c & t & Heq & Hc & Hb).
    rewrite Heq, (skip_ws_head c t Hc), Hb, <- Heq.
    rewrite parse_elements_dumps; [reflexivity | assumption | discriminate | lia].
  - cbn [well_keyed] in Hwk. apply andb_prop in Hwk. destruct Hwk as [Hkeys Hwk].
    cbn [weight] in Hfuel.
    pose proof (forallb_Forall_impl (fun kv => well_keyed (snd kv)) _ _ IH Hwk) as Hall.
    cbn [Json.dumps]. rewrite (bracketed "{" "}").
    rewrite parse_value_dict.
    destruct kvs as [|[k x] kvs]; [reflexivity|].
    destruct (members_head ensure_ascii (k, x) kvs (String "}" rest)) as [t Heq].
    rewrite Heq.
    rewrite (skip_ws_head dquote t eq_refl).
    change (Ascii.eqb dquote "}") with false. cbv iota. rewrite <- Heq.
    rewrite parse_members_dumps; [|assumption | discriminate | lia].
    now rewrite from_pairs_distinct.
Qed.

(** *** Enough fuel *)

Lemma concat_length_bound {A : Type} (f : A -> string) (w : A -> nat) (xs : list A) :
  Forall (fun x => (w x <= String.length (f x))%nat) xs ->
  (list_sum (map (fun x => S (w x)) xs)
   <= String.length (String.concat ", " (map f xs)) + 1)%nat.
Proof.
  induction 1 as [|x xs Hx _ IH]; [cbn; lia|].
  cbn [map]. rewrite list_sum_cons.
  destruct xs as [|y ys].
  - cbn. lia.
  - change (String.concat ", " (f x :: map f (y :: ys)))
      with (f x ++ ", " ++ String.concat ", " (map f (y :: ys)))%string.
    rewrite !length_append. cbn [String.length]. lia.
Qed.

Lemma weight_le_length (ensure_ascii : bool) (v : value) :
  (weight v <= String.length (Json.dumps ensure_ascii v))%nat.
Proof.
  induction v as [| b | n | s | xs IH | kvs IH] using value_ind.
  - cbn. lia.
  - destruct b; cbn; lia.
  - destruct (of_int_head n) as (c & t & Heq & _). cbn [Json.dumps weight].
    rewrite Heq. cbn. lia.
  - cbn. lia.
  - cbn [Json.dumps weight]. rewrite !length_append. cbn [String.length].
    pose proof (concat_length_bound (Json.dumps ensure_ascii) weight xs IH). lia.
  - cbn [Json.dumps weight]. rewrite !length_append. cbn [String.length].
    pose proof (concat_length_bound
                  (fun kv => (Json.encode_string ensure_ascii (fst kv) ++ ": "
                              ++ Json.dumps ensure_ascii (snd kv))%string)
                  (fun kv => weight (snd kv)) kvs) as Hbound.
    cbv beta in Hbound.
    assert (Hall : Forall (fun kv : string * value =>
                     (weight (snd kv)
                      <= String.length (Json.encode_string ensure_ascii (fst kv) ++ ": "
                                        ++ Json.dumps ensure_ascii (snd kv)))%nat) kvs).
    { eapply Forall_impl; [|exact IH]. cbv beta. intros kv Hkv.
      rewrite !length_append. lia. }
    specialize (Hbound Hall). lia.
Qed.

(** Decoding the encoding of a value gives the value back. *)
Lemma loads_dumps (ensure_ascii : bool) (v : value) :
  well_keyed v = true -> Json.loads (Json.dumps ensure_ascii v) = Some v.
Proof.
  intros Hwk. unfold Json.loads.
  pose proof (skip_ws_dumps ensure_ascii v EmptyString) as Hskip.
  rewrite append_nil_r in Hskip. rewrite Hskip.
  pose proof (parse_value_dumps ensure_ascii v Hwk
                (String.length (Json.dumps ensure_ascii v)) EmptyString
                (weight_le_length ensure_ascii v) eq_refl) as Hparse.
  rewrite append_nil_r in Hparse. rewrite Hparse. reflexivity.
Qed.

(** *** The decoder builds dictionaries with different keys *)

Lemma keys_dict_set (k : string) (v : value) (d : dict) :
  map fst (dict_set k v d)
  = if existsb (String.eqb k) (map fst d) then map fst d else map fst d ++ [k].
Proof.
  induction d as [|[k' w] d IH]; [reflexivity|]. cbn.
  rewrite (String.eqb_sym k k').
  destruct (String.eqb k' k); cbn; [reflexivity|].
  rewrite IH. destruct (existsb (String.eqb k) (map fst d)); reflexivity.
Qed.

Lemma distinct_snoc (keys : list string) (k : string) :
  distinct keys = true -> existsb (String.eqb k) keys = false ->
  distinct (keys ++ [k]) = true.
Proof.
  induction keys as [|x keys IH]; [reflexivity|]. cbn.
  intros Hd Hk. apply andb_prop in Hd. destruct Hd as [Hx Hd].
  apply orb_false_elim in Hk. destruct Hk as [Hkx Hk].
  rewrite existsb_app. cbn. rewrite (String.eqb_sym x k), Hkx.
  apply negb_true_iff in Hx. rewrite Hx. cbn. auto.
Qed.

Lemma dict_set_well_keyed (k : string) (v : value) (d : dict) :
  well_keyed (VDict d) = true -> well_keyed v = true ->
  well_keyed (VDict (dict_set k v d)) = true.
Proof.
  cbn [well_keyed]. intros Hd Hv. apply andb_prop in Hd. destruct Hd as [Hkeys Hvals].
  apply andb_true_intro. split.
  - rewrite keys_dict_set.
    destruct (existsb (String.eqb k) (map fst d)) eqn:Hk;
      [assumption | now apply distinct_snoc].
  - clear Hkeys. induction d as [|[k' w] d IH]; cbn.
    + now rewrite Hv.
    + cbn in Hvals. apply andb_prop in Hvals. destruct Hvals as [Hw Hvals].
      destruct (String.eqb k' k); cbn; [now rewrite Hv, Hvals|].
      now rewrite Hw, IH.
Qed.

Lemma from_pairs_well_keyed (pairs : dict) :
  forallb (fun kv => well_keyed (snd kv)) pairs = true ->
  well_keyed (VDict (Json.from_pairs pairs)) = true.
Proof.
  unfold Json.from_pairs.
  enough (H : forall acc, well_keyed (VDict acc) = true ->
              forallb (fun kv => well_keyed (snd kv)) pairs = true ->
              well_keyed (VDict (fold_left (fun d kv => dict_set (fst kv) (snd kv) d)
                                           pairs acc)) = true)
    by (apply H; reflexivity).
  induction pairs as [|[k v] pairs IH]; intros acc Hacc Hall; [exact Hacc|].
  cbn in Hall. apply andb_prop in Hall. destruct Hall as [Hv Hall].
  cbn [fold_left fst snd]. apply IH; [|assumption].
  now apply dict_set_well_keyed.
Qed.

Ltac break_parse H :=
  repeat match type of H with
         | context [match ?x with _ => _ end] => destruct x eqn:?; try discriminate H
         end.

Lemma parse_well_keyed (fuel : nat) :
  (forall s v rest, Json.parse_value fuel s = Some (v, rest) -> well_keyed v = true) /\
  (forall s xs rest, Json.parse_elements fuel s = Some (xs, rest) ->
     forallb well_keyed xs = true) /\
  (forall s kvs rest, Json.parse_members fuel s = Some (kvs, rest) ->
     forallb (fun kv => well_keyed (snd kv)) kvs = true).
Proof.
  induction fuel as [|fuel (IHv & IHe & IHm)];
    [repeat split; intros; discriminate|].
  split; [|split].
  - intros s v rest H. cbn [Json.parse_value] in H. unfold Json.scan_number in H.
    break_parse H; injection H as <- <-; try reflexivity.
    + cbn [well_keyed]. eapply IHe; eassumption.
    + apply from_pairs_well_keyed. eapply IHm; eassumption.
  - intros s xs rest H. rewrite parse_elements_S in H.
    break_parse H; injection H as <- <-; cbn [forallb].
    + erewrite IHv by eassumption. erewrite IHe by eassumption. reflexivity.
    + erewrite IHv by eassumption. reflexivity.
  - intros s kvs rest H. cbn [Json.parse_members] in H.
    break_parse H; injection H as <- <-; cbn [forallb snd].
    + erewrite IHv by eassumption. erewrite IHm by eassumption. reflexivity.
    + erewrite IHv by eassumption. reflexivity.
Qed.

Lemma loads_well_keyed (s : string) (v : value) :
  Json.loads s = Some v -> well_keyed v = true.
Proof.
  unfold Json.loads. intros H. break_parse H. injection H as <-.
  eapply (proj1 (parse_well_keyed _)). eassumption.
Qed.

(** ** Writing the listings and reading them back *)



Lemma decode_well_keyed (s : string) (v : value) :
  Json.decode s = Ok v -> well_keyed v = true.
Proof.
  unfold Json.decode. destruct (Json.loads s) as [w|] eqn:Hw; [|discriminate].
  intros H. injection H as <-. exact (loads_well_keyed _ _ Hw).
Qed.


Section RoundTrip.

Variable get_response : Z -> string.
Variable json_loads : string -> result value.

(** The dictionaries that the decoder of the replies builds have pairwise
    different keys, as every dictionary has. *)
Hypothesis json_loads_well_keyed :
  forall s v, json_loads s = Ok v -> well_keyed v = true.




End RoundTrip.

(** *** The encoder and the decoder on given values

    The expected texts are written with single quotes where the JSON text
    has double quotes. *)

Example dumps_sample :
  let v := VDict [("a", VStr (String "127" (String "031" (String LF (String dquote
                                (String backslash (String "233" "/")))))));
                  ("b", VList [VInt 1; VInt (-2); VNone; VBool true; VBool false; VDict []]);
                  ("c", VList [])] in
  Json.dumps true v
  = PyStr.replace
      "{'a': '\u007f\u001f\n\'\\\u00e9/', 'b': [1, -2, null, true, false, {}], 'c': []}"
      "'" (str1 dquote) /\
  Json.loads (Json.dumps true v) = Some v /\
  Json.loads (Json.dumps false v) = Some v.
Proof. vm_compute. repeat split. Qed.

Example loads_sample :
  Json.loads (PyStr.replace " {'a': [1 ,2, -0] , 'a' :true } " "'" (str1 dquote))
  = Some (VDict [("a", VBool true)]) /\
  Json.loads "[01]" = None /\
  Json.loads "-" = None /\
  Json.loads "[1,]" = None /\
  Json.loads "[1 2]" = None /\
  Json.loads "nul" = None /\
  Json.loads "+1" = None.
Proof. vm_compute. repeat split. Qed.

Example repr_sample :
  PyObj.repr (VDict [("a", VList [VInt 1; VNone; VBool true; VStr "x"])])
  = "{'a': [1, None, True, 'x']}" /\
  PyObj.repr (VStr "it's") = (str1 dquote ++ "it's" ++ str1 dquote)%string /\
  PyObj.str (VInt (-5)) = "-5".
Proof. vm_compute. repeat split. Qed.

(* ================================================================== *)
(** * Part III: further properties of the scripts *)
(* ================================================================== *)

(** ** The generator: what a run does with its attempts *)

Section GeneratorRuns.

Variable get_response : Z -> string.
Variable json_loads : string -> result value.

Local Notation "'gbody'" := (body get_response json_loads).
Local Notation "'gloop'" := (loop get_response json_loads).
Local Notation "'greaches'" := (reaches get_response json_loads).
Local Notation "'gaccepts'" := (accepts get_response json_loads).
Local Notation "'generate'" := (generate_listings get_response json_loads).

(** A pass appends one listing, or prints one line, or aborts and does
    neither. *)
Lemma body_accounts (st : gen_state) :
  match gbody st with
  | Continue st' =>
      trys st' = trys st + 1 /\
      ((exists listing, listings st' = listings st ++ [listing] /\
                        stdout st' = stdout st) \/
       (listings st' = listings st /\
        exists line, stdout st' = stdout st ++ [line]))
  | Abort st' _ =>
      trys st' = trys st + 1 /\ listings st' = listings st /\ stdout st' = stdout st
  end.
Proof.
  unfold body.
  destruct (PyStr.contains fence_json (get_response (trys st + 1)));
    [ destruct (json_loads (strip_fences (get_response (trys st + 1)))) as [parsed|e];
      [ destruct (new_listing (trys st + 1) parsed) as [listing|e] | destruct e ] | ];
    cbn [listings trys stdout]; eauto 8.
Qed.

Lemma reaches_grows (amount : Z) (st st' : gen_state) :
  greaches amount st st' ->
  exists more lines,
    listings st' = listings st ++ more /\
    stdout st' = stdout st ++ lines /\
    trys st' = trys st + Z.of_nat (List.length more) + Z.of_nat (List.length lines).
Proof.
  induction 1 as [st|st st1 st2 Hg Hb _ (more & lines & Hl & Ho & Ht)].
  - exists [], []. rewrite !List.app_nil_r. cbn. repeat split. lia.
  - pose proof (body_accounts st) as Hacc. rewrite Hb in Hacc.
    destruct Hacc as [Ht1 [(l & Hl1 & Ho1) | (Hl1 & line & Ho1)]].
    + exists (l :: more), lines. rewrite Hl, Ho, Ht, Hl1, Ho1, Ht1.
      rewrite <- List.app_assoc. cbn [app List.length]. repeat split. lia.
    + exists more, (line :: lines). rewrite Hl, Ho, Ht, Hl1, Ho1, Ht1.
      rewrite <- List.app_assoc. cbn [app List.length]. repeat split. lia.
Qed.

(** X1.  Every attempt of a run is accounted for: when the run returns, the
    attempts are as many as the accepted listings and the error lines
    together, the count line being the last line printed; when the run is
    left by an exception, the attempt that raised has neither appended a
    listing nor printed a line. *)
Theorem every_attempt_accounted (amount : Z) (fs : filesystem) :
  match generate amount fs with
  | Returned st _ =>
      exists errors,
        stdout st = errors ++ [count_line st] /\
        trys st = Z.of_nat (List.length (listings st)) + Z.of_nat (List.length errors)
  | Raised st _ _ =>
      trys st = Z.of_nat (List.length (listings st))
                + Z.of_nat (List.length (stdout st)) + 1
  | Unfinished _ => False
  end.
Proof.
  pose proof (generate_finishes get_response json_loads amount fs) as Hfin.
  unfold generate_listings in *.
  pose proof (loop_reaches get_response json_loads amount
                (Z.to_nat (amount + 10)) initial) as Hr.
  destruct (gloop (Z.to_nat (amount + 10)) amount initial) as [st|st e|st].
  - destruct Hr as [Hr _]. apply reaches_grows in Hr.
    destruct Hr as (more & lines & Hl & Ho & Ht). cbn in Hl, Ho, Ht.
    exists (stdout st). cbn [stdout listings trys]. split; [reflexivity|].
    rewrite Ht, Hl, Ho. lia.
  - destruct Hr as (st0 & Hr & _ & Hb). apply reaches_grows in Hr.
    destruct Hr as (more & lines & Hl & Ho & Ht). cbn in Hl, Ho, Ht.
    pose proof (body_accounts st0) as Hacc. rewrite Hb in Hacc.
    destruct Hacc as (Ht' & Hl' & Ho'). rewrite Ht', Hl', Ho', Ht, Hl, Ho. lia.
  - exact (Hfin st eq_refl).
Qed.

(** X2.  However the loop is left, the listings that were accepted when it
    was entered are still there, in the same order and in front; no pass
    removes, replaces or reorders a listing, or a printed line. *)
Theorem accepted_listings_stay (fuel : nat) (amount : Z) (st : gen_state) :
  let st' := match gloop fuel amount st with
             | Finished st' => st'
             | Aborted st' _ => st'
             | OutOfFuel st' => st'
             end in
  (exists more, listings st' = listings st ++ more) /\
  (exists lines, stdout st' = stdout st ++ lines) /\
  trys st <= trys st'.
Proof.
  revert st. induction fuel as [|fuel IH]; intros st; cbn;
    destruct (guard amount st);
    try (repeat split; try (exists []; now rewrite List.app_nil_r); lia).
  pose proof (body_accounts st) as Hacc.
  destruct (gbody st) as [st1|st1 e].
  - specialize (IH st1). cbv zeta in IH.
    destruct IH as ((more & Hl) & (lines & Ho) & Ht).
    destruct Hacc as [Ht1 [(l & Hl1 & Ho1) | (Hl1 & line & Ho1)]];
      rewrite Hl1 in Hl; rewrite Ho1 in Ho; rewrite <- ?List.app_assoc in *;
      repeat split; eauto; lia.
  - destruct Hacc as (Ht1 & Hl1 & Ho1). rewrite Hl1, Ho1.
    repeat split; try (exists []; now rewrite List.app_nil_r); lia.
Qed.

(** X3.  A run that returns delivers exactly the target count, unless it has
    made all of its [amount + 10] attempts; it returns fewer listings than
    asked for only after the whole budget is spent. *)
Theorem delivers_target_or_spends_budget
    (amount : Z) (fs fs' : filesystem) (st : gen_state) :
  generate amount fs = Returned st fs' ->
  0 <= amount ->
  Z.of_nat (List.length (listings st)) = amount \/
  (Z.of_nat (List.length (listings st)) < amount /\ trys st = amount + 10).
Proof.
  intros Hrun Hamount. unfold generate_listings in Hrun.
  pose proof (loop_invariant get_response json_loads amount (within_budget amount)
                (within_budget_step get_response json_loads amount)
                (Z.to_nat (amount + 10)) initial
                (within_budget_initial amount)) as Hinv.
  destruct (gloop (Z.to_nat (amount + 10)) amount initial) as [st0|st0 e|st0];
    try discriminate.
  injection Hrun as <- _. cbn [listings trys].
  destruct Hinv as [(H0 & Hlen & Htrys & _) Hg].
  unfold guard in Hg. apply andb_false_iff in Hg.
  destruct Hg as [Hg|Hg]; apply Z.ltb_ge in Hg; lia.
Qed.

(** X4.  When each of the first [amount] replies is accepted, the run returns
    after exactly [amount] attempts with exactly [amount] listings: no
    attempt of the reserve of ten is made. *)
Theorem accepted_replies_deliver (amount : Z) (fs : filesystem) :
  0 <= amount ->
  (forall n, 1 <= n <= amount -> exists listing, gaccepts n listing) ->
  exists st fs',
    generate amount fs = Returned st fs' /\
    trys st = amount /\
    Z.of_nat (List.length (listings st)) = amount /\
    stdout st = [count_line st].
Proof.
  intros Hamount Hgood.
  assert (Hloop : forall (left : nat) (fuel : nat) (st : gen_state),
             (left <= fuel)%nat ->
             trys st = amount - Z.of_nat left ->
             Z.of_nat (List.length (listings st)) = amount - Z.of_nat left ->
             0 <= amount - Z.of_nat left ->
             exists st',
               gloop fuel amount st = Finished st' /\
               trys st' = amount /\
               Z.of_nat (List.length (listings st')) = amount /\
               stdout st' = stdout st).
  { induction left as [|left IH]; intros fuel st Hfuel Ht Hl Hpos.
    - exists st. split; [|repeat split; lia].
      apply loop_stops. unfold guard. apply andb_false_iff. left.
      apply Z.ltb_ge. lia.
    - destruct fuel as [|fuel]; [lia|].
      assert (Hg : guard amount st = true).
      { unfold guard. apply andb_true_intro. split; apply Z.ltb_lt; lia. }
      destruct (Hgood (trys st + 1)) as [listing Hacc]; [lia|].
      specialize (Hacc st eq_refl).
      rewrite (loop_continues get_response json_loads amount fuel st _ Hg Hacc).
      destruct (IH fuel {| listings := listings st ++ [listing];
                           trys := trys st + 1; stdout := stdout st |})
        as (st' & Hrun & Ht' & Hl' & Ho'); cbn [trys listings stdout];
        try rewrite length_app; cbn [List.length]; try lia.
      exists st'. auto. }
  destruct (Hloop (Z.to_nat amount) (Z.to_nat (amount + 10)) initial)
    as (st' & Hrun & Ht' & Hl' & Ho'); cbn [trys listings initial List.length];
    try lia.
  unfold generate_listings. rewrite Hrun. eexists. eexists.
  split; [reflexivity|]. cbn [trys listings stdout]. rewrite Ho'. auto.
Qed.

(** Building a listing fails on a value that is no dictionary, and on a
    dictionary at the first field that it lacks. *)
Lemma new_listing_errors (n : Z) (parsed : value) (e : exn) :
  new_listing n parsed = Raise e ->
  (e = TypeError /\ forall entries, parsed <> VDict entries) \/
  exists entries key,
    parsed = VDict entries /\ e = KeyError key /\ first_missing entries = Some key.
Proof.
  destruct parsed as [| | | | |entries];
    try (cbn; intros H; injection H as <-; left; split; [reflexivity | discriminate]).
  intros H. right. exists entries. unfold new_listing, getitem in H.
  unfold first_missing, field_names. cbn [find].
  repeat match type of H with
         | context [dict_get ?k entries] =>
             destruct (dict_get k entries) eqn:?; cbn [bind] in H;
             [ | injection H as <-; exists k; split; [reflexivity|];
                 split; reflexivity ]
         end.
  discriminate.
Qed.

(** X5.  A reply with the marker that the decoder parses into something
    from which no listing can be built ends the run at its attempt:
    [TypeError] when the parsed value is not an object, [KeyError] of the
    first of the seven fields that the object lacks.  Nothing is printed
    for the attempt, and the listings accepted before it are not written:
    the files are as they were. *)
Theorem unusable_payload_ends_run
    (amount : Z) (fs : filesystem) (st : gen_state) (parsed : value) (e : exn) :
  greaches amount initial st ->
  guard amount st = true ->
  PyStr.contains fence_json (get_response (trys st + 1)) = true ->
  json_loads (strip_fences (get_response (trys st + 1))) = Ok parsed ->
  new_listing (trys st + 1) parsed = Raise e ->
  generate amount fs
  = Raised {| listings := listings st; trys := trys st + 1; stdout := stdout st |} e fs /\
  ((e = TypeError /\ forall entries, parsed <> VDict entries) \/
   exists entries key,
     parsed = VDict entries /\ e = KeyError key /\ first_missing entries = Some key).
Proof.
  intros Hr Hg Hfence Hparse Hnew. split; [|exact (new_listing_errors _ _ _ Hnew)].
  assert (Hb : gbody st = Abort {| listings := listings st; trys := trys st + 1;
                                   stdout := stdout st |} e).
  { unfold body. rewrite Hfence, Hparse, Hnew. reflexivity. }
  unfold generate_listings.
  rewrite (reaches_abort get_response json_loads amount initial st _ e Hr Hg Hb);
    [reflexivity|].
  cbn. lia.
Qed.

End GeneratorRuns.

Lemma delivers_target_or_spends_budget_witness :
  exists st fs',
    generate_listings apology_model Json.decode 2 no_files = Returned st fs' /\
    0 <= 2 /\
    Z.of_nat (List.length (listings st)) < 2 /\ trys st = 12.
Proof.
  destruct (generate_listings apology_model Json.decode 2 no_files)
    as [st fs'|st e fs'|st] eqn:Hrun;
    [|vm_compute in Hrun; discriminate|vm_compute in Hrun; discriminate].
  exists st, fs'. split; [reflexivity|].
  assert (H2 : 0 <= 2) by lia. split; [exact H2|].
  destruct (delivers_target_or_spends_budget apology_model Json.decode
              2 no_files fs' st Hrun H2) as [Hfull|Hshort]; [|exact Hshort].
  exfalso. vm_compute in Hrun. injection Hrun as <- _. discriminate Hfull.
Defined.

Lemma steady_model_accepted (n : Z) :
  exists listing, accepts steady_model Json.decode n listing.
Proof.
  eexists. intros st Hn. unfold body. rewrite Hn.
  assert (Hfence : PyStr.contains fence_json (steady_model n) = true)
    by (vm_compute; reflexivity).
  rewrite Hfence.
  assert (Hparse : Json.decode (strip_fences (steady_model n)) = Ok sample_fields)
    by (vm_compute; reflexivity).
  rewrite Hparse. reflexivity.
Qed.

Lemma accepted_replies_deliver_witness :
  0 <= 4 /\
  exists st fs',
    generate_listings steady_model Json.decode 4 no_files = Returned st fs' /\
    trys st = 4 /\
    Z.of_nat (List.length (listings st)) = 4 /\
    stdout st = [count_line st].
Proof.
  assert (H4 : 0 <= 4) by lia. split; [exact H4|].
  exact (accepted_replies_deliver steady_model Json.decode 4 no_files H4
           (fun n _ => steady_model_accepted n)).
Defined.

(** Two listings are accepted and the third reply is an object without
    the price: the run is left and the two listings are not written. *)
Lemma unusable_payload_ends_run_witness :
  let model := fun n : Z =>
    if n =? 3
    then (fence_json ++ "{" ++ str1 dquote ++ "neighborhood" ++ str1 dquote
          ++ ": 1}" ++ fence)%string
    else sample_reply in
  exists st,
    List.length (listings st) = 2%nat /\
    generate_listings model Json.decode 5 no_files
    = Raised {| listings := listings st; trys := 3; stdout := [] |}
             (KeyError "price") no_files.
Proof.
  intros model.
  assert (Hfirst : body model Json.decode initial
                   = Continue {| listings := [sample_listing 1 "A comfortable three-bedroom house."];
                                 trys := 1; stdout := [] |})
    by (vm_compute; reflexivity).
  assert (Hsecond : body model Json.decode
                      {| listings := [sample_listing 1 "A comfortable three-bedroom house."];
                         trys := 1; stdout := [] |}
                    = Continue {| listings := [sample_listing 1 "A comfortable three-bedroom house.";
                                               sample_listing 2 "A comfortable three-bedroom house."];
                                  trys := 2; stdout := [] |})
    by (vm_compute; reflexivity).
  eexists. split; [|
    refine (proj1 (unusable_payload_ends_run model Json.decode 5 no_files
                     {| listings := [sample_listing 1 "A comfortable three-bedroom house.";
                                     sample_listing 2 "A comfortable three-bedroom house."];
                        trys := 2; stdout := [] |}
                     (VDict [("neighborhood", VInt 1)]) (KeyError "price")
                     _ eq_refl eq_refl eq_refl eq_refl))].
  - reflexivity.
  - eapply reaches_next; [reflexivity | exact Hfirst |].
    eapply reaches_next; [reflexivity | exact Hsecond |].
    apply reaches_here.
Defined.

(** ** Unwrapping a fenced reply *)

Lemma prefix_app (p s : string) : prefix p (p ++ s) = true.
Proof.
  induction p as [|c p IH]; [apply prefix_nil|].
  cbn [append]. now rewrite prefix_cons, Ascii.eqb_refl, IH.
Qed.

Lemma contains_prefix (p s : string) : prefix p s = true -> PyStr.contains p s = true.
Proof. intros H. destruct s; cbn [PyStr.contains]; now rewrite H. Qed.

(** Replacing a text that does not occur changes nothing. *)
Lemma replace_absent (s old new : string) :
  old <> EmptyString -> PyStr.contains old s = false -> PyStr.replace s old new = s.
Proof.
  intros Hold. unfold PyStr.replace. destruct old as [|a old]; [congruence|].
  induction s as [|c s IH]; [reflexivity|].
  cbn [PyStr.contains PyStr.replace_from]. intros H.
  apply orb_false_elim in H. destruct H as [Hp Hs].
  rewrite Hp, (IH Hs). reflexivity.
Qed.

Lemma no_backtick_no_marker (p s : string) :
  PyStr.has_char backtick s = false ->
  PyStr.contains (String backtick p) s = false.
Proof.
  induction s as [|c s IH]; [reflexivity|].
  rewrite has_char_cons. intros H. apply orb_false_elim in H.
  destruct H as [Hc Hs]. cbn [PyStr.contains].
  now rewrite prefix_cons, Hc, (IH Hs).
Qed.

Lemma contains_marker_before_fence (p payload : string) :
  PyStr.has_char backtick payload = false ->
  PyStr.contains (String backtick p) fence = false ->
  PyStr.contains (String backtick p) (payload ++ fence) = false.
Proof.
  intros Hpayload Hfence. induction payload as [|c payload IH]; [exact Hfence|].
  rewrite has_char_cons in Hpayload. apply orb_false_elim in Hpayload.
  destruct Hpayload as [Hc Hs]. cbn [append PyStr.contains].
  now rewrite prefix_cons, Hc, (IH Hs).
Qed.

Lemma replace_fence_at_end (payload : string) :
  PyStr.has_char backtick payload = false ->
  PyStr.replace (payload ++ fence) fence EmptyString = payload.
Proof.
  unfold PyStr.replace, fence.
  induction payload as [|c payload IH]; [reflexivity|].
  rewrite has_char_cons. intros H. apply orb_false_elim in H.
  destruct H as [Hc Hs]. cbn [append PyStr.replace_from].
  rewrite prefix_cons.
  change (Ascii.eqb "`" c) with (Ascii.eqb backtick c). rewrite Hc. cbn [andb].
  now rewrite (IH Hs).
Qed.

Lemma replace_from_skip (old new a rest : string) :
  PyStr.replace_from old new (String.length a) (a ++ rest)
  = PyStr.replace_from old new 0 rest.
Proof. induction a as [|c a IH]; [reflexivity | exact IH]. Qed.

(** An occurrence at the head is replaced, and the scan goes on after it. *)
Lemma replace_at_head (c : ascii) (old' new rest : string) :
  PyStr.replace (String c old' ++ rest) (String c old') new
  = (new ++ PyStr.replace rest (String c old') new)%string.
Proof.
  unfold PyStr.replace.
  pose proof (prefix_app (String c old') rest) as Hp.
  cbn [append PyStr.replace_from] in *. rewrite Hp.
  cbn [String.length Nat.sub]. rewrite Nat.sub_0_r.
  now rewrite replace_from_skip.
Qed.


(** X6.  From a reply that is the json fence, a payload without backticks
    and the closing fence, the two replacements take the fences away and
    leave the payload as it is. *)
Theorem strip_fences_unwraps (payload : string) :
  PyStr.has_char backtick payload = false ->
  PyStr.contains fence_json (fence_json ++ payload ++ fence) = true /\
  strip_fences (fence_json ++ payload ++ fence) = payload.
Proof.
  intros Hpayload. split; [apply contains_prefix, prefix_app|].
  unfold strip_fences.
  assert (Hfirst : PyStr.replace (fence_json ++ payload ++ fence) fence_json EmptyString
                   = (payload ++ fence)%string).
  { unfold fence_json. rewrite replace_at_head. cbn [append].
    apply replace_absent; [discriminate|].
    apply contains_marker_before_fence; [assumption | reflexivity]. }
  rewrite Hfirst. now apply replace_fence_at_end.
Qed.

(** X7.  What the two replacements return has no fence left, also where
    taking a fence away brings backticks together, and replacing once more
    changes nothing. *)
Theorem strip_fences_once_is_enough (content : string) :
  PyStr.contains fence (strip_fences content) = false /\
  PyStr.contains fence_json (strip_fences content) = false /\
  strip_fences (strip_fences content) = strip_fences content.
Proof.
  pose proof (strip_fences_clean content) as Hclean.
  assert (Hjson : PyStr.contains fence_json (strip_fences content) = false).
  { destruct (PyStr.contains fence_json (strip_fences content)) eqn:Hj; [|reflexivity].
    apply contains_fence_json_fence in Hj. congruence. }
  repeat split; try assumption.
  unfold strip_fences at 1.
  rewrite (replace_absent (strip_fences content) fence_json EmptyString);
    [|discriminate|assumption].
  apply replace_absent; [discriminate | assumption].
Qed.

Lemma strip_fences_unwraps_witness :
  PyStr.has_char backtick "{}" = false /\
  strip_fences (fence_json ++ "{}" ++ fence) = "{}".
Proof.
  assert (H : PyStr.has_char backtick "{}" = false) by reflexivity.
  split; [exact H|]. exact (proj2 (strip_fences_unwraps "{}" H)).
Defined.

(** ** A well-formed reply *)








(** ** The enhancer: when it raises *)

Lemma enhanced_document_ok (get_response : nat -> string) (i : nat)
    (listing id : value) (description neighborhood_description : string) :
  getitem listing "id" = Ok id ->
  getitem listing "description" = Ok (VStr description) ->
  getitem listing "neighborhood_description" = Ok (VStr neighborhood_description) ->
  exists d, enhanced_document get_response i listing = Ok d.
Proof.
  intros Hid Hd Hnd. unfold enhanced_document.
  rewrite Hid. cbn [bind]. rewrite Hd. cbn [bind str_add].
  rewrite Hnd. cbn [bind str_add]. eauto.
Qed.

(** X9.  Whatever the replies of the chat model, the enhancer returns its
    documents exactly when every listing is an object with an identifier, a
    textual description and a textual neighborhood description; otherwise it
    raises, and returns no document at all. *)
Theorem enhancer_succeeds_iff (get_response : nat -> string) (listings : list value) :
  (exists documents, generate_enhanced_listings get_response listings = Ok documents)
  <->
  Forall (fun listing =>
            exists id description neighborhood_description,
              getitem listing "id" = Ok id /\
              getitem listing "description" = Ok (VStr description) /\
              getitem listing "neighborhood_description"
              = Ok (VStr neighborhood_description))
         listings.
Proof.
  unfold generate_enhanced_listings. generalize 0%nat as start.
  induction listings as [|listing rest IH]; intros start.
  - split; [constructor | intros _; exists []; reflexivity].
  - cbn [enhance_from]. split.
    + intros [documents H].
      destruct (enhanced_document get_response start listing) as [d|] eqn:Hd;
        cbn [bind] in H; [|discriminate].
      destruct (enhance_from get_response (S start) rest) as [ds|] eqn:Hds;
        cbn [bind] in H; [|discriminate].
      constructor.
      * destruct (enhanced_document_inv _ _ _ _ Hd)
          as (id & description & nd & H1 & H2 & H3 & _).
        exists id, description, nd. auto.
      * apply (IH (S start)). eauto.
    + intros Hall. inversion Hall as [|? ? (id & description & nd & H1 & H2 & H3) Hrest];
        subst.
      destruct (enhanced_document_ok get_response start _ _ _ _ H1 H2 H3) as [d Hd].
      apply (IH (S start)) in Hrest. destruct Hrest as [ds Hds].
      rewrite Hd, Hds. cbn [bind]. eauto.
Qed.

(** ** The listings of the generator, downstream *)

Lemma new_listing_entries (n : Z) (parsed listing : value) :
  new_listing n parsed = Ok listing ->
  exists a b c d e f g,
    listing = VDict [("id", VInt n); ("neighborhood", a); ("price", b);
                     ("bedrooms", c); ("bathrooms", d); ("size", e);
                     ("description", f); ("neighborhood_description", g)].
Proof.
  unfold new_listing. intros H.
  repeat match type of H with
         | bind ?r _ = Ok _ => destruct r; cbn [bind] in H; [|discriminate]
         end.
  injection H as <-. eauto 10.
Qed.

(** Listings of the shape that the generator builds have raw documents. *)
Lemma raw_documents_of_shaped (shaped : list value) :
  Forall (fun listing =>
            exists n a b c d e f g,
              listing = VDict [("id", VInt n); ("neighborhood", a); ("price", b);
                               ("bedrooms", c); ("bathrooms", d); ("size", e);
                               ("description", f); ("neighborhood_description", g)])
         shaped ->
  exists documents,
    map_result raw_document shaped = Ok documents /\
    Forall2 (fun listing d =>
               exists n neighborhood price,
                 getitem listing "id" = Ok (VInt n) /\
                 getitem listing "neighborhood" = Ok neighborhood /\
                 getitem listing "price" = Ok price /\
                 metadata d = [("id", VInt n); ("neighborhood", neighborhood);
                               ("price", price)])
            shaped documents.
Proof.
  induction shaped as [|listing rest IH]; intros Hshape.
  - exists []. split; [reflexivity | constructor].
  - inversion Hshape as [|? ? (n & a & b & c & d & e & f & g & Hl) Hrest]; subst.
    destruct (IH Hrest) as (docs & Hdocs & Hall).
    cbn [map_result]. eexists. split.
    + cbn [raw_document items bind getitem dict_get String.eqb Ascii.eqb Bool.eqb].
      cbn. rewrite Hdocs. cbn [bind]. reflexivity.
    + constructor; [|exact Hall]. exists n, a, b. cbn. auto.
Qed.

Section Downstream.

Variable get_response : Z -> string.
Variable json_loads : string -> result value.

(** Every listing of a run is the identifier followed by the seven fields. *)
Lemma generated_listings_shape (amount : Z) (fs : filesystem) :
  Forall (fun listing =>
            exists n a b c d e f g,
              listing = VDict [("id", VInt n); ("neighborhood", a); ("price", b);
                               ("bedrooms", c); ("bathrooms", d); ("size", e);
                               ("description", f); ("neighborhood_description", g)])
         (listings (final_state (generate_listings get_response json_loads amount fs))).
Proof.
  pose proof (loop_invariant get_response json_loads amount
                (fun st => Forall (fun listing =>
                   exists n a b c d e f g,
                     listing = VDict [("id", VInt n); ("neighborhood", a); ("price", b);
                                      ("bedrooms", c); ("bathrooms", d); ("size", e);
                                      ("description", f);
                                      ("neighborhood_description", g)])
                  (listings st))) as Hinv.
  cbv beta in Hinv.
  assert (Hstep : forall st,
             Forall (fun listing =>
                exists n a b c d e f g,
                  listing = VDict [("id", VInt n); ("neighborhood", a); ("price", b);
                                   ("bedrooms", c); ("bathrooms", d); ("size", e);
                                   ("description", f); ("neighborhood_description", g)])
               (listings st) ->
             guard amount st = true ->
             match body get_response json_loads st with
             | Continue st' | Abort st' _ =>
                 Forall (fun listing =>
                    exists n a b c d e f g,
                      listing = VDict [("id", VInt n); ("neighborhood", a); ("price", b);
                                       ("bedrooms", c); ("bathrooms", d); ("size", e);
                                       ("description", f);
                                       ("neighborhood_description", g)])
                   (listings st')
             end).
  { intros st Hst _. unfold body.
    destruct (PyStr.contains fence_json (get_response (trys st + 1))); [|exact Hst].
    destruct (json_loads (strip_fences (get_response (trys st + 1)))) as [parsed|e];
      [|destruct e; exact Hst].
    destruct (new_listing (trys st + 1) parsed) as [listing|e] eqn:Hnew; [|exact Hst].
    cbn [listings]. apply Forall_app. split; [exact Hst|].
    constructor; [|constructor]. exists (trys st + 1).
    exact (new_listing_entries _ _ _ Hnew). }
  specialize (Hinv Hstep (Z.to_nat (amount + 10)) initial (Forall_nil _)).
  unfold generate_listings.
  destruct (loop get_response json_loads (Z.to_nat (amount + 10)) amount initial)
    as [st|st e|st]; cbn [final_state listings]; tauto.
Qed.

(** X10.  On the listings of a run of the generator the enhancer never
    raises [KeyError]: it returns one document for every listing, or raises
    [TypeError] because a description of some listing is not a text. *)
Theorem enhancer_on_generated_listings
    (amount : Z) (fs : filesystem) (replies : nat -> string) :
  let generated :=
    listings (final_state (generate_listings get_response json_loads amount fs)) in
  match generate_enhanced_listings replies generated with
  | Ok documents => List.length documents = List.length generated
  | Raise e =>
      e = TypeError /\
      exists listing text,
        In listing generated /\
        (getitem listing "description" = Ok text
         \/ getitem listing "neighborhood_description" = Ok text) /\
        forall s, text <> VStr s
  end.
Proof.
  intros generated. pose proof (generated_listings_shape amount fs) as Hshape.
  fold generated in Hshape. unfold generate_enhanced_listings.
  generalize 0%nat as start. induction generated as [|listing rest IH]; intros start.
  - reflexivity.
  - inversion Hshape as [|? ? (n & a & b & c & d & e & f & g & Hl) Hrest]; subst.
    specialize (IH Hrest (S start)). cbn [enhance_from].
    set (this := VDict _) in *.
    assert (Hthis :
              (exists doc, enhanced_document replies start this = Ok doc) \/
              (enhanced_document replies start this = Raise TypeError /\
               exists text,
                 (getitem this "description" = Ok text
                  \/ getitem this "neighborhood_description" = Ok text) /\
                 forall s, text <> VStr s)).
    { unfold this.
      destruct f as [| | |fs'| |]; try (right; split; [reflexivity|];
        eexists; split; [left; reflexivity | discriminate]).
      destruct g as [| | |gs| |]; try (right; split; [reflexivity|];
        eexists; split; [right; reflexivity | discriminate]).
      left. eexists. reflexivity. }
    destruct Hthis as [[doc Hdoc] | (Hraise & text & Htext & Hnot)].
    + rewrite Hdoc. cbn [bind].
      destruct (enhance_from replies (S start) rest) as [docs|e']; cbn [bind].
      * cbn [List.length]. now rewrite IH.
      * destruct IH as (He & l & text & Hin & Htext & Hnot).
        split; [exact He|]. exists l, text. split; [right; exact Hin | auto].
    + rewrite Hraise. cbn [bind]. split; [reflexivity|].
      exists this, text. split; [left; reflexivity | auto].
Qed.

(** X11.  On the listings of a run of the generator the pipeline builds the
    raw documents without raising: one document for every listing, in order,
    whose metadata are the identifier of the listing, an integer, its
    neighborhood and its price. *)
Theorem raw_documents_of_generated_listings (amount : Z) (fs : filesystem) :
  let generated :=
    listings (final_state (generate_listings get_response json_loads amount fs)) in
  exists documents,
    map_result raw_document generated = Ok documents /\
    Forall2 (fun listing d =>
               exists n neighborhood price,
                 getitem listing "id" = Ok (VInt n) /\
                 getitem listing "neighborhood" = Ok neighborhood /\
                 getitem listing "price" = Ok price /\
                 metadata d = [("id", VInt n); ("neighborhood", neighborhood);
                               ("price", price)])
            generated documents.
Proof.
  intros generated. apply raw_documents_of_shaped, generated_listings_shape.
Qed.

End Downstream.

(** ** The identifier that the pipeline reads out of a line *)

Lemma split_cons (sep : ascii) (s : string) :
  exists piece pieces, PyStr.split sep s = piece :: pieces.
Proof.
  induction s as [|c s (piece & pieces & IH)]; cbn [PyStr.split]; [eauto|].
  destruct (Ascii.eqb c sep); [eauto|]. rewrite IH. eauto.
Qed.

Lemma has_char_first (c : ascii) (s : string) :
  PyStr.has_char c s = true ->
  exists a b, s = (a ++ String c b)%string /\ PyStr.has_char c a = false.
Proof.
  induction s as [|x s IH]; [discriminate|].
  rewrite has_char_cons. destruct (Ascii.eqb_spec c x) as [<-|Hne]; cbn [orb].
  - intros _. exists EmptyString, s. split; reflexivity.
  - intros Hs. destruct (IH Hs) as (a & b & -> & Ha).
    exists (String x a), b. split; [reflexivity|].
    rewrite has_char_cons, Ha. apply Ascii.eqb_neq in Hne. now rewrite Hne.
Qed.

(** The first piece of a line is what stands before its first comma. *)
Lemma split_comma_head (head tail : string) :
  PyStr.has_char "," head = false ->
  tail = EmptyString \/ prefix "," tail = true ->
  hd EmptyString (PyStr.split "," (head ++ tail)) = head.
Proof.
  intros Hhead [->|Htail].
  - rewrite append_nil_r, split_none by assumption. reflexivity.
  - destruct tail as [|c tail]; [discriminate|].
    rewrite prefix_cons, prefix_nil, andb_true_r in Htail.
    apply Ascii.eqb_eq in Htail. subst c.
    rewrite split_first by assumption. reflexivity.
Qed.

Lemma line_id_no_colon (head tail : string) :
  PyStr.has_char "," head = false ->
  tail = EmptyString \/ prefix "," tail = true ->
  PyStr.has_char ":" head = false ->
  line_id (head ++ tail) = Raise IndexError.
Proof.
  intros Hcomma Htail Hcolon. unfold line_id.
  rewrite split_comma_head by assumption.
  rewrite split_none by assumption. reflexivity.
Qed.

(** X12.  What the pipeline reads out of a line depends on the part of the
    line before its first comma only.  Reading raises [IndexError] exactly
    when that part has no colon; otherwise the identifier is the text
    between the first colon of that part and its second colon or, where
    there is no second colon, its end. *)
Theorem line_id_between_colons (head tail : string) :
  PyStr.has_char "," head = false ->
  tail = EmptyString \/ prefix "," tail = true ->
  (line_id (head ++ tail) = Raise IndexError <-> PyStr.has_char ":" head = false) /\
  (forall label id rest,
     head = (label ++ String ":" (id ++ rest))%string ->
     PyStr.has_char ":" label = false ->
     PyStr.has_char ":" id = false ->
     rest = EmptyString \/ prefix ":" rest = true ->
     line_id (head ++ tail) = Ok id).
Proof.
  intros Hcomma Htail. split; [split|].
  - intros Hraise. destruct (PyStr.has_char ":" head) eqn:Hcolon; [|reflexivity].
    destruct (has_char_first _ _ Hcolon) as (a & b & Hhead & Ha).
    unfold line_id in Hraise. rewrite split_comma_head in Hraise by assumption.
    rewrite Hhead, split_first in Hraise by assumption.
    destruct (split_cons ":" b) as (piece & pieces & Hb).
    rewrite Hb in Hraise. discriminate.
  - now apply line_id_no_colon.
  - intros label id rest -> Hlabel Hid Hrest. unfold line_id.
    rewrite split_comma_head by assumption.
    rewrite split_first by assumption.
    destruct Hrest as [->|Hrest].
    + rewrite append_nil_r, split_none by assumption. reflexivity.
    + destruct rest as [|c rest]; [discriminate|].
      rewrite prefix_cons, prefix_nil, andb_true_r in Hrest.
      apply Ascii.eqb_eq in Hrest. subst c.
      rewrite split_first by assumption. reflexivity.
Qed.

Lemma line_id_between_colons_witness :
  line_id "id: 12: a, converted description: b" = Ok " 12" /\
  (line_id "no identifier here, none: at all" = Raise IndexError
   <-> PyStr.has_char ":" "no identifier here" = false).
Proof.
  split.
  - refine (proj2 (line_id_between_colons "id: 12: a" ", converted description: b"
                     eq_refl (or_intror eq_refl))
                  "id" " 12" ": a" eq_refl eq_refl eq_refl (or_intror eq_refl)).
  - exact (proj1 (line_id_between_colons "no identifier here" ", none: at all"
                    eq_refl (or_intror eq_refl))).
Defined.

Lemma semantic_document_raises (line : string) (e : exn) :
  semantic_document line = Raise e -> e = IndexError.
Proof.
  unfold semantic_document, line_id.
  destruct (PyStr.split ":" (hd EmptyString (PyStr.split "," line))) as [|a [|b l]];
    cbn [bind]; congruence.
Qed.

Lemma map_result_raises {A B : Type} (f : A -> result B) (e : exn) (xs : list A) (x : A) :
  (forall y e', f y = Raise e' -> e' = e) ->
  In x xs -> f x = Raise e -> map_result f xs = Raise e.
Proof.
  intros Honly. induction xs as [|y xs IH]; [contradiction|].
  intros [->|Hin] Hx; cbn [map_result].
  - rewrite Hx. reflexivity.
  - destruct (f y) as [b|e'] eqn:Hy; cbn [bind].
    + rewrite (IH Hin Hx). reflexivity.
    + now rewrite (Honly _ _ Hy).
Qed.

Section Lines.

Variable json_loads : string -> result value.
Context {vectorstore : Type}.
Variable from_documents : list Document -> string -> result vectorstore.
Variable similarity_search : vectorstore -> string -> nat -> result (list Document).

(** X13.  When the listings are read, the raw documents built and the raw
    collection built by the store, one line of the enhanced file without a
    colon before its first comma, a blank line for one, makes the pipeline
    raise [IndexError]: the semantic collection is not built and no search
    is made. *)
Theorem line_without_colon_stops_pipeline
    (fs : filesystem) (loaded : value) (listings : list value)
    (documents : list Document) (raw_store : vectorstore) (text head tail : string) :
  load_listings json_loads fs = Ok loaded ->
  iterate loaded = Ok listings ->
  map_result raw_document listings = Ok documents ->
  from_documents documents "raw_listings" = Ok raw_store ->
  fs semantic_enhanced_listings_txt = Some text ->
  In (head ++ tail)%string (PyStr.readlines text) ->
  PyStr.has_char "," head = false ->
  tail = EmptyString \/ prefix "," tail = true ->
  PyStr.has_char ":" head = false ->
  main json_loads from_documents similarity_search fs = Raise IndexError.
Proof.
  intros Hload Hiter Hraw Hstore Htext Hin Hcomma Htail Hcolon.
  unfold main. rewrite Hload. cbn [bind]. rewrite Hiter. cbn [bind].
  rewrite Hraw. cbn [bind]. rewrite Hstore. cbn [bind].
  unfold read_file. rewrite Htext. cbn [bind].
  rewrite (map_result_raises semantic_document IndexError _ (head ++ tail)%string);
    [reflexivity | exact semantic_document_raises | exact Hin |].
  unfold semantic_document. rewrite line_id_no_colon by assumption. reflexivity.
Qed.

End Lines.

Lemma line_without_colon_stops_pipeline_witness :
  main Json.decode sample_from_documents sample_search blank_line_files
  = Raise IndexError.
Proof.
  assert (Hlines : In (str1 LF ++ EmptyString)%string
                      (PyStr.readlines
                         ("id: 1, converted description: a" ++ str1 LF ++ str1 LF
                          ++ "b: c" ++ str1 LF)))
    by (vm_compute; right; left; reflexivity).
  refine (line_without_colon_stops_pipeline Json.decode sample_from_documents
            sample_search blank_line_files
            (VList [sample_listing 1 "A small flat."])
            [sample_listing 1 "A small flat."] _ _ _ (str1 LF) EmptyString
            _ eq_refl _ _ eq_refl Hlines eq_refl (or_introl eq_refl) eq_refl).
  - vm_compute. reflexivity.
  - vm_compute. reflexivity.
  - vm_compute. reflexivity.
Defined.

(** ** The personalisation loop *)

Lemma augment_from_spec (get_response : nat -> string) (documents : list Document) :
  forall (start : nat) (printed : list string),
    Forall (fun d => exists id neighborhood price,
                metadata d = [("id", id); ("neighborhood", neighborhood);
                              ("price", price)]) documents ->
    exists items,
      augment_from get_response start documents printed = Ok (printed ++ items) /\
      List.length items = (2 * List.length documents)%nat /\
      forall i d, nth_error documents i = Some d ->
        exists id neighborhood price,
          metadata d = [("id", id); ("neighborhood", neighborhood); ("price", price)] /\
          nth_error items (2 * i)
          = Some ("Listing Enhanced:  " ++ PyObj.str neighborhood ++ " "
                  ++ PyObj.str price)%string /\
          nth_error items (2 * i + 1)
          = Some (get_response (start + i)%nat ++ " " ++ str1 LF)%string.
Proof.
  induction documents as [|d ds IH]; intros start printed Hall.
  - exists []. rewrite List.app_nil_r. split; [reflexivity|]. split; [reflexivity|].
    intros [|i] d; discriminate.
  - inversion Hall as [|? ? (id & nb & pr & Hmeta) Hrest]; subst.
    cbn [augment_from]. unfold listing_enhanced_line. rewrite Hmeta.
    cbn [getitem dict_get String.eqb Ascii.eqb Bool.eqb bind].
    destruct (IH (S start)
                (printed ++ [("Listing Enhanced: " ++ " " ++ PyObj.str nb ++ " "
                              ++ PyObj.str pr)%string;
                             (get_response start ++ " " ++ str1 LF)%string]) Hrest)
      as (items & Hrun & Hlen & Hnth).
    exists (("Listing Enhanced:  " ++ PyObj.str nb ++ " " ++ PyObj.str pr)%string
            :: (get_response start ++ " " ++ str1 LF)%string :: items).
    split; [|split].
    + rewrite Hrun, <- List.app_assoc. reflexivity.
    + cbn [List.length]. lia.
    + intros [|i] d' Hd'.
      * cbn in Hd'. injection Hd' as <-. exists id, nb, pr.
        rewrite Nat.add_0_r. repeat split; assumption.
      * cbn [nth_error] in Hd'. destruct (Hnth i d' Hd') as (id' & nb' & pr' & H1 & H2 & H3).
        exists id', nb', pr'. split; [exact H1|]. split.
        -- replace (2 * S i)%nat with (S (S (2 * i))) by lia. exact H2.
        -- replace (2 * S i + 1)%nat with (S (S (2 * i + 1))) by lia.
           replace (start + S i)%nat with (S start + i)%nat by lia. exact H3.
Qed.

Section Personalisation.

Variable json_loads : string -> result value.
Context {vectorstore : Type}.
Variable from_documents : list Document -> string -> result vectorstore.
Variable similarity_search : vectorstore -> string -> nat -> result (list Document).

Hypothesis search_in_index :
  forall documents name store query k results,
    from_documents documents name = Ok store ->
    similarity_search store query k = Ok results ->
    incl results documents.

(** X14.  The personalisation loop never raises on the results of the raw
    search.  It prints two items for every result, in the order of the
    results: the neighborhood and the price from the metadata of the result
    after the label, and the reply of the chat model to the request made
    for that result. *)
Theorem personalisation_prints_every_result
    (get_response : nat -> string) (fs : filesystem) (r : retrieval) :
  main json_loads from_documents similarity_search fs = Ok r ->
  exists printed,
    augment get_response (similarity_search_raw_vectorstore r) = Ok printed /\
    List.length printed = (2 * List.length (similarity_search_raw_vectorstore r))%nat /\
    forall i d, nth_error (similarity_search_raw_vectorstore r) i = Some d ->
      exists id neighborhood price,
        metadata d = [("id", id); ("neighborhood", neighborhood); ("price", price)] /\
        nth_error printed (2 * i)
        = Some ("Listing Enhanced:  " ++ PyObj.str neighborhood ++ " "
                ++ PyObj.str price)%string /\
        nth_error printed (2 * i + 1) = Some (get_response i ++ " " ++ str1 LF)%string.
Proof.
  intros Hmain.
  destruct (main_inv _ _ _ _ _ Hmain)
    as (content & loaded & listings & raw_store & text & semantic_store
        & _ & _ & _ & Hraw & Hstore & _ & _ & _ & Hresults & _).
  apply map_result_spec in Hraw.
  assert (Hall : Forall (fun d => exists id neighborhood price,
                           metadata d = [("id", id); ("neighborhood", neighborhood);
                                         ("price", price)])
                        (similarity_search_raw_vectorstore r)).
  { apply Forall_forall. intros d Hd.
    apply (search_in_index _ _ _ _ _ _ Hstore Hresults) in Hd.
    destruct (Forall2_in_r _ _ _ Hraw d Hd) as (listing & _ & Hdoc).
    destruct (raw_document_inv _ _ Hdoc) as (entries & id & nb & pr & _ & _ & _ & _ & _ & Hm).
    eauto. }
  destruct (augment_from_spec get_response _ 0 [] Hall) as (items & Hrun & Hlen & Hnth).
  exists items. auto.
Qed.

End Personalisation.

Lemma personalisation_prints_every_result_witness :
  exists r printed,
    main Json.decode sample_from_documents sample_search sample_files = Ok r /\
    augment (fun i => if Nat.eqb i 0 then "first" else "second")
            (similarity_search_raw_vectorstore r) = Ok printed /\
    List.length printed = 4%nat.
Proof.
  destruct (main Json.decode sample_from_documents sample_search sample_files)
    as [r|e] eqn:Hmain; [|vm_compute in Hmain; discriminate].
  exists r.
  destruct (personalisation_prints_every_result Json.decode sample_from_documents
              sample_search sample_search_in_index
              (fun i => if Nat.eqb i 0 then "first" else "second")
              sample_files r Hmain) as (printed & Hrun & Hlen & _).
  exists printed. split; [reflexivity|]. split; [exact Hrun|].
  rewrite Hlen. vm_compute in Hmain. injection Hmain as <-. reflexivity.
Defined.

(** ** The text of a raw document *)

Lemma existsb_filter_keys (p : string * value -> bool) (k : string) (d : dict) :
  existsb (String.eqb k) (map fst d) = false ->
  existsb (String.eqb k) (map fst (filter p d)) = false.
Proof.
  induction d as [|[k' v] d IH]; [reflexivity|]. cbn [map fst existsb filter].
  intros H. apply orb_false_elim in H. destruct H as [Hk Hd].
  destruct (p (k', v)); cbn [map fst existsb]; [rewrite Hk|]; auto.
Qed.

Lemma well_keyed_filter (p : string * value -> bool) (d : dict) :
  well_keyed (VDict d) = true -> well_keyed (VDict (filter p d)) = true.
Proof.
  cbn [well_keyed]. intros H. apply andb_prop in H. destruct H as [Hkeys Hvals].
  apply andb_true_intro. split.
  - induction d as [|[k v] d IH]; [reflexivity|].
    cbn [map fst distinct] in Hkeys. apply andb_prop in Hkeys.
    destruct Hkeys as [Hk Hkeys]. cbn in Hvals. apply andb_prop in Hvals.
    cbn [filter]. destruct (p (k, v)); [|now apply IH].
    cbn [map fst distinct]. apply negb_true_iff in Hk.
    rewrite (existsb_filter_keys p k d Hk). cbn [negb andb]. now apply IH.
  - clear Hkeys. induction d as [|[k v] d IH]; [reflexivity|].
    cbn in Hvals. apply andb_prop in Hvals. destruct Hvals as [Hv Hvals].
    cbn [filter]. destruct (p (k, v)); cbn [forallb snd]; [rewrite Hv|]; auto.
Qed.

Lemma iterate_well_keyed (loaded : value) (xs : list value) :
  well_keyed loaded = true -> iterate loaded = Ok xs ->
  Forall (fun x => well_keyed x = true) xs.
Proof.
  destruct loaded as [| | |s|ys|d]; cbn [iterate]; try discriminate;
    intros Hwk H; injection H as <-.
  - induction s; cbn; constructor; auto.
  - cbn [well_keyed] in Hwk. apply Forall_forall. intros x Hx.
    rewrite forallb_forall in Hwk. auto.
  - apply Forall_forall. intros x Hx. apply in_map_iff in Hx.
    destruct Hx as (k & <- & _). reflexivity.
Qed.

(** X15.  With the decoder of the embedding reading the listings file, the
    text of every document of the raw index is a JSON text that decodes to
    the fields of its listing: an object without identifier whose
    neighborhood and price are the ones in the metadata of the document. *)
Theorem raw_text_decodes_to_fields {vectorstore : Type}
    (from_documents : list Document -> string -> result vectorstore)
    (similarity_search : vectorstore -> string -> nat -> result (list Document))
    (fs : filesystem) (r : retrieval) :
  main Json.decode from_documents similarity_search fs = Ok r ->
  Forall (fun d =>
            exists fields,
              Json.loads (page_content d) = Some (VDict fields) /\
              dict_get "id" fields = None /\
              dict_get "neighborhood" fields = dict_get "neighborhood" (metadata d) /\
              dict_get "price" fields = dict_get "price" (metadata d))
         (raw_index r).
Proof.
  intros Hmain.
  destruct (main_inv _ _ _ _ _ Hmain)
    as (content & loaded & listings & raw_store & text & semantic_store
        & _ & Hload & Hiter & Hraw & _).
  assert (Hwk : well_keyed loaded = true) by exact (decode_well_keyed _ _ Hload).
  pose proof (iterate_well_keyed _ _ Hwk Hiter) as Hall.
  apply map_result_spec in Hraw.
  apply Forall_forall. intros d Hd.
  destruct (Forall2_in_r _ _ _ Hraw d Hd) as (listing & Hin & Hdoc).
  rewrite Forall_forall in Hall. specialize (Hall listing Hin).
  destruct (raw_document_inv _ _ Hdoc)
    as (entries & id & nb & pr & -> & Hid & Hnb & Hpr & Hpage & Hmeta).
  exists (without_id entries). rewrite Hpage, Hmeta. split; [|split; [|split]].
  - apply loads_dumps. now apply well_keyed_filter.
  - apply dict_get_without_id.
  - rewrite (proj2 (dict_get_without_id entries)) by discriminate. now rewrite Hnb.
  - rewrite (proj2 (dict_get_without_id entries)) by discriminate. now rewrite Hpr.
Qed.

Lemma raw_text_decodes_to_fields_witness :
  exists r,
    main Json.decode sample_from_documents sample_search sample_files = Ok r /\
    List.length (raw_index r) = 3%nat /\
    Forall (fun d =>
              exists fields,
                Json.loads (page_content d) = Some (VDict fields) /\
                dict_get "id" fields = None /\
                dict_get "neighborhood" fields = dict_get "neighborhood" (metadata d) /\
                dict_get "price" fields = dict_get "price" (metadata d))
           (raw_index r).
Proof.
  destruct (main Json.decode sample_from_documents sample_search sample_files)
    as [r|e] eqn:Hmain; [|vm_compute in Hmain; discriminate].
  exists r. split; [reflexivity|]. split.
  - vm_compute in Hmain. injection Hmain as <-. reflexivity.
  - exact (raw_text_decodes_to_fields sample_from_documents sample_search
             sample_files r Hmain).
Defined.

(** ** The query built from the preferences *)

Lemma contains_nil (s : string) : PyStr.contains EmptyString s = true.
Proof. destruct s; reflexivity. Qed.

Lemma prefix_append (p s t : string) :
  prefix p s = true -> prefix p (s ++ t) = true.
Proof.
  revert s. induction p as [|a p IH]; intros s; [intros _; apply prefix_nil|].
  destruct s as [|c s]; [discriminate|]. cbn [append].
  rewrite !prefix_cons. intros H. apply andb_prop in H. destruct H as [-> H].
  now rewrite (IH _ H).
Qed.

Lemma contains_append_l (p s t : string) :
  PyStr.contains p s = true -> PyStr.contains p (s ++ t) = true.
Proof.
  induction s as [|c s IH]; cbn [PyStr.contains append].
  - destruct p; [intros _; apply contains_nil | discriminate].
  - intros H. apply orb_prop in H. destruct H as [H|H].
    + change (String c (s ++ t)) with (String c s ++ t)%string.
      now rewrite (prefix_append _ _ t H).
    + rewrite (IH H). apply orb_true_r.
Qed.

Lemma contains_append_r (p s t : string) :
  PyStr.contains p t = true -> PyStr.contains p (s ++ t) = true.
Proof.
  intros H. induction s as [|c s IH]; [exact H|].
  cbn [append PyStr.contains]. rewrite IH. apply orb_true_r.
Qed.

Lemma contains_self (p : string) : PyStr.contains p p = true.
Proof.
  apply contains_prefix. rewrite <- (append_nil_r p) at 2. apply prefix_app.
Qed.

Lemma contains_concat (sep x : string) (xs : list string) :
  In x xs -> PyStr.contains x (String.concat sep xs) = true.
Proof.
  induction xs as [|y [|z zs] IH]; [contradiction| |].
  - intros [->|[]]. apply contains_self.
  - intros Hin.
    change (String.concat sep (y :: z :: zs))
      with (y ++ sep ++ String.concat sep (z :: zs))%string.
    destruct Hin as [->|Hin].
    + apply contains_append_l, contains_self.
    + apply contains_append_r, contains_append_r, IH, Hin.
Qed.

Lemma combine_surplus_l {A B : Type} (xs more : list A) (ys : list B) :
  (List.length ys <= List.length xs)%nat -> combine (xs ++ more) ys = combine xs ys.
Proof.
  revert ys. induction xs as [|x xs IH]; intros [|y ys] Hlen; cbn in *;
    try reflexivity; try lia.
  - now destruct more.
  - rewrite IH by lia. reflexivity.
Qed.

Lemma combine_surplus_r {A B : Type} (xs : list A) (ys more : list B) :
  (List.length xs <= List.length ys)%nat -> combine xs (ys ++ more) = combine xs ys.
Proof.
  revert ys. induction xs as [|x xs IH]; intros [|y ys] Hlen; cbn in *;
    try reflexivity; try lia.
  rewrite IH by lia. reflexivity.
Qed.

(** X16.  The query pairs the questions with the answers by position.
    Every question that has an answer occurs in the query followed by a
    space and its answer, and what one list has beyond the length of the
    other is dropped without an error: the query is the query of the
    paired part. *)
Theorem preferences_query_pairs (questions answers : list string) :
  (forall (i : nat) (question answer : string),
     nth_error questions i = Some question ->
     nth_error answers i = Some answer ->
     PyStr.contains (question ++ " " ++ answer)
                    (preferences_to_query questions answers) = true) /\
  (forall more,
     (List.length answers <= List.length questions)%nat ->
     preferences_to_query (questions ++ more) answers
     = preferences_to_query questions answers) /\
  (forall more,
     (List.length questions <= List.length answers)%nat ->
     preferences_to_query questions (answers ++ more)
     = preferences_to_query questions answers).
Proof.
  split; [|split].
  - intros i question answer Hq Ha. unfold preferences_to_query.
    apply contains_concat.
    apply in_map_iff. exists (question, answer). split; [reflexivity|].
    revert i answers Hq Ha.
    induction questions as [|q qs IH]; intros [|i] [|a answers] Hq Ha;
      try discriminate; cbn in *.
    + injection Hq as ->. injection Ha as ->. left. reflexivity.
    + right. eapply IH; eassumption.
  - intros more Hlen. unfold preferences_to_query.
    now rewrite combine_surplus_l.
  - intros more Hlen. unfold preferences_to_query.
    now rewrite combine_surplus_r.
Qed.

Lemma preferences_query_pairs_witness :
  PyStr.contains
    "Which amenities would you like? A backyard for gardening, a two-car garage, and a modern, energy-efficient heating system."
    (preferences_to_query questions answers) = true /\
  preferences_to_query (questions ++ ["What is your budget?"]) answers
  = preferences_to_query questions answers.
Proof.
  destruct (preferences_query_pairs questions answers) as (Hpair & Hmore & _).
  split.
  - exact (Hpair 2%nat _ _ eq_refl eq_refl).
  - apply Hmore. cbn. lia.
Defined.

(** ** From the enhancer to the semantic index *)

Lemma semantic_documents_of_lines (get_response : nat -> string)
    (listings : list value) :
  forall (start : nat) (documents : list Document),
    enhance_from get_response start listings = Ok documents ->
    Forall (fun listing => exists n, getitem listing "id" = Ok (VInt n)) listings ->
    exists semantic,
      map_result semantic_document
        (map (fun d => (page_content d ++ str1 LF)%string) documents) = Ok semantic /\
      Forall2 (fun d s =>
                 page_content s = (page_content d ++ str1 LF)%string /\
                 exists n, metadata d = [("id", VInt n)] /\
                           metadata s = [("id", VStr (" " ++ PyStr.of_int n))])
              documents semantic /\
      Forall2 (fun listing s =>
                 exists n, getitem listing "id" = Ok (VInt n) /\
                           metadata s = [("id", VStr (" " ++ PyStr.of_int n))])
              listings semantic.
Proof.
  induction listings as [|listing rest IH]; intros start documents Hrun Hids.
  - cbn in Hrun. injection Hrun as <-. exists [].
    split; [reflexivity | split; constructor].
  - cbn [enhance_from] in Hrun.
    destruct (enhanced_document get_response start listing) as [d|] eqn:Hd;
      cbn [bind] in Hrun; [|discriminate].
    destruct (enhance_from get_response (S start) rest) as [ds|] eqn:Hds;
      cbn [bind] in Hrun; [|discriminate].
    injection Hrun as <-.
    inversion Hids as [|? ? [n Hn] Hrest]; subst.
    destruct (IH _ _ Hds Hrest) as (sems & Hsems & Hall & Hall').
    pose proof (line_id_enhanced _ _ _ _ _ Hn Hd) as Hline.
    destruct (enhanced_document_inv _ _ _ _ Hd) as (id & _ & _ & Hid & _ & _ & _ & Hmeta).
    rewrite Hn in Hid. injection Hid as <-.
    exists ({| page_content := (page_content d ++ str1 LF)%string;
               metadata := [("id", VStr (" " ++ PyStr.of_int n))] |} :: sems).
    split.
    + cbn [map map_result]. unfold semantic_document at 1. rewrite Hline.
      cbn [bind]. rewrite Hsems. reflexivity.
    + split.
      * constructor; [|exact Hall]. cbn [page_content metadata].
        split; [reflexivity|]. exists n. auto.
      * constructor; [|exact Hall']. exists n. auto.
Qed.

(** X17.  When the enhancer has run on listings with integer identifiers
    and no document text has a line break, the pipeline builds one semantic
    document for every line of the written file without raising; the
    identifier in the metadata of each is a text, a space and the numeral,
    where the document of the enhancer has the integer. *)
Theorem semantic_documents_of_enhanced_file
    (get_response : nat -> string) (listings : list value)
    (documents : list Document) :
  generate_enhanced_listings get_response listings = Ok documents ->
  Forall (fun listing => exists n, getitem listing "id" = Ok (VInt n)) listings ->
  Forall (fun d => PyStr.has_char LF (page_content d) = false /\
                   PyStr.has_char CR (page_content d) = false) documents ->
  exists semantic,
    map_result semantic_document (PyStr.readlines (written documents)) = Ok semantic /\
    List.length semantic = List.length listings /\
    Forall2 (fun d s =>
               page_content s = (page_content d ++ str1 LF)%string /\
               exists n, metadata d = [("id", VInt n)] /\
                         metadata s = [("id", VStr (" " ++ PyStr.of_int n))])
            documents semantic.
Proof.
  intros Hrun Hids Hlines. rewrite readlines_written by assumption.
  destruct (semantic_documents_of_lines _ _ _ _ Hrun Hids) as (sems & Hsems & Hall & _).
  exists sems. split; [exact Hsems|]. split; [|exact Hall].
  rewrite <- (Forall2_length Hall).
  exact (proj1 (enhance_from_spec _ _ _ _ Hrun)).
Qed.

Lemma semantic_documents_of_enhanced_file_witness :
  exists semantic,
    map_result semantic_document
      (PyStr.readlines
         (written [{| page_content :=
                        "id: 7, converted description: A cozy home with three bedrooms., original description: A small flat., neighborhood_description: Green Oaks is a close-knit community.";
                      metadata := [("id", VInt 7)] |}])) = Ok semantic /\
    List.length semantic = 1%nat.
Proof.
  destruct (semantic_documents_of_enhanced_file sample_enhancer
              [sample_listing 7 "A small flat."]
              [{| page_content :=
                    "id: 7, converted description: A cozy home with three bedrooms., original description: A small flat., neighborhood_description: Green Oaks is a close-knit community.";
                  metadata := [("id", VInt 7)] |}])
    as (semantic & Hsem & Hlen & _).
  - vm_compute. reflexivity.
  - repeat constructor. exists 7. reflexivity.
  - repeat constructor.
  - exists semantic. split; [exact Hsem | exact Hlen].
Defined.

(** ** The three scripts, one after the other *)


Section Sequence.

Variable get_response : Z -> string.
Variable json_loads : string -> result value.

(** The dictionaries that the decoder of the replies builds have pairwise
    different keys, as every dictionary has. *)
Hypothesis json_loads_well_keyed :
  forall s v, json_loads s = Ok v -> well_keyed v = true.

Context {vectorstore : Type}.
Variable from_documents : list Document -> string -> result vectorstore.
Variable similarity_search : vectorstore -> string -> nat -> result (list Document).


End Sequence.

